(** * LiveWell-E: a shallow embedding of the check-in dialogue core

    The development follows the Python sources:
    - [Py]       the fragment of Python's str/int/float behaviour the code uses;
    - [Re]       a backtracking matcher for the regular expressions of nodes.py;
    - [Frailty]  app/tools/frailty.py (PRISMA-7 scoring and wizard helpers);
    - [Routine]  app/tools/routine.py (plan validation and rules-based fallback);
    - [Nodes]    app/graph/nodes.py, app/graph/build.py and the chat turn of
                 app/main.py;
    - [LiveWellE] the second implementation under livewell-e/backend/app;
    - [Main]     the other endpoints of app/main.py and turns in sequence;
    - [Memory]   app/memory.py (the session store and the snapshot);
    - [LiveWellEGraph] the wizard and the classifier of livewell-e;
    - [Wf]       the states the dialogue keeps itself in.

    Text is a sequence of code points below 256 (Rocq's [ascii] read as
    Latin-1), so every character table below is the restriction of Python's
    Unicode tables to that range. *)

From Stdlib Require Import ZArith Ascii String List Bool Lia.
From stdpp Require Import base option list gmap strings pretty.

Set Warnings "-register-all".

Local Open Scope Z_scope.

(* ===================================================================== *)
(** ** Exceptions and results *)

Inductive exn : Type :=
| IndexError
| KeyError
| TypeError
| ValueError
| OverflowError
| ZeroDivisionError
| AttributeError.

Inductive result (A : Type) : Type :=
| Ok (a : A)
| Raise (e : exn).
Arguments Ok {A} a.
Arguments Raise {A} e.

Definition rbind {A B : Type} (m : result A) (f : A -> result B) : result B :=
  match m with
  | Ok a => f a
  | Raise e => Raise e
  end.

Notation "'let*' x ':=' m 'in' k" := (rbind m (fun x => k))
  (at level 10, x name, m at level 100, k at level 200).
Notation "'let*' ' pat ':=' m 'in' k" :=
  (rbind m (fun x => match x with pat => k end))
  (at level 10, pat pattern, m at level 100, k at level 200).

(** [try: ... except Exception: handler] *)
Definition try_except {A : Type} (m : result A) (handler : A) : A :=
  match m with
  | Ok a => a
  | Raise _ => handler
  end.

(** [x is not None] *)
Definition is_some {A : Type} (x : option A) : bool :=
  match x with Some _ => true | None => false end.

(* ===================================================================== *)
(** ** Python strings, integers and the part of [float] the code reaches *)

Module Py.

Definition code (c : ascii) : N := N_of_ascii c.

Definition between (lo hi n : N) : bool := ((lo <=? n) && (n <=? hi))%N.

(** [str.isspace] on one character; also what [str.strip], [str.split] and
    the regex class [\s] use. *)
Definition isspace (c : ascii) : bool :=
  let n := code c in
  between 9 13 n || between 28 32 n || (n =? 133)%N || (n =? 160)%N.

(** The regex class [\d]. *)
Definition isdigit (c : ascii) : bool := between 48 57 (code c).

(** ASCII letters, the class [[a-zA-Z]]. *)
Definition isasciialpha (c : ascii) : bool :=
  let n := code c in between 65 90 n || between 97 122 n.

(** The regex class [\w]: [str.isalnum] or an underscore. *)
Definition isword (c : ascii) : bool :=
  let n := code c in
  between 48 57 n || between 65 90 n || (n =? 95)%N || between 97 122 n
  || (n =? 170)%N || between 178 179 n || (n =? 181)%N
  || between 185 186 n || between 188 190 n
  || between 192 214 n || between 216 246 n || between 248 255 n.

(** [str.lower] on one character. *)
Definition lower_char (c : ascii) : ascii :=
  let n := code c in
  if between 65 90 n || between 192 214 n || between 216 222 n
  then ascii_of_N (n + 32)
  else c.

Fixpoint lower (s : string) : string :=
  match s with
  | EmptyString => EmptyString
  | String c s' => String (lower_char c) (lower s')
  end.

Fixpoint lstrip (s : string) : string :=
  match s with
  | EmptyString => EmptyString
  | String c s' => if isspace c then lstrip s' else s
  end.

(** [rstrip] keeps a character when it is not a space or when something
    that is kept follows it. *)
Fixpoint rstrip (s : string) : string :=
  match s with
  | EmptyString => EmptyString
  | String c s' =>
      match rstrip s' with
      | EmptyString => if isspace c then EmptyString else String c EmptyString
      | r => String c r
      end
  end.

Definition strip (s : string) : string := rstrip (lstrip s).

(** [str.split()] without arguments: maximal runs of non-space characters.
    [cur] is the run being read, reversed. *)
Fixpoint split_go (s : string) (cur : list ascii) : list string :=
  let flush (rest : list string) : list string :=
    match cur with
    | [] => rest
    | _ => string_of_list_ascii (rev cur) :: rest
    end in
  match s with
  | EmptyString => flush []
  | String c s' =>
      if isspace c then flush (split_go s' []) else split_go s' (c :: cur)
  end.

Definition split (s : string) : list string := split_go s [].

Definition startswith (s p : string) : bool := String.prefix p s.

(** [sub in s] *)
Fixpoint contains (s sub : string) : bool :=
  String.prefix sub s ||
  match s with
  | EmptyString => false
  | String _ s' => contains s' sub
  end.

Fixpoint take (n : nat) (s : string) : string :=
  match n, s with
  | O, _ => EmptyString
  | S _, EmptyString => EmptyString
  | S n', String c s' => String c (take n' s')
  end.

(** [s.replace(old, new)] for a non-empty [old]: non-overlapping
    occurrences, left to right.  [skip] counts the characters of an
    occurrence still to be dropped. *)
Fixpoint replace_go (s old new : string) (skip : nat) : string :=
  match s with
  | EmptyString => EmptyString
  | String c s' =>
      match skip with
      | S k => replace_go s' old new k
      | O =>
          if String.prefix old s
          then new +:+ replace_go s' old new (String.length old - 1)%nat
          else String c (replace_go s' old new O)
      end
  end.

Definition replace (s old new : string) : string := replace_go s old new O.

(** [l[i]]: a negative index counts from the end. *)
Definition list_index {A : Type} (l : list A) (i : Z) : result A :=
  let j := if i <? 0 then i + Z.of_nat (length l) else i in
  if j <? 0 then Raise IndexError
  else match l !! Z.to_nat j with
       | Some x => Ok x
       | None => Raise IndexError
       end.

(** [x in {...}] and [x in [...]] for strings. *)
Definition mem (x : string) (l : list string) : bool :=
  existsb (String.eqb x) l.

(** [sep.join(items)] *)
Fixpoint join (sep : string) (items : list string) : string :=
  match items with
  | [] => EmptyString
  | [x] => x
  | x :: rest => x +:+ sep +:+ join sep rest
  end.

(** [str(n)] for an integer. *)
Definition str_of_int (z : Z) : string := pretty z.

(** Truth value of a string. *)
Definition truthy_str (s : string) : bool :=
  match s with EmptyString => false | _ => true end.

(** *** [int(s)] for a string

    Surrounding whitespace is dropped; then an optional sign and decimal
    digits, where single underscores may separate digits. *)
Definition digit_val (c : ascii) : Z := Z.of_N (code c) - 48.

(** [after_digit] tells whether the previous character was a digit, which
    is where an underscore or the end of the literal is allowed. *)
Fixpoint int_digits (s : string) (acc : Z) (after_digit : bool) : option Z :=
  match s with
  | EmptyString => if after_digit then Some acc else None
  | String c s' =>
      if isdigit c then int_digits s' (10 * acc + digit_val c) true
      else if (code c =? 95)%N
           then (if after_digit then int_digits s' acc false else None)
           else None
  end.

Definition int_of_str (s : string) : result Z :=
  let t := strip s in
  let parsed :=
    match t with
    | String "-" t' => option_map Z.opp (int_digits t' 0 false)
    | String "+" t' => int_digits t' 0 false
    | _ => int_digits t 0 false
    end in
  match parsed with
  | Some z => Ok z
  | None => Raise ValueError
  end.

(** Digits matched by a regex group [\d{a,b}], read by [int(...)]. *)
Fixpoint digits_val (s : string) (acc : Z) : Z :=
  match s with
  | EmptyString => acc
  | String c s' => digits_val s' (10 * acc + digit_val c)
  end.

(** *** [float] on integers

    [float(str(z))] is [z] rounded to 53 significant bits, ties to even;
    it is infinite from [2^1024 - 2^970] on, and [int] of an infinite float
    raises OverflowError. *)
Definition round53 (z : Z) : Z :=
  let a := Z.abs z in
  let e := Z.log2 a - 52 in
  if e <=? 0 then z
  else
    let q := Z.shiftr a e in
    let r := a - Z.shiftl q e in
    let half := Z.shiftl 1 (e - 1) in
    let q' := if (half <? r) || ((r =? half) && Z.odd q) then q + 1 else q in
    Z.sgn z * Z.shiftl q' e.

Definition float_max_bound : Z := 2 ^ 1024.

Definition int_of_float_of_int (z : Z) : result Z :=
  let r := round53 z in
  if Z.abs r <? float_max_bound then Ok r else Raise OverflowError.

(** [int(x * 0.6)] for a non-negative integer [x] below [2^53]: the double
    nearest to 0.6 is [5404319552844595 / 2^53]; the exact product is
    rounded to 53 bits, then truncated. *)
Definition float_06_num : Z := 5404319552844595.

Definition int_mul_06 (x : Z) : Z :=
  Z.shiftr (round53 (x * float_06_num)) 53.

(** [round(n / 2.0)] for an integer [n] of moderate size: the quotient is
    exact, and [round] sends halves to the even neighbour. *)
Definition round_half (n : Z) : Z :=
  let q := n / 2 in
  if Z.even n then q else if Z.even q then q else q + 1.

End Py.

(* ===================================================================== *)
(** ** Values held by the dictionaries of the program *)

(** What a slot or a PRISMA answer can hold. *)
Inductive pyval : Type :=
| PNone
| PBool (b : bool)
| PInt (z : Z)
| PStr (s : string).

(** [str(x)]; integers are taken below the interpreter's limit on decimal
    conversion, where there is one. *)
Definition py_str (v : pyval) : string :=
  match v with
  | PNone => "None"
  | PBool true => "True"
  | PBool false => "False"
  | PInt z => Py.str_of_int z
  | PStr s => s
  end.

(** Truth value, as used by [x or default]. *)
Definition py_truthy (v : pyval) : bool :=
  match v with
  | PNone => false
  | PBool b => b
  | PInt z => negb (z =? 0)
  | PStr s => Py.truthy_str s
  end.

(** [int(x)] *)
Definition py_int (v : pyval) : result Z :=
  match v with
  | PNone => Raise TypeError
  | PBool b => Ok (if b then 1 else 0)
  | PInt z => Ok z
  | PStr s => Py.int_of_str s
  end.

(** JSON-like values, as a suggester may return them. *)
Inductive json : Type :=
| JNull
| JBool (b : bool)
| JInt (z : Z)
| JFloat (mantissa exponent : Z)
| JStr (s : string)
| JList (items : list json)
| JDict (fields : list (string * json)).

(* ===================================================================== *)
(** ** app/tools/frailty.py *)

Module Frailty.

Record Question : Type := {
  key : string;
  question : string;
  reverse : bool;
}.

Definition PRISMA_QUESTIONS : list Question := [
  {| key := "over_85";
     question := "Are you over 85? (yes/no)";
     reverse := false |};
  {| key := "male";
     question := "Are you male? (yes/no)";
     reverse := false |};
  {| key := "limit_activities";
     question := "Do health problems limit your activities? (yes/no)";
     reverse := false |};
  {| key := "need_help_regularly";
     question := "Do you need help on a regular basis? (yes/no)";
     reverse := false |};
  {| key := "stay_home";
     question := "Do health problems force you to stay at home? (yes/no)";
     reverse := false |};
  {| key := "someone_close";
     question := "In case of need, can you count on someone close to you? (yes/no)";
     reverse := true |};
  {| key := "use_aid";
     question := "Do you regularly use a cane, walker, or wheelchair? (yes/no)";
     reverse := false |}
].

Definition PRISMA_ORDER : list string := map key PRISMA_QUESTIONS.

Definition PRISMA_HIGH_RISK_THRESHOLD : Z := 3.

Definition _normalize_bool (value : pyval) : option bool :=
  match value with
  | PBool b => Some b
  | PNone => None
  | _ =>
      let s := Py.lower (Py.strip (py_str value)) in
      if Py.mem s ["y"; "yes"; "true"; "1"] then Some true
      else if Py.mem s ["n"; "no"; "false"; "0"] then Some false
      else None
  end.

(** The boolean a key is answered with: [None] when the key is missing or
    its value does not normalize. *)
Definition normalized_answer (answers : gmap string pyval) (k : string)
    : option bool :=
  match answers !! k with
  | Some v => _normalize_bool v
  | None => None
  end.

(** First loop of [prisma7_score]: every key present and parseable, else
    the early [return None]. *)
Fixpoint normalize_loop (qs : list Question) (answers : gmap string pyval)
    (normalized : gmap string bool) : option (gmap string bool) :=
  match qs with
  | [] => Some normalized
  | q :: qs' =>
      match answers !! key q with
      | None => None
      | Some v =>
          match _normalize_bool v with
          | None => None
          | Some b => normalize_loop qs' answers (<[key q := b]> normalized)
          end
      end
  end.

(** Second loop: [normalized[k]] raises KeyError on a missing key. *)
Fixpoint score_loop (qs : list Question) (normalized : gmap string bool)
    (score : Z) : result Z :=
  match qs with
  | [] => Ok score
  | q :: qs' =>
      match normalized !! key q with
      | None => Raise KeyError
      | Some v =>
          if reverse q
          then score_loop qs' normalized (score + (if negb v then 1 else 0))
          else score_loop qs' normalized (score + (if v then 1 else 0))
      end
  end.

Definition prisma7_score (answers : gmap string pyval) : result (option Z) :=
  match normalize_loop PRISMA_QUESTIONS answers ∅ with
  | None => Ok None
  | Some normalized =>
      let* score := score_loop PRISMA_QUESTIONS normalized 0 in
      Ok (Some score)
  end.

Definition prisma7_is_high_risk (score : option Z) : option bool :=
  match score with
  | None => None
  | Some s => Some (PRISMA_HIGH_RISK_THRESHOLD <=? s)
  end.

Fixpoint next_unanswered_loop (qs : list Question)
    (answers : gmap string pyval) : option (string * string) :=
  match qs with
  | [] => None
  | q :: qs' =>
      let v := default PNone (answers !! key q) in
      match _normalize_bool v with
      | None => Some (key q, question q)
      | Some _ => next_unanswered_loop qs' answers
      end
  end.

Definition prisma7_next_unanswered (answers : gmap string pyval)
    : option (string * string) :=
  next_unanswered_loop PRISMA_QUESTIONS answers.

(** In place in the source; the updated dictionary is returned here.  The
    stored value is the normalized one, [None] included. *)
Definition prisma7_set_answer (answers : gmap string pyval) (k : string)
    (value : pyval) : gmap string pyval :=
  if Py.mem k PRISMA_ORDER
  then <[k := match _normalize_bool value with
              | Some b => PBool b
              | None => PNone
              end]> answers
  else answers.

End Frailty.

(* ===================================================================== *)
(** ** Regular expressions

    The patterns of nodes.py use literals, classes, alternation, bounded and
    unbounded greedy repetition, the word boundary and one capturing group.
    The matcher is the backtracking one of Python's [re]: alternatives are
    tried left to right, repetitions take as much as they can first, and the
    first success wins, which fixes the text a group captures. *)

Module Re.

Inductive rx : Type :=
| Eps
| Cls (p : ascii -> bool)
| Seq (r1 r2 : rx)
| Alt (r1 r2 : rx)
| Rep (r : rx) (lo : nat) (hi : option nat)
| WordB
| Grp (r : rx).

Definition is_word_opt (c : option ascii) : bool :=
  match c with Some a => Py.isword a | None => false end.

Definition head (s : string) : option ascii :=
  match s with String c _ => Some c | EmptyString => None end.

Definition below (cnt : nat) (hi : option nat) : bool :=
  match hi with Some h => (cnt <? h)%nat | None => true end.

Definition orelse {A : Type} (x y : option A) : option A :=
  match x with Some a => Some a | None => y end.

(** [run r prev s cap k]: match [r] at the front of [s], where [prev] is the
    character before it and [cap] the text of the group so far, then hand
    what is left to [k]. *)
Fixpoint run {A : Type} (r : rx) (prev : option ascii) (s : string)
    (cap : option string)
    (k : option ascii -> string -> option string -> option A) : option A :=
  match r with
  | Eps => k prev s cap
  | Cls p =>
      match s with
      | String c s' => if p c then k (Some c) s' cap else None
      | EmptyString => None
      end
  | Seq r1 r2 =>
      run r1 prev s cap (fun prev' s' cap' => run r2 prev' s' cap' k)
  | Alt r1 r2 => orelse (run r1 prev s cap k) (run r2 prev s cap k)
  | Rep r1 lo hi =>
      (fix loop (fuel cnt : nat) (prev : option ascii) (s : string)
           (cap : option string) {struct fuel} : option A :=
         let stop := if (lo <=? cnt)%nat then k prev s cap else None in
         match fuel with
         | O => stop
         | S fuel' =>
             if below cnt hi
             then orelse
                    (run r1 prev s cap (fun prev' s' cap' =>
                       if (String.length s' <? String.length s)%nat
                       then loop fuel' (S cnt) prev' s' cap'
                       else None))
                    stop
             else stop
         end) (String.length s) O prev s cap
  | WordB =>
      if xorb (is_word_opt prev) (is_word_opt (head s))
      then k prev s cap else None
  | Grp r1 =>
      run r1 prev s cap (fun prev' s' _ =>
        k prev' s' (Some (Py.take (String.length s - String.length s') s)))
  end.

(** A finished match: the captured group, if the pattern has one. *)
Definition done_anywhere (_ : option ascii) (_ : string)
    (cap : option string) : option (option string) := Some cap.

Definition done_at_end (_ : option ascii) (s : string)
    (cap : option string) : option (option string) :=
  match s with EmptyString => Some cap | _ => None end.

(** [re.search]: the leftmost position where a match starts. *)
Fixpoint search_from (r : rx) (prev : option ascii) (s : string)
    : option (option string) :=
  orelse (run r prev s None done_anywhere)
         match s with
         | EmptyString => None
         | String c s' => search_from r (Some c) s'
         end.

Definition search_match (r : rx) (s : string) : option (option string) :=
  search_from r None s.

(** [bool(re.search(r, s))] *)
Definition search (r : rx) (s : string) : bool :=
  is_some (search_match r s).

(** [m.group(1)] of [re.search(r, s)], when there is a match. *)
Definition search_group (r : rx) (s : string) : option string :=
  match search_match r s with
  | Some (Some g) => Some g
  | _ => None
  end.

(** [bool(re.fullmatch(r, s))] *)
Definition fullmatch (r : rx) (s : string) : bool :=
  is_some (run r None s None done_at_end).

(** *** Pattern builders *)

Definition chr (c : ascii) : rx := Cls (Ascii.eqb c).

(** A literal character under [re.IGNORECASE]; [c] is lower case. *)
Definition chri (c : ascii) : rx := Cls (fun t => Ascii.eqb (Py.lower_char t) c).

Fixpoint lit (s : string) : rx :=
  match s with
  | EmptyString => Eps
  | String c EmptyString => chr c
  | String c s' => Seq (chr c) (lit s')
  end.

Fixpoint liti (s : string) : rx :=
  match s with
  | EmptyString => Eps
  | String c EmptyString => chri c
  | String c s' => Seq (chri c) (liti s')
  end.

Fixpoint seqs (rs : list rx) : rx :=
  match rs with
  | [] => Eps
  | [r] => r
  | r :: rs' => Seq r (seqs rs')
  end.

Fixpoint alts (rs : list rx) : rx :=
  match rs with
  | [] => Cls (fun _ => false)
  | [r] => r
  | r :: rs' => Alt r (alts rs')
  end.

Definition opt (r : rx) : rx := Rep r 0 (Some 1%nat).
Definition star (r : rx) : rx := Rep r 0 None.
Definition plus (r : rx) : rx := Rep r 1 None.
Definition rep (r : rx) (lo hi : nat) : rx := Rep r lo (Some hi).

Definition space : rx := Cls Py.isspace.
Definition digit : rx := Cls Py.isdigit.

(** [\bWORD\b] *)
Definition word (w : string) : rx := seqs [WordB; lit w; WordB].

End Re.

(* ===================================================================== *)
(** ** What the program takes from outside *)

Record Env : Type := {
  (** [int(datetime.utcnow().strftime("%Y%j"))] *)
  utc_year_day : Z;
  (** [int(float(s))] for a stripped string [s]; [Raise] when [float] or
      [int] raises. *)
  float_int_of_str : string -> result Z;
  (** [_stable_seed]: eight hex digits of a SHA-256 digest of the session
      identifier and the day. *)
  stable_seed : option string -> Z;
  (** [json.loads(_call_llm(sys, usr))] for the prompt built from the slots
      and the score; [Raise] when [json.loads] raises. *)
  llm_json : gmap string pyval -> option Z -> result json;
}.

(* ===================================================================== *)
(** ** Operations on JSON-like values *)

Module Json.

Fixpoint lookup (k : string) (fields : list (string * json)) : option json :=
  match fields with
  | [] => None
  | (k', v) :: rest => if String.eqb k k' then Some v else lookup k rest
  end.

(** [d[k]] *)
Definition index (k : string) (fields : list (string * json)) : result json :=
  match lookup k fields with
  | Some v => Ok v
  | None => Raise KeyError
  end.

(** [d[k] = v]: an existing key keeps its place, a new one goes last. *)
Fixpoint set (k : string) (v : json) (fields : list (string * json))
    : list (string * json) :=
  match fields with
  | [] => [(k, v)]
  | (k', v') :: rest =>
      if String.eqb k k' then (k, v) :: rest else (k', v') :: set k v rest
  end.

Definition is_str (j : json) : bool :=
  match j with JStr _ => true | _ => false end.

(** [isinstance(j, list) and all(isinstance(i, str) for i in j)] *)
Definition is_str_list (j : json) : bool :=
  match j with
  | JList items => forallb is_str items
  | _ => false
  end.

(** [j in {s1, ..., sn}] for a set of strings: hashing a list or a dict
    raises TypeError. *)
Definition in_str_set (j : json) (l : list string) : result bool :=
  match j with
  | JList _ | JDict _ => Raise TypeError
  | JStr s => Ok (Py.mem s l)
  | _ => Ok false
  end.

(** The strings of a list of strings; TypeError stands for any use of the
    value as such a list that fails. *)
Fixpoint strings_of (items : list json) : result (list string) :=
  match items with
  | [] => Ok []
  | JStr s :: rest => let* ss := strings_of rest in Ok (s :: ss)
  | _ :: _ => Raise TypeError
  end.

Definition of_strings (l : list string) : json := JList (map JStr l).

End Json.

(* ===================================================================== *)
(** ** app/tools/routine.py *)

Module Routine.

Definition int_float_str (E : Env) (x : pyval) : result Z :=
  match x with
  | PInt z => Py.int_of_float_of_int z
  | PNone => Raise ValueError
  | PBool _ => Raise ValueError
  | PStr s => float_int_of_str E (Py.strip s)
  end.

Definition _as_int (E : Env) (x : pyval) (default : Z) (lo hi : option Z) : Z :=
  let v := try_except (int_float_str E x) default in
  let v := match lo with Some l => Z.max l v | None => v end in
  let v := match hi with Some h => Z.min h v | None => v end in
  v.

Definition _as_str (x : pyval) (default : string) : string :=
  let s := Py.strip (py_str x) in
  if Py.truthy_str s then s else default.

Definition _risk_from_score (score : option Z) : string :=
  match score with
  | None => "moderate"
  | Some s =>
      if s <=? 2 then "low"
      else if s <=? 4 then "moderate"
      else "high"
  end.

Definition RISKS : list string := ["low"; "moderate"; "high"].

Definition validate_body (obj : list (string * json)) : result (option json) :=
  let ok k :=
    match Json.lookup k obj with
    | Some v => Json.is_str_list v
    | None => false
    end in
  if forallb ok ["morning"; "afternoon"; "evening"] then
    let notes := default (JList []) (Json.lookup "notes" obj) in
    let notes := if Json.is_str_list notes then notes else JList [] in
    let risk := default JNull (Json.lookup "risk" obj) in
    let* known := Json.in_str_set risk RISKS in
    let risk := if known then risk else JStr "moderate" in
    let* morning := Json.index "morning" obj in
    let* afternoon := Json.index "afternoon" obj in
    let* evening := Json.index "evening" obj in
    Ok (Some (JDict [("risk", risk); ("morning", morning);
                     ("afternoon", afternoon); ("evening", evening);
                     ("notes", notes)]))
  else Ok None.

Definition _validate_plan (obj : list (string * json)) : option json :=
  try_except (validate_body obj) None.

(** [options[variant % len(options)]] *)
Definition _pick {A : Type} (options : list A) (variant : Z) : result A :=
  match options with
  | [] => Raise ZeroDivisionError
  | _ =>
      match options !! Z.to_nat (variant mod Z.of_nat (length options)) with
      | Some x => Ok x
      | None => Raise IndexError
      end
  end.

(** The numbers of the fallback plan, named as the locals of
    [_fallback_plan]. *)
Definition bump_of (energy : Z) (risk : string) : Z :=
  let bump :=
    if energy <=? 3 then 300
    else if 8 <=? energy then 1500
    else 800 in
  if String.eqb risk "high" then Py.int_mul_06 bump else bump.

Definition walk_target_of (steps bump : Z) : Z :=
  Z.min 8000 (Z.max 1000 (steps + bump)).

Definition steps_to_go_of (steps walk_target : Z) : Z :=
  Z.max 0 (walk_target - steps).

Definition reps_of (energy : Z) (risk : string) : Z :=
  let base_reps :=
    if String.eqb risk "high" then 6
    else if String.eqb risk "moderate" then 8 else 10 in
  let adj := Py.round_half (energy - 5) in
  Z.max 4 (Z.min 14 (base_reps + adj)).

Definition bal_of (energy : Z) (risk : string) : Z :=
  let base_bal :=
    if String.eqb risk "high" then 10
    else if String.eqb risk "moderate" then 15 else 20 in
  Z.max 8 (Z.min 30 (base_bal + (energy - 5))).

Definition slot_mood (slots : gmap string pyval) : string :=
  Py.lower (_as_str (default PNone (slots !! "mood")) "okay").

Definition slot_energy (E : Env) (slots : gmap string pyval) : Z :=
  _as_int E (default PNone (slots !! "energy")) 5 (Some 0) (Some 10).

Definition slot_steps (E : Env) (slots : gmap string pyval) : Z :=
  _as_int E (default PNone (slots !! "steps")) 0 (Some 0) (Some 100000).

Definition _fallback_plan (E : Env) (slots : gmap string pyval)
    (frailty_score : option Z) (seed : option Z) : result json :=
  let risk := _risk_from_score frailty_score in
  let mood := slot_mood slots in
  let energy := slot_energy E slots in
  let steps := slot_steps E slots in
  let seed := match seed with Some s => s | None => utc_year_day E end in
  let variant := seed mod 3 in
  let bump := bump_of energy risk in
  let walk_target := walk_target_of steps bump in
  let steps_to_go := steps_to_go_of steps walk_target in
  let reps := Py.str_of_int (reps_of energy risk) in
  let bal := bal_of energy risk in
  let hydrate := "Drink a glass of water (250 ml)" in
  let breathers := [
    "Box breathing 4-4-4-4 (5-7 min)";
    "4-7-8 breathing (5-7 min)";
    "Pursed-lip breathing (5 min)" ] in
  let am_moves := [
    "Gentle walk: target ~" +:+ Py.str_of_int steps_to_go +:+ " steps";
    "Hallway laps: aim ~" +:+ Py.str_of_int (Z.max 6 (steps_to_go / 150))
      +:+ " easy passes";
    "Out-and-back stroll: reach ~" +:+ Py.str_of_int steps_to_go
      +:+ " more steps" ] in
  let pm_strength_sets := [
    ["Chair sit-to-stands x" +:+ reps; "Calf raises x" +:+ reps];
    ["Wall push-ups x" +:+ reps; "Counter rows or band pulls x" +:+ reps];
    ["Step-ups to a low step x" +:+ reps; "Heel-to-toe walk 2x20 steps"] ] in
  let mobility_snacks := [
    "Shoulder rolls and ankle circles (2 min)";
    "Neck turns and gentle hip circles (2 min)";
    "Seated cat-cow and wrist circles (2 min)" ] in
  let evening_winddowns := [
    "Gentle stretches: hamstrings, hip flexors, chest (5 min)";
    "Progressive muscle relaxation (5-7 min)";
    "Guided mindfulness or relaxing audio (10 min)" ] in
  let* breather := _pick breathers variant in
  let* am_move := _pick am_moves variant in
  let morning := [breather; am_move; hydrate] in
  let* strength := _pick pm_strength_sets variant in
  let* snack := _pick mobility_snacks variant in
  let afternoon :=
    strength ++
    ["Balance hold near support: " +:+ Py.str_of_int bal +:+ "s/side";
     snack; hydrate] in
  let* winddown := _pick evening_winddowns variant in
  let evening := [winddown; "Optional: 1-line gratitude note"] in
  let notes := [
    "Mood: " +:+ mood;
    "Energy: " +:+ Py.str_of_int energy +:+ "/10";
    "Steps so far: " +:+ Py.str_of_int steps;
    "Frailty risk (PRISMA-7): " +:+ risk;
    "Safety: stop if pain or dizziness; keep a chair or rail nearby.";
    "If any new symptoms, consult a clinician." ] in
  Ok (JDict [("risk", JStr risk);
             ("morning", Json.of_strings morning);
             ("afternoon", Json.of_strings afternoon);
             ("evening", Json.of_strings evening);
             ("notes", Json.of_strings notes)]).

(** A suggester returns a value or raises. *)
Definition LLMSuggester : Type :=
  gmap string pyval -> option Z -> result json.

(** The body of the [try] block; [Ok None] when it falls through to the
    fallback without raising. *)
Definition suggested_plan (E : Env) (slots : gmap string pyval)
    (frailty_score : option Z) (llm_suggester : LLMSuggester)
    : result (option json) :=
  let* proposed := llm_suggester slots frailty_score in
  let obj := match proposed with JDict fields => fields | _ => [] end in
  match _validate_plan obj with
  | Some (JDict valid) =>
      let mood := slot_mood slots in
      let energy := slot_energy E slots in
      let steps := slot_steps E slots in
      let risk := _risk_from_score frailty_score in
      let enrich := [
        "(auto) Mood: " +:+ mood;
        "(auto) Energy: " +:+ Py.str_of_int energy +:+ "/10";
        "(auto) Steps so far: " +:+ Py.str_of_int steps;
        "(auto) Frailty risk: " +:+ risk ] in
      let* existing :=
        match default (JList []) (Json.lookup "notes" valid) with
        | JList items => Json.strings_of items
        | _ => Raise TypeError
        end in
      let* notes := Json.index "notes" valid in
      let* notes :=
        match notes with
        | JList items =>
            Ok (JList (items ++
                  map JStr (List.filter (fun n => negb (Py.mem n existing)) enrich)))
        | _ => Raise TypeError
        end in
      let valid := Json.set "notes" notes valid in
      let* known :=
        Json.in_str_set (default JNull (Json.lookup "risk" valid)) RISKS in
      let valid := if known then valid else Json.set "risk" (JStr risk) valid in
      Ok (Some (JDict valid))
  | _ => Ok None
  end.

Definition generate_daily_plan (E : Env) (slots : gmap string pyval)
    (frailty_score : option Z) (llm_suggester : option LLMSuggester)
    (seed : option Z) : result json :=
  let tried :=
    match llm_suggester with
    | Some f => try_except (suggested_plan E slots frailty_score f) None
    | None => None
    end in
  match tried with
  | Some valid => Ok valid
  | None => _fallback_plan E slots frailty_score seed
  end.

(** The plan schema of the module's docstring. *)
Definition field_is_str_list (k : string) (fields : list (string * json)) : bool :=
  match Json.lookup k fields with
  | Some v => Json.is_str_list v
  | None => false
  end.

Definition plan_ok (p : json) : bool :=
  match p with
  | JDict fields =>
      field_is_str_list "morning" fields
      && field_is_str_list "afternoon" fields
      && field_is_str_list "evening" fields
      && field_is_str_list "notes" fields
      && match Json.lookup "risk" fields with
         | Some (JStr r) => Py.mem r RISKS
         | _ => false
         end
  | _ => false
  end.

End Routine.

(* ===================================================================== *)
(** ** app/graph/state.py: the session state *)

Record Msg : Type := {
  role : string;
  content : string;
}.

(** One field per key of the state dictionary.  For the keys the code reads
    with [state.get(k)] or [state.get(k) or d] (reply, awaiting,
    frailty_score, plan_seed, label, session_id) [None] stands for a key that
    is absent or holds [None]; for the others it stands for an absent key.
    Message timestamps are left out. *)
Record State : Type := {
  messages : list Msg;
  reply : option string;
  slots : option (gmap string pyval);
  required_slots : option (list string);
  awaiting : option string;
  prisma_answers : option (gmap string pyval);
  prisma_index : option Z;
  frailty_score : option Z;
  plan : option json;
  plan_seed : option Z;
  label : option string;
  session_id : option string;
}.

Definition DEFAULT_REQUIRED_SLOTS : list string := ["mood"; "energy"; "steps"].

Definition new_session : State := {|
  messages := [];
  reply := None;
  slots := Some ∅;
  required_slots := Some DEFAULT_REQUIRED_SLOTS;
  awaiting := None;
  prisma_answers := Some ∅;
  prisma_index := Some 0;
  frailty_score := None;
  plan := Some (JDict []);
  plan_seed := None;
  label := None;
  session_id := None;
|}.

Definition set_messages (v : list Msg) (st : State) : State :=
  {| messages := v; reply := reply st; slots := slots st;
     required_slots := required_slots st; awaiting := awaiting st;
     prisma_answers := prisma_answers st; prisma_index := prisma_index st;
     frailty_score := frailty_score st; plan := plan st;
     plan_seed := plan_seed st; label := label st;
     session_id := session_id st |}.

Definition set_reply (v : option string) (st : State) : State :=
  {| messages := messages st; reply := v; slots := slots st;
     required_slots := required_slots st; awaiting := awaiting st;
     prisma_answers := prisma_answers st; prisma_index := prisma_index st;
     frailty_score := frailty_score st; plan := plan st;
     plan_seed := plan_seed st; label := label st;
     session_id := session_id st |}.

Definition set_slots (v : gmap string pyval) (st : State) : State :=
  {| messages := messages st; reply := reply st; slots := Some v;
     required_slots := required_slots st; awaiting := awaiting st;
     prisma_answers := prisma_answers st; prisma_index := prisma_index st;
     frailty_score := frailty_score st; plan := plan st;
     plan_seed := plan_seed st; label := label st;
     session_id := session_id st |}.

Definition set_awaiting (v : option string) (st : State) : State :=
  {| messages := messages st; reply := reply st; slots := slots st;
     required_slots := required_slots st; awaiting := v;
     prisma_answers := prisma_answers st; prisma_index := prisma_index st;
     frailty_score := frailty_score st; plan := plan st;
     plan_seed := plan_seed st; label := label st;
     session_id := session_id st |}.

Definition set_prisma_answers (v : gmap string pyval) (st : State) : State :=
  {| messages := messages st; reply := reply st; slots := slots st;
     required_slots := required_slots st; awaiting := awaiting st;
     prisma_answers := Some v; prisma_index := prisma_index st;
     frailty_score := frailty_score st; plan := plan st;
     plan_seed := plan_seed st; label := label st;
     session_id := session_id st |}.

Definition set_prisma_index (v : Z) (st : State) : State :=
  {| messages := messages st; reply := reply st; slots := slots st;
     required_slots := required_slots st; awaiting := awaiting st;
     prisma_answers := prisma_answers st; prisma_index := Some v;
     frailty_score := frailty_score st; plan := plan st;
     plan_seed := plan_seed st; label := label st;
     session_id := session_id st |}.

Definition set_frailty_score (v : option Z) (st : State) : State :=
  {| messages := messages st; reply := reply st; slots := slots st;
     required_slots := required_slots st; awaiting := awaiting st;
     prisma_answers := prisma_answers st; prisma_index := prisma_index st;
     frailty_score := v; plan := plan st;
     plan_seed := plan_seed st; label := label st;
     session_id := session_id st |}.

Definition set_plan (v : json) (st : State) : State :=
  {| messages := messages st; reply := reply st; slots := slots st;
     required_slots := required_slots st; awaiting := awaiting st;
     prisma_answers := prisma_answers st; prisma_index := prisma_index st;
     frailty_score := frailty_score st; plan := Some v;
     plan_seed := plan_seed st; label := label st;
     session_id := session_id st |}.

Definition set_plan_seed (v : Z) (st : State) : State :=
  {| messages := messages st; reply := reply st; slots := slots st;
     required_slots := required_slots st; awaiting := awaiting st;
     prisma_answers := prisma_answers st; prisma_index := prisma_index st;
     frailty_score := frailty_score st; plan := plan st;
     plan_seed := Some v; label := label st;
     session_id := session_id st |}.

Definition set_label (v : string) (st : State) : State :=
  {| messages := messages st; reply := reply st; slots := slots st;
     required_slots := required_slots st; awaiting := awaiting st;
     prisma_answers := prisma_answers st; prisma_index := prisma_index st;
     frailty_score := frailty_score st; plan := plan st;
     plan_seed := plan_seed st; label := Some v;
     session_id := session_id st |}.

Definition set_session_id (v : string) (st : State) : State :=
  {| messages := messages st; reply := reply st; slots := slots st;
     required_slots := required_slots st; awaiting := awaiting st;
     prisma_answers := prisma_answers st; prisma_index := prisma_index st;
     frailty_score := frailty_score st; plan := plan st;
     plan_seed := plan_seed st; label := label st;
     session_id := Some v |}.

Definition add_user_message (text : string) (st : State) : State :=
  set_messages (messages st ++ [{| role := "user"; content := text |}]) st.

Definition add_assistant_message (text : string) (st : State) : State :=
  set_reply (Some text)
    (set_messages (messages st ++ [{| role := "assistant"; content := text |}]) st).

Definition reset_reply (st : State) : State := set_reply None st.

(* ===================================================================== *)
(** ** app/graph/nodes.py *)

Module Nodes.

Import Re.

Definition nl : string := String (ascii_of_nat 10) EmptyString.

Definition YES : list string :=
  ["y"; "yes"; "yeah"; "yep"; "true"; "sure"; "go"; "start"; "plan"].
Definition NO : list string :=
  ["n"; "no"; "nope"; "false"; "later"; "not now"; "skip"].

Definition space_or_dash : rx :=
  Cls (fun c => Ascii.eqb c " " || Ascii.eqb c "-").

Definition check_in : rx := seqs [liti "check"; opt space_or_dash; liti "in"].

(** [\b(daily\s*check[ -]?in|check[ -]?in|checkup|check-up|todays?\s*check[ -]?in)\b] *)
Definition CHECKIN_RX : rx :=
  seqs [WordB;
        alts [seqs [liti "daily"; star space; check_in];
              check_in;
              liti "checkup";
              liti "check-up";
              seqs [liti "today"; opt (chri "s"); star space; check_in]];
        WordB].

(** [\b(motivat(e|ion)|pep\s*talk|encourage|boost|inspire)\b] *)
Definition MOTIVATE_RX : rx :=
  seqs [WordB;
        alts [seqs [liti "motivat"; alts [liti "e"; liti "ion"]];
              seqs [liti "pep"; star space; liti "talk"];
              liti "encourage";
              liti "boost";
              liti "inspire"];
        WordB].

(** [\b(restart|start over|redo)\b] *)
Definition RESTART_RX : rx :=
  seqs [WordB; alts [lit "restart"; lit "start over"; lit "redo"]; WordB].

Definition _yn (value : string) : option bool :=
  let v := Py.lower (Py.strip value) in
  if Py.mem v YES then Some true
  else if Py.mem v NO then Some false
  else None.

(** [(-?\d{1,6})] *)
Definition INT_RX : rx := Grp (seqs [opt (chr "-"); rep digit 1 6]).

Definition signed_digits_val (g : string) : Z :=
  match g with
  | String "-" d => - Py.digits_val d 0
  | _ => Py.digits_val g 0
  end.

Definition _get_int (text : string) : option Z :=
  if negb (Py.truthy_str text) then None
  else option_map signed_digits_val
         (search_group INT_RX (Py.replace text "," "")).

Definition any_word (ws : list string) (low : string) : bool :=
  existsb (fun w => search (word w) low) ws.

Definition _extract_mood_from_text (text : string) : option string :=
  let low := Py.lower text in
  (* \btired+d*\b *)
  if search (seqs [WordB; lit "tire"; plus (chr "d"); star (chr "d"); WordB]) low
  then Some "tired"
  else if any_word ["fatigued"; "exhausted"; "weary"; "sleepy"] low
  then Some "tired"
  else if any_word ["sad"; "down"; "low"; "depressed"; "blue"; "stressed";
                    "anxious"; "worried"] low
  then Some "low"
  else if search (seqs [WordB; lit "ok"; opt (lit "ay"); WordB]) low
          || search (word "fine") low || search (word "neutral") low
  then Some "okay"
  else if any_word ["good"; "great"; "happy"; "well"; "better"] low
  then Some "good"
  else None.

Definition colon_or_eq : rx :=
  Cls (fun c => Ascii.eqb c ":" || Ascii.eqb c "=").

(** [\bmood\s*[:=]?\s*([a-zA-Z]+)] *)
Definition MOOD_KV_RX : rx :=
  seqs [WordB; liti "mood"; star space; opt colon_or_eq; star space;
        Grp (plus (Cls Py.isasciialpha))].

(** [\benergy\s*[:=]?\s*(\d{1,2})] *)
Definition ENERGY_KV_RX : rx :=
  seqs [WordB; liti "energy"; star space; opt colon_or_eq; star space;
        Grp (rep digit 1 2)].

(** [\bsteps?\s*[:=]?\s*(\d{2,6})\b] *)
Definition STEPS_KV_RX : rx :=
  seqs [WordB; liti "step"; opt (chri "s"); star space; opt colon_or_eq;
        star space; Grp (rep digit 2 6); WordB].

(** [\b(\d{2,6})\s+steps?\b] *)
Definition STEPS_AFTER_RX : rx :=
  seqs [WordB; Grp (rep digit 2 6); plus space; liti "step"; opt (chri "s");
        WordB].

(** The dictionary [out] of the source, as the updates it makes to the
    slots it is merged into. *)
Definition _extract_slot_kv (text : string) (out : gmap string pyval)
    : gmap string pyval :=
  let out :=
    match search_group MOOD_KV_RX text with
    | Some g => <["mood" := PStr (Py.lower g)]> out
    | None =>
        match _extract_mood_from_text text with
        | Some g => <["mood" := PStr g]> out
        | None => out
        end
    end in
  let out :=
    match search_group ENERGY_KV_RX text with
    | Some g => <["energy" := PInt (Z.max 0 (Z.min 10 (Py.digits_val g 0)))]> out
    | None => out
    end in
  let m := match search_group STEPS_KV_RX text with
           | Some g => Some g
           | None => search_group STEPS_AFTER_RX text
           end in
  match m with
  | Some g =>
      let v := Py.digits_val g 0 in
      if 0 <=? v then <["steps" := PInt v]> out else out
  | None => out
  end.

(** [state.get("messages", [])[-1].get("content") if state.get("messages")
    else ""], then [or ""] *)
Definition last_user_text (st : State) : string :=
  match last (messages st) with
  | Some m => content m
  | None => ""
  end.

Definition awaiting_text (st : State) : string :=
  default "" (awaiting st).

Definition any_in (ws : list string) (low : string) : bool :=
  existsb (fun w => Py.contains low w) ws.

(** [\s*\d{1,6}\s*] and [\d{1,6}] *)
Definition NUMBER_PADDED_RX : rx := seqs [star space; rep digit 1 6; star space].
Definition NUMBER_RX : rx := rep digit 1 6.

Definition MOTIVATE_WORDS : list string :=
  ["motivation"; "motivate"; "pep"; "pep talk"].
Definition SLOT_WORDS : list string := ["mood"; "energy"; "steps"].

Definition classify_label (st : State) : string :=
  let txt := last_user_text st in
  let low := Py.lower txt in
  let awaiting := awaiting_text st in
  if String.eqb awaiting "confirm_checkin" then "handle_checkin_confirmation"
  else if String.eqb awaiting "prisma" then "continue_prisma"
  else if String.eqb awaiting "post_checkin" then "handle_post_checkin"
  else if String.eqb awaiting "after_plan" then "handle_after_plan"
  else if Py.startswith awaiting "slot:" then "continue_slot"
  else if search CHECKIN_RX low then "start_prisma"
  else if search MOTIVATE_RX low || Py.mem (Py.strip low) MOTIVATE_WORDS
  then "motivate"
  else if any_in ["hi"; "hello"; "hey"] low
          || Py.mem (Py.strip low) [""; "start"; "begin"]
  then "greet_and_offer_checkin"
  else if any_in SLOT_WORDS low
          || fullmatch NUMBER_PADDED_RX low
          || is_some (_extract_mood_from_text txt)
  then "check_slots"
  else "maybe_compute_frailty".

Definition classify_intent (st : State) : State :=
  set_label (classify_label st) st.

Definition greet_and_offer_checkin (st : State) : State :=
  set_reply
    (Some "Hi! Want to do your daily check-in now? It is 7 quick yes/no questions and takes about a minute.")
    (set_awaiting (Some "confirm_checkin") st).

Definition question_at (i : nat) : result string :=
  match Frailty.PRISMA_QUESTIONS !! i with
  | Some q => Ok (Frailty.question q)
  | None => Raise IndexError
  end.

Definition start_prisma (st : State) : result State :=
  let st := set_prisma_answers ∅ st in
  let st := set_prisma_index 0 st in
  let* question := question_at 0 in
  let st := set_awaiting (Some "prisma") st in
  Ok (set_reply (Some ("Great - daily check-in Q1: " +:+ question)) st).

Definition handle_checkin_confirmation (st : State) : result State :=
  let user := last_user_text st in
  match _yn user with
  | Some true => start_prisma st
  | Some false =>
      Ok (set_reply
            (Some ("No worries. You can say " +:+ String (ascii_of_nat 34) "daily check-in"
                   +:+ String (ascii_of_nat 34) " anytime. "
                   +:+ "If you like, tell me your mood, energy (0-10), or steps so far."))
            (set_awaiting None st))
  | None =>
      Ok (set_reply (Some "Would you like to start your daily check-in now? (yes/no)")
            (set_awaiting (Some "confirm_checkin") st))
  end.

(** [state.setdefault("slots", {})] *)
Definition slots_or_new (st : State) : gmap string pyval :=
  default ∅ (slots st).

Definition required_of (st : State) : list string :=
  default DEFAULT_REQUIRED_SLOTS (required_slots st).

Definition extract_light_entities (st : State) : State :=
  let user := last_user_text st in
  set_slots (_extract_slot_kv user (slots_or_new st)) st.

(** A dictionary literal indexed by the slot name: KeyError for any other
    name. *)
Definition slot_prompt (mood energy steps : string) (k : string) : result string :=
  if String.eqb k "mood" then Ok mood
  else if String.eqb k "energy" then Ok energy
  else if String.eqb k "steps" then Ok steps
  else Raise KeyError.

Definition has_key (k : string) (m : gmap string pyval) : bool :=
  match m !! k with Some _ => true | None => false end.

(** The loop [for k in required: if k not in slots: ...; return state]. *)
Fixpoint ask_first_missing (prompt : string -> result string)
    (required : list string) (slots : gmap string pyval) (st : State)
    : result State :=
  match required with
  | [] => Ok (set_awaiting None st)
  | k :: rest =>
      if has_key k slots then ask_first_missing prompt rest slots st
      else
        let* q := prompt k in
        Ok (set_reply (Some q) (set_awaiting (Some ("slot:" +:+ k)) st))
  end.

Definition ensure_slots (st : State) : result State :=
  let required := required_of st in
  let slots := slots_or_new st in
  let st := set_slots slots st in
  ask_first_missing
    (slot_prompt "How's your mood today (e.g., good/okay/low)?"
                 "What's your energy level 0-10?"
                 "How many steps have you taken so far today?")
    required slots st.

Definition collect_slot_answer (st : State) : result State :=
  let user := last_user_text st in
  let awaiting := awaiting_text st in
  let slots := slots_or_new st in
  let required := required_of st in
  let slot_name :=
    if Py.startswith awaiting "slot:" then Py.replace awaiting "slot:" "" else "" in
  let* slots :=
    if negb (Py.truthy_str slot_name) then Ok slots
    else if String.eqb slot_name "mood" then
      let* mood :=
        match _extract_mood_from_text user with
        | Some m => Ok m
        | None =>
            match Py.split (Py.strip user) with
            | w :: _ => Ok (Py.lower w)
            | [] => Raise IndexError
            end
        end in
      Ok (<["mood" := PStr mood]> slots)
    else if String.eqb slot_name "energy" then
      match _get_int user with
      | Some v => Ok (<["energy" := PInt (Z.max 0 (Z.min 10 v))]> slots)
      | None => Ok slots
      end
    else if String.eqb slot_name "steps" then
      match _get_int user with
      | Some v => if 0 <=? v then Ok (<["steps" := PInt v]> slots) else Ok slots
      | None => Ok slots
      end
    else Ok slots in
  let st := set_slots slots st in
  ask_first_missing
    (slot_prompt "Got it. What's your mood today?"
                 "Thanks. What's your energy level 0-10?"
                 "Thanks. How many steps have you taken so far today?")
    required slots st.

Definition check_slots (st : State) : result State :=
  ensure_slots (extract_light_entities st).

Definition PRISMA_LEN : Z := Z.of_nat (length Frailty.PRISMA_QUESTIONS).

Definition str_of_opt_int (x : option Z) : string :=
  match x with Some z => Py.str_of_int z | None => "None" end.

Definition continue_prisma (st : State) : result State :=
  let user := last_user_text st in
  let i := default 0 (prisma_index st) in
  let answers := default ∅ (prisma_answers st) in
  let st := set_prisma_answers answers st in
  let* '(i, answers, st) :=
    if i <? PRISMA_LEN then
      let* q := Py.list_index Frailty.PRISMA_QUESTIONS i in
      match _yn user with
      | Some yn =>
          let answers := <[Frailty.key q := PBool yn]> answers in
          Ok (i + 1, answers,
              set_prisma_index (i + 1) (set_prisma_answers answers st))
      | None => Ok (i, answers, st)
      end
    else Ok (i, answers, st) in
  if i <? PRISMA_LEN then
    let* q := Py.list_index Frailty.PRISMA_QUESTIONS i in
    let st := set_awaiting (Some "prisma") st in
    Ok (set_reply
          (Some ("Q" +:+ Py.str_of_int (i + 1) +:+ ": " +:+ Frailty.question q))
          st)
  else
    let st := set_awaiting (Some "post_checkin") st in
    let* score := Frailty.prisma7_score answers in
    let st := set_frailty_score score st in
    let score_txt := frailty_score st in
    Ok (set_reply
          (Some ("All done - your daily check-in score is "
                 +:+ str_of_opt_int score_txt +:+ ". "
                 +:+ "Would you like me to draft a quick plan for today, or would you prefer to log mood, energy, or steps first?"))
          st).

(** [int(slots.get(k, d) or d)] *)
Definition slot_int_or (slots : gmap string pyval) (k : string) (d : Z)
    : result Z :=
  match slots !! k with
  | Some v => if py_truthy v then py_int v else Ok d
  | None => Ok d
  end.

Definition motivate (st : State) : result State :=
  let slots := default ∅ (slots st) in
  let mood := Py.lower (py_str (default (PStr "okay") (slots !! "mood"))) in
  let* energy := slot_int_or slots "energy" 5 in
  let* steps := slot_int_or slots "steps" 0 in
  let score := frailty_score st in
  let risk :=
    match score with
    | Some s =>
        if s <=? 2 then "low"
        else if negb (s =? 0) && (5 <=? s) then "high"
        else "moderate"
    | None => "moderate"
    end in
  let base_bump := if energy <? 5 then 500 else 1000 in
  let base_bump :=
    if String.eqb risk "high" then (if energy <? 5 then 300 else 600)
    else base_bump in
  let walk_target := Z.min 7000 (Z.max 1000 (steps + base_bump)) in
  let to_go := Z.max 0 (walk_target - steps) in
  let first :=
    if Py.mem mood ["low"; "down"; "tired"] || (energy <=? 3)
    then "Small steps count. Two minutes is enough to start."
    else "You got this. Small wins add up fast." in
  let lines := [
    first;
    "Micro-goal: about " +:+ Py.str_of_int to_go
      +:+ " steps would meet today's gentle target.";
    "Tip: stand, roll shoulders, and walk to the kitchen and back. Then decide the next tiny step.";
    "Hydrate and breathe: 4-4-4-4 for one minute." ] in
  Ok (set_reply (Some (Py.join nl lines)) st).

Definition maybe_compute_frailty (st : State) : result State :=
  match frailty_score st with
  | None =>
      if (size (default ∅ (prisma_answers st)) =? 7)%nat then
        match prisma_answers st with
        | Some answers =>
            let* score := Frailty.prisma7_score answers in
            Ok (set_frailty_score score st)
        | None => Raise KeyError
        end
      else Ok st
  | Some _ => Ok st
  end.

(** The local [llm_suggester] of [plan_routine]: a text that does not
    parse as JSON becomes the empty dictionary. *)
Definition llm_suggester (E : Env) : Routine.LLMSuggester :=
  fun slots frailty_score =>
    Ok (try_except (llm_json E slots frailty_score) (JDict [])).

Definition plan_routine (E : Env) (st : State) : result State :=
  let '(seed, st) :=
    match plan_seed st with
    | Some s => (s, st)
    | None =>
        let s := stable_seed E (session_id st) in
        (s, set_plan_seed s st)
    end in
  let* p := Routine.generate_daily_plan E (default ∅ (slots st))
              (frailty_score st) (Some (llm_suggester E)) (Some seed) in
  Ok (set_awaiting (Some "after_plan") (set_plan p st)).

Definition set_mood (mood : string) (st : State) : State :=
  set_slots (<["mood" := PStr mood]> (slots_or_new st)) st.

Definition handle_post_checkin (E : Env) (st : State) : result State :=
  let user := last_user_text st in
  let low := Py.strip (Py.lower user) in
  if search CHECKIN_RX low || search RESTART_RX low then
    start_prisma (set_awaiting None st)
  else
    match _extract_mood_from_text user with
    | Some mood => ensure_slots (set_awaiting None (set_mood mood st))
    | None =>
        if Py.mem low ["ok"; "okay"; "thanks"; "thank you"] then
          Ok (set_reply
                (Some "Want me to put together a quick plan now (yes/no), or shall we log mood, energy, or steps?")
                (set_awaiting (Some "post_checkin") st))
        else if Py.mem low YES || Py.contains low "plan"
                || Py.contains low "go ahead" || Py.contains low "make it"
                || Py.contains low "draft" then
          plan_routine E (set_awaiting None st)
        else if any_in SLOT_WORDS low || fullmatch NUMBER_RX low then
          check_slots (set_awaiting None st)
        else if search MOTIVATE_RX low || Py.mem low MOTIVATE_WORDS then
          motivate (set_awaiting (Some "post_checkin") st)
        else
          Ok (set_reply
                (Some "I can draft a quick plan (say yes), or we can log mood, energy (0-10), or steps. What would you like?")
                (set_awaiting (Some "post_checkin") st))
    end.

(** [energy = int(slots.get("energy", 5) or 5)], then the new value. *)
Definition tweak_energy (f : Z -> Z) (st : State) : result State :=
  let slots := slots_or_new st in
  let* energy := slot_int_or slots "energy" 5 in
  Ok (set_reply None (set_slots (<["energy" := PInt (f energy)]> slots) st)).

Definition handle_after_plan (E : Env) (st : State) : result State :=
  let* user :=
    match last (messages st) with
    | Some m => Ok (content m)
    | None => Raise IndexError
    end in
  let txt := Py.lower (Py.strip user) in
  if search CHECKIN_RX txt || search RESTART_RX txt then
    start_prisma (set_reply None (set_awaiting None st))
  else
    match _extract_mood_from_text user with
    | Some mood => ensure_slots (set_awaiting None (set_mood mood st))
    | None =>
        if Py.mem txt ["ok"; "okay"; "thanks"; "thank you"] then
          Ok (set_reply
                (Some "Want tweaks (say easier/harder/swap), a pep talk (motivate), or log mood/energy/steps?")
                (set_awaiting (Some "after_plan") st))
        else if search MOTIVATE_RX txt || Py.mem txt MOTIVATE_WORDS then
          motivate (set_awaiting (Some "after_plan") st)
        else if Py.contains txt "easier" || Py.contains txt "lighter" then
          let* st := tweak_energy (fun e => Z.max 0 (e - 2)) st in
          plan_routine E st
        else if Py.contains txt "harder" || Py.contains txt "tougher" then
          let* st := tweak_energy (fun e => Z.min 10 (e + 2)) st in
          plan_routine E st
        else if Py.contains txt "swap" || Py.contains txt "different"
                || Py.contains txt "variety" then
          let seed := default 0 (plan_seed st) in
          plan_routine E (set_reply None (set_plan_seed (seed + 1) st))
        else if any_in SLOT_WORDS txt || fullmatch NUMBER_RX txt then
          check_slots (set_awaiting None st)
        else
          Ok (set_reply
                (Some "Say easier/harder/swap, motivate, or log mood/energy/steps.")
                (set_awaiting (Some "after_plan") st))
    end.

(** [", ".join(items) if isinstance(items, list) else ""] for
    [items = p.get(key, [])]; joining anything but strings raises. *)
Definition plan_line (p : list (string * json)) (k : string) : result string :=
  match default (JList []) (Json.lookup k p) with
  | JList items =>
      let* ss := Json.strings_of items in
      Ok (Py.join ", " ss)
  | _ => Ok ""
  end.

Definition reply_set (st : State) : bool :=
  match reply st with Some r => Py.truthy_str r | None => false end.

Definition compose_reply (st : State) : result State :=
  if reply_set st then Ok st
  else
    let* p :=
      match default (JDict []) (plan st) with
      | JDict fields => Ok fields
      | _ => Raise AttributeError
      end in
    let suffix :=
      if String.eqb (awaiting_text st) "after_plan"
      then nl +:+ nl +:+ "Want tweaks (easier/harder/swap), a pep talk (motivate), or log mood/energy/steps?"
      else "" in
    let* morning := plan_line p "morning" in
    let* afternoon := plan_line p "afternoon" in
    let* evening := plan_line p "evening" in
    let* notes := plan_line p "notes" in
    Ok (set_reply
          (Some ("Here is your plan:" +:+ nl
                 +:+ "- Morning: " +:+ morning +:+ nl
                 +:+ "- Afternoon: " +:+ afternoon +:+ nl
                 +:+ "- Evening: " +:+ evening +:+ nl
                 +:+ "Notes: " +:+ notes
                 +:+ suffix))
          st).

Definition policy_router (st : State) : string :=
  default "maybe_compute_frailty" (label st).

(** *** app/graph/build.py *)

Definition _after_ensure_router (st : State) : string :=
  if Py.truthy_str (awaiting_text st) then "ask" else "plan".

Definition plan_path (E : Env) (st : State) : result State :=
  let* st := maybe_compute_frailty st in
  let* st := plan_routine E st in
  compose_reply st.

Definition after_ensure (E : Env) (st : State) : result State :=
  if String.eqb (_after_ensure_router st) "ask"
  then compose_reply st
  else plan_path E st.

(** One pass of the compiled graph: the entry node, the conditional edge
    out of it, then the edges down to [compose_reply]. *)
Definition invoke (E : Env) (st : State) : result State :=
  let st := classify_intent st in
  let l := policy_router st in
  if String.eqb l "handle_checkin_confirmation" then
    let* st := handle_checkin_confirmation st in compose_reply st
  else if String.eqb l "continue_prisma" then
    let* st := continue_prisma st in compose_reply st
  else if String.eqb l "handle_post_checkin" then
    let* st := handle_post_checkin E st in compose_reply st
  else if String.eqb l "handle_after_plan" then
    let* st := handle_after_plan E st in compose_reply st
  else if String.eqb l "motivate" then
    let* st := motivate st in compose_reply st
  else if String.eqb l "continue_slot" then
    let* st := collect_slot_answer st in
    let* st := ensure_slots st in
    after_ensure E st
  else if String.eqb l "start_prisma" then
    let* st := start_prisma st in compose_reply st
  else if String.eqb l "check_slots" then
    let* st := ensure_slots (extract_light_entities st) in
    after_ensure E st
  else if String.eqb l "greet_and_offer_checkin" then
    compose_reply (greet_and_offer_checkin st)
  else if String.eqb l "maybe_compute_frailty" then
    plan_path E st
  else Raise KeyError.

(** *** app/main.py: one chat turn on the state of the session *)

Definition chat (E : Env) (st : State) (sid message : string)
    : result (string * State) :=
  let st := set_session_id sid st in
  let st := add_user_message message st in
  let st := reset_reply st in
  let* new_state := invoke E st in
  let reply :=
    match reply new_state with
    | Some r => if Py.truthy_str r then r else "Okay."
    | None => "Okay."
    end in
  Ok (reply, add_assistant_message reply new_state).

End Nodes.

(* ===================================================================== *)
(** ** livewell-e/backend/app: the second implementation *)

Module LiveWellE.

Import Re.

(** *** tools/frailty.py *)

Definition _KEYS : list string := [
  "over_85";
  "male";
  "health_problems_limit_activities";
  "need_help_regularly";
  "health_problems_stay_home";
  "count_on_someone_close";
  "use_stick_walker_wheelchair"
].

(** The mapping path of [_get]: [bool(inputs.get(key, False))].  A Prisma7
    object is the mapping that holds a boolean under each of the keys. *)
Definition _get (inputs : gmap string pyval) (k : string) : bool :=
  py_truthy (default (PBool false) (inputs !! k)).

Definition prisma7_score (inputs : gmap string pyval) (threshold : Z)
    : Z * string :=
  let score := Z.of_nat (length (List.filter (fun k => _get inputs k) _KEYS)) in
  let band := if threshold <=? score then "potential_frail" else "low" in
  (score, band).

(** *** graph/nodes.py *)

Definition yes : list string := ["y"; "yes"; "yeah"; "yep"; "sure"; "correct"].
Definition no : list string := ["n"; "no"; "nope"; "nah"].

(** [\by(es)?\b] and [\bn(o)?\b] *)
Definition Y_RX : rx := seqs [WordB; lit "y"; opt (lit "es"); WordB].
Definition N_RX : rx := seqs [WordB; lit "n"; opt (lit "o"); WordB].

Definition _parse_yes_no (text : string) : option bool * string :=
  let t := Py.strip (Py.lower text) in
  if Py.mem t yes then (Some true, "")
  else if Py.mem t no then (Some false, "")
  else if search Y_RX t then (Some true, "")
  else if search N_RX t then (Some false, "")
  else (None, "Please answer yes or no.").

End LiveWellE.

(* ===================================================================== *)
(** ** The specification's reading of the lexical and numeric rules *)

Module Spec.

(** Whole-word occurrence of [w] in [t]: [w] sits in [t] with no word
    character on either side. *)
Definition whole_word (w t : string) : bool := Re.search (Re.word w) t.

(** The exact-token match: the trimmed, lower-cased text is one of the
    tokens of the yes-set or of the no-set. *)
Definition exactYesNo (yes_set no_set : list string) (text : string)
    : option bool :=
  let t := Py.lower (Py.strip text) in
  if Py.mem t yes_set then Some true
  else if Py.mem t no_set then Some false
  else None.

(** [parseYesNo]: the exact match; else a bare y/yes or n/no as a whole
    word; else unknown. *)
Definition parseYesNo (yes_set no_set : list string) (text : string)
    : option bool :=
  let t := Py.lower (Py.strip text) in
  match exactYesNo yes_set no_set text with
  | Some b => Some b
  | None =>
      if whole_word "y" t || whole_word "yes" t then Some true
      else if whole_word "n" t || whole_word "no" t then Some false
      else None
  end.

(** The step target of section 4.3, with the factor 0.6 as the exact
    fraction 3/5. *)
Definition increment (energy : Z) (high_risk : bool) : Z :=
  let base :=
    if energy <=? 3 then 300 else if 8 <=? energy then 1500 else 800 in
  if high_risk then base * 3 / 5 else base.

Definition clamp (x lo hi : Z) : Z := Z.min hi (Z.max lo x).

Definition walkTarget (steps energy : Z) (high_risk : bool) : Z :=
  clamp (steps + increment energy high_risk) 1000 8000.

Definition stepsToGo (steps energy : Z) (high_risk : bool) : Z :=
  Z.max 0 (walkTarget steps energy high_risk - steps).

(** The walk line of the morning section in each of the three variants,
    for [n] steps to go. *)
Definition walk_line (variant n : Z) : string :=
  if variant =? 0 then "Gentle walk: target ~" +:+ Py.str_of_int n +:+ " steps"
  else if variant =? 1
  then "Hallway laps: aim ~" +:+ Py.str_of_int (Z.max 6 (n / 150)) +:+ " easy passes"
  else "Out-and-back stroll: reach ~" +:+ Py.str_of_int n +:+ " more steps".

(** One point for an answer in the risk direction: yes on a normal
    question, no on the reverse-coded one. *)
Definition risk_point (reverse_coded answer : bool) : Z :=
  if reverse_coded then Z.b2z (negb answer) else Z.b2z answer.

End Spec.

(* ===================================================================== *)
(** ** Sample inputs *)

Module Sample.

(** No API key: [_call_llm] answers with the text of an empty JSON object;
    no slot holds text in a numeric place, so [float] is never reached on
    one. *)
Definition offline : Env := {|
  utc_year_day := 2026001;
  float_int_of_str := fun _ => Raise ValueError;
  stable_seed := fun _ => 7;
  llm_json := fun _ _ => Ok (JDict []);
|}.

(** Six times no and a yes to the reverse-coded question. *)
Definition no_risk_answers : gmap string pyval :=
  <["over_85" := PBool false]>
  (<["male" := PBool false]>
  (<["limit_activities" := PBool false]>
  (<["need_help_regularly" := PBool false]>
  (<["stay_home" := PBool false]>
  (<["someone_close" := PBool true]>
  (<["use_aid" := PBool false]> ∅)))))).

(** In the wizard, waiting for the answer to the third question. *)
Definition at_question_3 : State :=
  set_prisma_index 2
    (set_prisma_answers (<["over_85" := PBool false]> (<["male" := PBool true]> ∅))
       (set_awaiting (Some "prisma") new_session)).

(** Waiting for the energy slot. *)
Definition awaiting_energy : State :=
  set_awaiting (Some "slot:energy") new_session.

End Sample.

(* ===================================================================== *)
(** ** app/main.py: the other endpoints, and turns in sequence *)

Module Main.

(** [new_state.get("reply") or fallback] *)
Definition reply_or (fallback : string) (st : State) : string :=
  match reply st with
  | Some r => if Py.truthy_str r then r else fallback
  | None => fallback
  end.

(** The endpoints that send a message through the graph differ in the
    message and in the text that stands in for a missing reply. *)
Definition graph_turn (E : Env) (st : State) (sid message fallback : string)
    : result (string * State) :=
  let st := set_session_id sid st in
  let st := add_user_message message st in
  let st := reset_reply st in
  let* new_state := Nodes.invoke E st in
  let reply := reply_or fallback new_state in
  Ok (reply, add_assistant_message reply new_state).

Definition prisma_start (E : Env) (st : State) (sid : string)
    : result (string * State) :=
  graph_turn E st sid "daily check-in" "".

Definition prisma_answer (E : Env) (st : State) (sid answer : string)
    : result (string * State) :=
  graph_turn E st sid answer "".

Definition WELCOME : string :=
  "Hi! Ready for your daily check-in? It's 7 quick yes/no questions and takes about a minute. "
  +:+ "Say " +:+ String (ascii_of_nat 34) "yes" +:+ String (ascii_of_nat 34)
        " to begin, or share your mood/energy/steps.".

Definition session_welcome (st : State) (sid : string) : string * State :=
  let st := set_session_id sid st in
  let st := set_awaiting (Some "confirm_checkin") st in
  (WELCOME, add_assistant_message WELCOME st).

(** Successive [/chat] requests of one session: each turn runs on the state
    the turn before it stored; the replies are returned in order. *)
Fixpoint chat_seq (E : Env) (st : State) (sid : string) (messages : list string)
    : result (list string * State) :=
  match messages with
  | [] => Ok ([], st)
  | m :: rest =>
      let* '(r, st') := Nodes.chat E st sid m in
      let* '(rs, st'') := chat_seq E st' sid rest in
      Ok (r :: rs, st'')
  end.

End Main.

(* ===================================================================== *)
(** ** app/memory.py: the session store and the snapshot with a lifetime *)

Module Memory.

(** What a snapshot holds under its keys: a slot value, the awaiting marker,
    the wizard answers or the score. *)
Inductive snapval : Type :=
| SSlot (v : pyval)
| SAwaiting (a : option string)
| SAnswers (m : gmap string pyval)
| SScore (s : option Z).

(** The module globals.  Clock readings are integers, in seconds. *)
Record Store : Type := {
  _SESSIONS : gmap string State;
  _store : gmap string (gmap string snapval);
  _expiry : gmap string Z;
}.

Definition empty : Store :=
  {| _SESSIONS := ∅; _store := ∅; _expiry := ∅ |}.

Definition _TTL_SEC : Z := 60 * 60.

Definition _PERSIST_KEYS : list string := [
  "mood"; "energy"; "steps";
  "prisma_flow_active"; "prisma_cursor"; "prisma_answers"; "awaiting";
  "frailty_score"; "frailty_band"
].

Definition add_slot (slots : gmap string pyval) (k : string)
    (out : gmap string snapval) : gmap string snapval :=
  match slots !! k with
  | Some v => <[k := SSlot v]> out
  | None => out
  end.

(** Every state comes from [new_session] and no node deletes a key, so
    awaiting and frailty_score are present, holding [None] when unset;
    prisma_flow_active, prisma_cursor and frailty_band are never keys of
    this state. *)
Definition _select_persist_subset (st : State) : gmap string snapval :=
  let slots := default ∅ (slots st) in
  let out := add_slot slots "steps" (add_slot slots "energy" (add_slot slots "mood" ∅)) in
  let out :=
    match prisma_answers st with
    | Some a => <["prisma_answers" := SAnswers a]> out
    | None => out
    end in
  let out := <["awaiting" := SAwaiting (awaiting st)]> out in
  let out := <["frailty_score" := SScore (frailty_score st)]> out in
  filter (fun kv => Py.mem kv.1 _PERSIST_KEYS = true) out.

Definition clear (user_id : string) (m : Store) : Store :=
  {| _SESSIONS := _SESSIONS m;
     _store := delete user_id (_store m);
     _expiry := delete user_id (_expiry m) |}.

(** [exp and exp < _now()]: a reading of 0 never expires. *)
Definition expired (now : Z) (user_id : string) (m : Store) : bool :=
  let exp := default 0 (_expiry m !! user_id) in
  negb (exp =? 0) && (exp <? now).

Definition get (now : Z) (user_id : string) (m : Store)
    : gmap string snapval * Store :=
  if expired now user_id m then (∅, clear user_id m)
  else (default ∅ (_store m !! user_id), m).

(** [prev.update(keep)]: the new values win. *)
Definition save (now : Z) (user_id : string) (new_state : gmap string snapval)
    (m : Store) : Store :=
  let keep := filter (fun kv => Py.mem kv.1 _PERSIST_KEYS = true) new_state in
  let prev := default ∅ (_store m !! user_id) in
  {| _SESSIONS := _SESSIONS m;
     _store := <[user_id := keep ∪ prev]> (_store m);
     _expiry := <[user_id := now + _TTL_SEC]> (_expiry m) |}.

Definition get_session (session_id : string) (m : Store) : State * Store :=
  match _SESSIONS m !! session_id with
  | Some st => (st, m)
  | None =>
      (new_session,
       {| _SESSIONS := <[session_id := new_session]> (_SESSIONS m);
          _store := _store m; _expiry := _expiry m |})
  end.

Definition set_session (now : Z) (session_id : string) (state : State)
    (m : Store) : Store :=
  let m := {| _SESSIONS := <[session_id := state]> (_SESSIONS m);
              _store := _store m; _expiry := _expiry m |} in
  save now session_id (_select_persist_subset state) m.

Definition reset_session (session_id : string) (m : Store) : State * Store :=
  let m := {| _SESSIONS := <[session_id := new_session]> (_SESSIONS m);
              _store := _store m; _expiry := _expiry m |} in
  (new_session, clear session_id m).

(** The [/chat] request of app/main.py against the store. *)
Definition chat_request (E : Env) (now : Z) (m : Store) (sid message : string)
    : result (string * Store) :=
  let '(st, m) := get_session sid m in
  let* '(reply, new_state) := Nodes.chat E st sid message in
  Ok (reply, set_session now sid new_state m).

(** What [save] keeps of a dictionary. *)
Definition kept (new_state : gmap string snapval) : gmap string snapval :=
  filter (fun kv => Py.mem kv.1 _PERSIST_KEYS = true) new_state.

End Memory.

(* ===================================================================== *)
(** ** livewell-e/backend/app/graph: the wizard and the classifier *)

Module LiveWellEGraph.

Import Re.

(** The keys of the state dictionary the nodes below read or write; [None]
    stands for a key that is absent or holds [None], which [state.get]
    does not tell apart. *)
Record Session : Type := {
  message : string;
  intent : option string;
  mood : option string;
  energy : option string;
  steps : option Z;
  prisma_inputs : option (gmap string pyval);
  frailty_score : option Z;
  frailty_band : option string;
  prisma_flow_active : option bool;
  prisma_cursor : option Z;
  prisma_answers : option (gmap string pyval);
  awaiting : option string;
  reply : option string;
}.

Definition PRISMA_ORDER : list (string * string) := [
  ("over_85", "Are you over 85? (yes/no)");
  ("male", "Are you male? (yes/no)");
  ("health_problems_limit_activities",
   "Do health problems limit your activities? (yes/no)");
  ("need_help_regularly", "Do you need help on a regular basis? (yes/no)");
  ("health_problems_stay_home",
   "Do health problems mean you stay at home? (yes/no)");
  ("count_on_someone_close", "Can you count on someone close to you? (yes/no)");
  ("use_stick_walker_wheelchair",
   "Do you use a stick, walker, or wheelchair? (yes/no)")
].

Definition start_prisma (s : Session) : result Session :=
  let* '(_, q) := Py.list_index PRISMA_ORDER 0 in
  Ok {| message := message s; intent := intent s; mood := mood s;
        energy := energy s; steps := steps s;
        prisma_inputs := prisma_inputs s;
        frailty_score := frailty_score s; frailty_band := frailty_band s;
        prisma_flow_active := Some true;
        prisma_cursor := Some 0;
        prisma_answers := Some ∅;
        awaiting := Some "prisma";
        reply := Some q |}.

(** [answers.get(k, False)] for each key of the payload. *)
Definition payload (answers : gmap string pyval) : gmap string pyval :=
  fold_right (fun k acc => <[k := default (PBool false) (answers !! k)]> acc)
             ∅ LiveWellE._KEYS.

Definition continue_prisma (s : Session) : result Session :=
  let cursor := default 0 (prisma_cursor s) in
  let answers := default ∅ (prisma_answers s) in
  let '(ans, err) := LiveWellE._parse_yes_no (message s) in
  match ans with
  | None =>
      Ok {| message := message s; intent := intent s; mood := mood s;
            energy := energy s; steps := steps s;
            prisma_inputs := prisma_inputs s;
            frailty_score := frailty_score s; frailty_band := frailty_band s;
            prisma_flow_active := prisma_flow_active s;
            prisma_cursor := prisma_cursor s;
            prisma_answers := prisma_answers s;
            awaiting := Some "prisma";
            reply := Some (if Py.truthy_str err then err
                           else "Please answer yes or no.") |}
  | Some b =>
      let* '(k, _) := Py.list_index PRISMA_ORDER cursor in
      let answers := <[k := PBool b]> answers in
      let cursor := cursor + 1 in
      if cursor <? Z.of_nat (length PRISMA_ORDER) then
        let* '(_, q) := Py.list_index PRISMA_ORDER cursor in
        Ok {| message := message s; intent := intent s; mood := mood s;
              energy := energy s; steps := steps s;
              prisma_inputs := prisma_inputs s;
              frailty_score := frailty_score s; frailty_band := frailty_band s;
              prisma_flow_active := prisma_flow_active s;
              prisma_cursor := Some cursor;
              prisma_answers := Some answers;
              awaiting := Some "prisma";
              reply := Some q |}
      else
        let '(score, band) := LiveWellE.prisma7_score (payload answers) 3 in
        Ok {| message := message s; intent := intent s; mood := mood s;
              energy := energy s; steps := steps s;
              prisma_inputs := prisma_inputs s;
              frailty_score := Some score; frailty_band := Some band;
              prisma_flow_active := Some false;
              prisma_cursor := None;
              prisma_answers := Some answers;
              awaiting := None;
              reply := reply s |}
  end.

(** [bool(prisma)] for the value under prisma_inputs: a Prisma7 object is
    true, a mapping is true unless it is empty. *)
Definition inputs_given (s : Session) : bool :=
  match prisma_inputs s with
  | Some prisma => negb (Nat.eqb (size prisma) 0)
  | None => false
  end.

Definition maybe_compute_frailty (s : Session) : Session :=
  if inputs_given s then
    let '(score, band) := LiveWellE.prisma7_score (default ∅ (prisma_inputs s)) 3 in
    {| message := message s; intent := intent s; mood := mood s;
       energy := energy s; steps := steps s;
       prisma_inputs := prisma_inputs s;
       frailty_score := Some score; frailty_band := Some band;
       prisma_flow_active := prisma_flow_active s;
       prisma_cursor := prisma_cursor s;
       prisma_answers := prisma_answers s;
       awaiting := awaiting s;
       reply := reply s |}
  else s.

Definition any_in (ws : list string) (text : string) : bool :=
  existsb (fun w => Py.contains text w) ws.

(** [\b\d{2,5}\b.*steps]; the dot is any character but a line feed. *)
Definition STEPS_MENTION_RX : rx :=
  seqs [WordB; rep digit 2 5; WordB;
        star (Cls (fun c => negb (Ascii.eqb c (ascii_of_nat 10))));
        lit "steps"].

(** The intent [classify_intent] settles on. *)
Definition intent_of (s : Session) : string :=
  let text := Py.strip (Py.lower (message s)) in
  if String.eqb (default "" (awaiting s)) "prisma" then "continue_prisma"
  else if Py.startswith (default "" (awaiting s)) "slot:" then "continue_slot"
  else if any_in ["hi"; "hello"; "hey"; "good morning"; "good afternoon";
                  "good evening"] text then "greeting"
  else if any_in ["screen"; "prisma"; "frailty"; "assessment"; "screener";
                  "risk score"] text then "start_prisma"
  else if any_in ["how are you"; "who are you"; "what can you do"] text
  then "smalltalk"
  else if any_in ["plan"; "routine"; "suggest"; "recommend"; "today";
                  "check in"; "checkin"; "motivation"] text then "checkin"
  else if search STEPS_MENTION_RX text then "checkin"
  else "unknown".

Definition classify_intent (s : Session) : Session :=
  {| message := message s; intent := Some (intent_of s); mood := mood s;
     energy := energy s; steps := steps s;
     prisma_inputs := prisma_inputs s;
     frailty_score := frailty_score s; frailty_band := frailty_band s;
     prisma_flow_active := prisma_flow_active s;
     prisma_cursor := prisma_cursor s;
     prisma_answers := prisma_answers s;
     awaiting := awaiting s;
     reply := reply s |}.

Definition policy_router (s : Session) : string :=
  let i := default "unknown" (intent s) in
  if String.eqb i "continue_prisma" then "continue_prisma"
  else if String.eqb i "continue_slot" then "continue_slot"
  else if String.eqb i "start_prisma" then
    (if inputs_given s then "maybe_compute_frailty" else "start_prisma")
  else if String.eqb i "greeting" || String.eqb i "smalltalk" then "smalltalk"
  else "check_slots".

(** graph/build.py: where a wizard turn goes next. *)
Definition prisma_next_or_plan (s : Session) : string :=
  if String.eqb (default "" (awaiting s)) "prisma"
  then "ask_more" else "to_plan".

(** The number of questions answered yes. *)
Definition yes_count (answers : gmap string pyval) : Z :=
  Z.of_nat (length (List.filter
    (fun k => py_truthy (default (PBool false) (answers !! k))) LiveWellE._KEYS)).

End LiveWellEGraph.

(* ===================================================================== *)
(** ** States the dialogue keeps itself in *)

Module Wf.

Definition SLOT_NAMES : list string := ["mood"; "energy"; "steps"].

Definition AWAITING_VALUES : list string :=
  ["confirm_checkin"; "prisma"; "post_checkin"; "after_plan";
   "slot:mood"; "slot:energy"; "slot:steps"].

(** Mood is text, energy an integer in 0..10, steps an integer from 0 on. *)
Definition slots_ok (sl : gmap string pyval) : Prop :=
  (forall v, sl !! "mood" = Some v -> exists m, v = PStr m)
  /\ (forall v, sl !! "energy" = Some v -> exists e, v = PInt e /\ 0 <= e <= 10)
  /\ (forall v, sl !! "steps" = Some v -> exists s, v = PInt s /\ 0 <= s).

Definition required_ok (required : list string) : Prop :=
  forall k, In k required -> In k SLOT_NAMES.

Definition awaiting_ok (a : option string) : Prop :=
  match a with
  | None => True
  | Some x => In x AWAITING_VALUES
  end.

(** The questions before the index are answered with booleans, the others
    are not answered. *)
Definition wizard_ok (i : Z) (answers : gmap string pyval) : Prop :=
  0 <= i <= 7
  /\ forall n q, Frailty.PRISMA_QUESTIONS !! n = Some q ->
       if Z.of_nat n <? i
       then exists b, answers !! Frailty.key q = Some (PBool b)
       else answers !! Frailty.key q = None.

Definition score_ok (s : option Z) : Prop :=
  match s with
  | Some v => 0 <= v <= 7
  | None => True
  end.

(** A section of the plan that [compose_reply] can join: absent, not a
    list, or a list of strings. *)
Definition line_ok (p : list (string * json)) (k : string) : bool :=
  match default (JList []) (Json.lookup k p) with
  | JList items => forallb Json.is_str items
  | _ => true
  end.

Definition plan_renderable (p : option json) : bool :=
  match default (JDict []) p with
  | JDict fields =>
      line_ok fields "morning" && line_ok fields "afternoon"
      && line_ok fields "evening" && line_ok fields "notes"
  | _ => false
  end.

Definition state_ok (st : State) : Prop :=
  slots_ok (default ∅ (slots st))
  /\ required_ok (default DEFAULT_REQUIRED_SLOTS (required_slots st))
  /\ awaiting_ok (awaiting st)
  /\ wizard_ok (default 0 (prisma_index st)) (default ∅ (prisma_answers st))
  /\ score_ok (frailty_score st)
  /\ plan_renderable (plan st) = true.

(** A blank answer is the one message the mood collector cannot take. *)
Definition answerable (st : State) (msg : string) : Prop :=
  awaiting st = Some "slot:mood" -> Py.split (Py.strip msg) <> [].

End Wf.

(* ===================================================================== *)
(** ** Names for what the turns say and plan with *)

Module Turn.

(** The labels of the routing table of graph/build.py. *)
Definition LABELS : list string :=
  ["handle_checkin_confirmation"; "continue_prisma"; "handle_post_checkin";
   "handle_after_plan"; "continue_slot"; "start_prisma"; "motivate";
   "greet_and_offer_checkin"; "check_slots"; "maybe_compute_frailty"].

(** The reply of [start_prisma]. *)
Definition Q1_REPLY : string :=
  "Great - daily check-in Q1: Are you over 85? (yes/no)".

(** The questions of [ensure_slots] for the mood and for the steps. *)
Definition MOOD_Q : string := "How's your mood today (e.g., good/okay/low)?".
Definition STEPS_Q : string := "How many steps have you taken so far today?".

(** The seed [plan_routine] plans with: the stored one, else the stable seed
    of the session, which it stores. *)
Definition seed_of (E : Env) (st : State) : Z :=
  default (stable_seed E (session_id st)) (plan_seed st).

(** The same in a turn, where the session identifier is the request's. *)
Definition turn_seed (E : Env) (st : State) (sid : string) : Z :=
  default (stable_seed E (Some sid)) (plan_seed st).

(** [int(slots.get("energy", 5) or 5)] on well-formed slots: a stored 0
    counts as 5. *)
Definition energy_or_5 (sl : gmap string pyval) : Z :=
  match sl !! "energy" with
  | Some (PInt z) => if z =? 0 then 5 else z
  | _ => 5
  end.

End Turn.

(* ===================================================================== *)
(** ** Names for parts of the plan *)

Module Plan.

(** The list [breathers] of [_fallback_plan]. *)
Definition BREATHERS : list string := [
  "Box breathing 4-4-4-4 (5-7 min)";
  "4-7-8 breathing (5-7 min)";
  "Pursed-lip breathing (5 min)" ].

(** The list [enrich] of [generate_daily_plan]. *)
Definition enrich (E : Env) (slots : gmap string pyval) (score : option Z)
    : list string := [
  "(auto) Mood: " +:+ Routine.slot_mood slots;
  "(auto) Energy: " +:+ Py.str_of_int (Routine.slot_energy E slots) +:+ "/10";
  "(auto) Steps so far: " +:+ Py.str_of_int (Routine.slot_steps E slots);
  "(auto) Frailty risk: " +:+ Routine._risk_from_score score ].

End Plan.

(* ===================================================================== *)
(** ** Answers to the questionnaire *)

Module Answers.

(** How many questions are answered. *)
Definition answered (answers : gmap string pyval) : nat :=
  length (List.filter
            (fun q => is_some (Frailty.normalized_answer answers (Frailty.key q)))
            Frailty.PRISMA_QUESTIONS).

(** Seven yes/no answers, in the order of the questionnaire, under the keys
    of either implementation. *)
Definition answers_of (keys : list string) (bs : list bool) : gmap string pyval :=
  list_to_map (zip keys (map PBool bs)).

(** The points of seven answers in app/tools/frailty.py: the sixth counts
    when it is a no. *)
Definition points (b1 b2 b3 b4 b5 b6 b7 : bool) : Z :=
  Z.b2z b1 + Z.b2z b2 + Z.b2z b3 + Z.b2z b4 + Z.b2z b5 + Z.b2z (negb b6)
  + Z.b2z b7.

End Answers.

(* ===================================================================== *)
(** * Properties *)

(** ** The frailty scorer *)

Section FrailtyFacts.
Import Frailty.

Lemma normalize_loop_none qs answers acc :
  normalize_loop qs answers acc = None <->
  Exists (fun q => normalized_answer answers (key q) = None) qs.
Proof.
  revert acc. induction qs as [|q qs IH]; intros acc; simpl.
  - split; [discriminate | intros H; inversion H].
  - rewrite Exists_cons. unfold normalized_answer at 1.
    destruct (answers !! key q) as [v|]; [|by split; [left|]].
    destruct (_normalize_bool v) as [b|]; [|by split; [left|]].
    rewrite IH. split; [by right | by intros [?|?]].
Qed.

Lemma normalize_loop_keys qs answers acc m :
  normalize_loop qs answers acc = Some m ->
  (forall k, is_Some (acc !! k) -> is_Some (m !! k)) /\
  Forall (fun q => is_Some (m !! key q)) qs.
Proof.
  revert acc. induction qs as [|q qs IH]; intros acc; simpl.
  - intros [= <-]. split; [done | constructor].
  - destruct (answers !! key q) as [v|]; [|discriminate].
    destruct (_normalize_bool v) as [b|]; [|discriminate].
    intros H. destruct (IH _ H) as [Hacc Hqs]. split.
    + intros k Hk. apply Hacc.
      destruct (decide (key q = k)) as [->|Hne].
      * rewrite lookup_insert_eq. by eexists.
      * by rewrite lookup_insert_ne.
    + constructor; [|done]. apply Hacc. rewrite lookup_insert_eq. by eexists.
Qed.

Lemma normalize_loop_ext qs (a1 a2 : gmap string pyval) acc :
  (forall q, In q qs -> a1 !! key q = a2 !! key q) ->
  normalize_loop qs a1 acc = normalize_loop qs a2 acc.
Proof.
  revert acc. induction qs as [|q qs IH]; intros acc Hext; simpl; [done|].
  rewrite (Hext q (or_introl eq_refl)).
  destruct (a2 !! key q) as [v|]; [|done].
  destruct (_normalize_bool v); [|done].
  apply IH. intros q' Hq'. apply Hext. by right.
Qed.

(** The second loop never meets a key the first loop did not store. *)
Lemma score_loop_ok qs (m : gmap string bool) acc :
  Forall (fun q => is_Some (m !! key q)) qs ->
  exists s, score_loop qs m acc = Ok s.
Proof.
  revert acc. induction qs as [|q qs IH]; intros acc Hall; simpl.
  - by eexists.
  - apply Forall_cons in Hall as [[v Hv] Hall]. rewrite Hv.
    destruct (reverse q); by apply IH.
Qed.

Lemma next_unanswered_loop_none qs answers :
  next_unanswered_loop qs answers = None <->
  Forall (fun q => is_Some (normalized_answer answers (key q))) qs.
Proof.
  induction qs as [|q qs IH]; simpl.
  - split; [constructor | done].
  - rewrite Forall_cons, <- IH. unfold normalized_answer.
    destruct (answers !! key q) as [v|]; simpl.
    + destruct (_normalize_bool v) as [b|].
      * split; [intros H; split; [by eexists | done] | by intros [_ H]].
      * split; [discriminate | by intros [[? ?] _]].
    + split; [discriminate | by intros [[? ?] _]].
Qed.

Lemma score_is_number_iff answers :
  (exists s, prisma7_score answers = Ok (Some s)) <->
  normalize_loop PRISMA_QUESTIONS answers ∅ <> None.
Proof.
  unfold prisma7_score.
  destruct (normalize_loop PRISMA_QUESTIONS answers ∅) as [m|] eqn:Hn.
  - split; [done | intros _].
    apply normalize_loop_keys in Hn as [_ Hn].
    destruct (score_loop_ok _ _ 0 Hn) as [s ->]. by exists s.
  - split; [intros [s Hs]; discriminate | done].
Qed.

Lemma prisma7_score_ext (a1 a2 : gmap string pyval) :
  (forall k, In k PRISMA_ORDER -> a1 !! k = a2 !! k) ->
  prisma7_score a1 = prisma7_score a2.
Proof.
  intros Hext. unfold prisma7_score.
  rewrite (normalize_loop_ext _ a1 a2); [done|].
  intros q Hq. apply Hext. unfold PRISMA_ORDER. by apply in_map.
Qed.

Lemma score_incomplete (answers : gmap string pyval) (k : string) :
  In k PRISMA_ORDER ->
  normalized_answer answers k = None ->
  prisma7_score answers = Ok None.
Proof.
  intros Hk Hnone. unfold prisma7_score.
  assert (normalize_loop PRISMA_QUESTIONS answers ∅ = None) as ->; [|done].
  apply normalize_loop_none. apply Exists_exists.
  unfold PRISMA_ORDER in Hk. apply in_map_iff in Hk as (q & <- & Hq).
  exists q. split; [by apply list_elem_of_In | done].
Qed.

(** The score of seven boolean answers, point by point. *)
Lemma score_formula (answers : gmap string pyval) (b1 b2 b3 b4 b5 b6 b7 : bool) :
  answers !! "over_85" = Some (PBool b1) ->
  answers !! "male" = Some (PBool b2) ->
  answers !! "limit_activities" = Some (PBool b3) ->
  answers !! "need_help_regularly" = Some (PBool b4) ->
  answers !! "stay_home" = Some (PBool b5) ->
  answers !! "someone_close" = Some (PBool b6) ->
  answers !! "use_aid" = Some (PBool b7) ->
  prisma7_score answers =
    Ok (Some (Spec.risk_point false b1 + Spec.risk_point false b2
              + Spec.risk_point false b3 + Spec.risk_point false b4
              + Spec.risk_point false b5 + Spec.risk_point true b6
              + Spec.risk_point false b7)).
Proof.
  intros H1 H2 H3 H4 H5 H6 H7.
  unfold prisma7_score, PRISMA_QUESTIONS, normalize_loop; simpl key.
  rewrite H1, H2, H3, H4, H5, H6, H7. simpl _normalize_bool. cbv iota beta.
  destruct b1, b2, b3, b4, b5, b6, b7; vm_compute; reflexivity.
Qed.

Lemma risk_point_flip (v : bool) :
  Spec.risk_point false (negb v)
  = if v then Spec.risk_point false v - 1 else Spec.risk_point false v + 1.
Proof. by destruct v. Qed.

End FrailtyFacts.

Section FrailtyClaims.
Import Frailty.

(** Rewrites the lookups of a map that differs from [answers] in one key. *)
Ltac flipped_lookups :=
  rewrite ?lookup_insert_eq, ?lookup_insert_ne by discriminate; try done.

(** C1: on a complete set of boolean answers [prisma7_score] returns a
    number; it is the sum of one point per answer in the risk direction (yes
    on the six normal questions, no on someone_close), so it lies in 0..7; it
    depends on nothing but the seven answers; flipping someone_close from
    yes to no adds a point and from no to yes removes one, and flipping any
    other key does the opposite. *)
Theorem prisma7_score_complete (answers : gmap string pyval)
    (b1 b2 b3 b4 b5 b6 b7 : bool) :
  answers !! "over_85" = Some (PBool b1) ->
  answers !! "male" = Some (PBool b2) ->
  answers !! "limit_activities" = Some (PBool b3) ->
  answers !! "need_help_regularly" = Some (PBool b4) ->
  answers !! "stay_home" = Some (PBool b5) ->
  answers !! "someone_close" = Some (PBool b6) ->
  answers !! "use_aid" = Some (PBool b7) ->
  let s := Spec.risk_point false b1 + Spec.risk_point false b2
           + Spec.risk_point false b3 + Spec.risk_point false b4
           + Spec.risk_point false b5 + Spec.risk_point true b6
           + Spec.risk_point false b7 in
  prisma7_score answers = Ok (Some s)
  /\ 0 <= s <= 7
  /\ (forall answers' : gmap string pyval,
        (forall k, In k PRISMA_ORDER -> answers' !! k = answers !! k) ->
        prisma7_score answers' = Ok (Some s))
  /\ prisma7_score (<["someone_close" := PBool (negb b6)]> answers)
     = Ok (Some (if b6 then s + 1 else s - 1))
  /\ (forall k b, In k PRISMA_ORDER -> k <> "someone_close" ->
        answers !! k = Some (PBool b) ->
        prisma7_score (<[k := PBool (negb b)]> answers)
        = Ok (Some (if b then s - 1 else s + 1))).
Proof.
  intros H1 H2 H3 H4 H5 H6 H7 s.
  pose proof (score_formula answers _ _ _ _ _ _ _ H1 H2 H3 H4 H5 H6 H7) as Hs.
  fold s in Hs.
  split; [exact Hs|]. split.
  { subst s. unfold Spec.risk_point.
    destruct b1, b2, b3, b4, b5, b6, b7; simpl; lia. }
  split.
  { intros answers' Hext. by rewrite (prisma7_score_ext answers' answers). }
  split.
  { rewrite (score_formula _ b1 b2 b3 b4 b5 (negb b6) b7); flipped_lookups.
    subst s. unfold Spec.risk_point. destruct b6; simpl; do 2 f_equal; lia. }
  intros k b Hk Hne Hkb. simpl in Hk.
  destruct Hk as [<-|[<-|[<-|[<-|[<-|[<-|[<-|[]]]]]]]]; [| | | | |done|].
  - assert (b = b1) as -> by congruence.
    rewrite (score_formula _ (negb b1) b2 b3 b4 b5 b6 b7); flipped_lookups.
    rewrite risk_point_flip. subst s. destruct b1; do 2 f_equal; lia.
  - assert (b = b2) as -> by congruence.
    rewrite (score_formula _ b1 (negb b2) b3 b4 b5 b6 b7); flipped_lookups.
    rewrite risk_point_flip. subst s. destruct b2; do 2 f_equal; lia.
  - assert (b = b3) as -> by congruence.
    rewrite (score_formula _ b1 b2 (negb b3) b4 b5 b6 b7); flipped_lookups.
    rewrite risk_point_flip. subst s. destruct b3; do 2 f_equal; lia.
  - assert (b = b4) as -> by congruence.
    rewrite (score_formula _ b1 b2 b3 (negb b4) b5 b6 b7); flipped_lookups.
    rewrite risk_point_flip. subst s. destruct b4; do 2 f_equal; lia.
  - assert (b = b5) as -> by congruence.
    rewrite (score_formula _ b1 b2 b3 b4 (negb b5) b6 b7); flipped_lookups.
    rewrite risk_point_flip. subst s. destruct b5; do 2 f_equal; lia.
  - assert (b = b7) as -> by congruence.
    rewrite (score_formula _ b1 b2 b3 b4 b5 b6 (negb b7)); flipped_lookups.
    rewrite risk_point_flip. subst s. destruct b7; do 2 f_equal; lia.
Qed.

(** Six times no and a yes to someone_close score 0; answering no to
    someone_close instead scores 1. *)
Lemma prisma7_score_complete_witness :
  prisma7_score Sample.no_risk_answers = Ok (Some 0)
  /\ prisma7_score (<["someone_close" := PBool false]> Sample.no_risk_answers)
     = Ok (Some 1).
Proof.
  pose proof (prisma7_score_complete Sample.no_risk_answers
                false false false false false true false
                eq_refl eq_refl eq_refl eq_refl eq_refl eq_refl eq_refl)
    as (Hs & _ & _ & Hflip & _).
  split; [exact Hs | exact Hflip].
Defined.

(** C6, as amended: in app/tools/frailty.py a key of the seven that is missing
    or does not normalize makes [prisma7_score] return [None], never a
    number; the scorer of livewell-e reads a missing key as false and
    always returns a number between 0 and 7. *)
Theorem incomplete_answers_have_no_score :
  (forall (answers : gmap string pyval) (k : string),
      In k PRISMA_ORDER ->
      normalized_answer answers k = None ->
      prisma7_score answers = Ok None)
  /\ (forall (inputs : gmap string pyval) (k : string) (threshold : Z),
        inputs !! k = None ->
        LiveWellE.prisma7_score inputs threshold
        = LiveWellE.prisma7_score (<[k := PBool false]> inputs) threshold)
  /\ (forall (inputs : gmap string pyval) (threshold : Z),
        0 <= fst (LiveWellE.prisma7_score inputs threshold) <= 7).
Proof.
  split; [exact score_incomplete|]. split.
  - intros inputs k threshold Hk. unfold LiveWellE.prisma7_score.
    assert (Hget : forall k', LiveWellE._get (<[k := PBool false]> inputs) k'
                              = LiveWellE._get inputs k').
    { intros k'. unfold LiveWellE._get.
      destruct (decide (k = k')) as [<-|Hne].
      - by rewrite lookup_insert_eq, Hk.
      - by rewrite lookup_insert_ne. }
    by rewrite (List.filter_ext _ _ Hget).
  - intros inputs threshold. unfold LiveWellE.prisma7_score. cbn [fst].
    pose proof (List.filter_length_le (fun k' => LiveWellE._get inputs k')
                  LiveWellE._KEYS) as Hlen.
    change (length LiveWellE._KEYS) with 7%nat in Hlen. lia.
Qed.

(** An empty answer set has no score in the app. *)
Lemma incomplete_answers_have_no_score_witness :
  In "male" PRISMA_ORDER
  /\ normalized_answer ∅ "male" = None
  /\ prisma7_score ∅ = Ok None.
Proof.
  assert (Hin : In "male" PRISMA_ORDER) by (right; left; reflexivity).
  split; [exact Hin|]. split; [reflexivity|].
  exact (proj1 incomplete_answers_have_no_score ∅ "male" Hin eq_refl).
Defined.

(** C6 as stated fails for the scorer of livewell-e: with every key missing
    it reports the number 0 and the band low. *)
Lemma livewell_scores_missing_keys :
  LiveWellE.prisma7_score ∅ 3 = (0, "low").
Proof. reflexivity. Qed.

(** C10: [prisma7_score] returns a number exactly when
    [prisma7_next_unanswered] finds no question left to ask. *)
Theorem score_iff_nothing_unanswered (answers : gmap string pyval) :
  (exists s, prisma7_score answers = Ok (Some s)) <->
  prisma7_next_unanswered answers = None.
Proof.
  rewrite score_is_number_iff. unfold prisma7_next_unanswered.
  rewrite next_unanswered_loop_none.
  split.
  - intros Hn. apply Forall_forall. intros q Hq.
    destruct (normalized_answer answers (key q)) eqn:Hq'; [by eexists|].
    exfalso. apply Hn. apply normalize_loop_none.
    apply Exists_exists. by exists q.
  - intros Hall Hn. apply normalize_loop_none in Hn.
    apply Exists_exists in Hn as (q & Hq & Hnone).
    rewrite Forall_forall in Hall. destruct (Hall q Hq) as [b Hb]. congruence.
Qed.

End FrailtyClaims.

(* ===================================================================== *)
(** ** The routine planner *)

Section RoutineFacts.
Import Routine.

Lemma is_str_list_of_strings (l : list string) :
  Json.is_str_list (Json.of_strings l) = true.
Proof. unfold Json.of_strings; simpl. by induction l. Qed.

Lemma strings_of_ok (items : list json) :
  forallb Json.is_str items = true -> exists ss, Json.strings_of items = Ok ss.
Proof.
  induction items as [|j items IH]; simpl; [by eexists|].
  intros [Hj Hitems]%andb_prop. destruct j; try discriminate.
  destruct (IH Hitems) as [ss ->]. by eexists.
Qed.

Lemma is_str_list_extend (items : list json) (extra : list string) :
  forallb Json.is_str items = true ->
  Json.is_str_list (JList (items ++ map JStr extra)) = true.
Proof.
  intros Hitems. cbn [Json.is_str_list]. rewrite forallb_app, Hitems.
  by induction extra.
Qed.

Lemma risk_known (score : option Z) : Py.mem (_risk_from_score score) RISKS = true.
Proof.
  destruct score as [s|]; simpl; [|done].
  destruct (s <=? 2); [done|]. by destruct (s <=? 4).
Qed.

Lemma risk_high_iff (score : option Z) :
  String.eqb (_risk_from_score score) "high"
  = match score with Some s => 5 <=? s | None => false end.
Proof.
  destruct score as [s|]; [|done]. unfold _risk_from_score.
  destruct (s <=? 2) eqn:H2; [simpl; lia|].
  destruct (s <=? 4) eqn:H4; simpl; lia.
Qed.

(** A list of three options is never indexed out of range. *)
Lemma pick3 {A : Type} (a b c : A) (v : Z) :
  0 <= v < 3 ->
  _pick [a; b; c] v = Ok (if v =? 0 then a else if v =? 1 then b else c).
Proof.
  intros Hv. assert (H : v = 0 \/ v = 1 \/ v = 2) by lia.
  destruct H as [H|[H|H]]; subst v; reflexivity.
Qed.

Lemma as_int_bounds (E : Env) x d lo hi :
  lo <= hi -> lo <= _as_int E x d (Some lo) (Some hi) <= hi.
Proof. unfold _as_int. lia. Qed.

(** With the risk band high the product with the double 0.6 is the exact
    three fifths of each base increment. *)
Lemma bump_of_spec (energy : Z) (risk : string) :
  bump_of energy risk = Spec.increment energy (String.eqb risk "high").
Proof.
  unfold bump_of, Spec.increment.
  destruct (energy <=? 3), (8 <=? energy), (String.eqb risk "high"); reflexivity.
Qed.

Lemma plan_ok_intro (r : string) (m a e n : json) :
  Py.mem r RISKS = true ->
  Json.is_str_list m = true -> Json.is_str_list a = true ->
  Json.is_str_list e = true -> Json.is_str_list n = true ->
  plan_ok (JDict [("risk", JStr r); ("morning", m); ("afternoon", a);
                  ("evening", e); ("notes", n)]) = true.
Proof.
  intros Hr Hm Ha He Hn. unfold plan_ok, field_is_str_list.
  cbn -[Py.mem Json.is_str_list]. by rewrite Hm, Ha, He, Hn, Hr.
Qed.

(** What the fallback returns, with the walk line of the morning spelled
    out. *)
Lemma fallback_shape (E : Env) slots score seed :
  let variant := default (utc_year_day E) seed mod 3 in
  let risk := _risk_from_score score in
  let energy := slot_energy E slots in
  let steps := slot_steps E slots in
  let to_go := steps_to_go_of steps (walk_target_of steps (bump_of energy risk)) in
  exists breather afternoon evening notes,
    _fallback_plan E slots score seed =
      Ok (JDict [("risk", JStr risk);
                 ("morning", Json.of_strings
                    [breather; Spec.walk_line variant to_go;
                     "Drink a glass of water (250 ml)"]);
                 ("afternoon", Json.of_strings afternoon);
                 ("evening", Json.of_strings evening);
                 ("notes", Json.of_strings notes)]).
Proof.
  intros variant risk energy steps to_go.
  unfold _fallback_plan.
  assert (Hv : 0 <= variant < 3) by (apply Z.mod_pos_bound; lia).
  replace (match seed with Some s => s | None => utc_year_day E end mod 3)
    with variant by (by destruct seed).
  rewrite !pick3 by exact Hv. unfold rbind.
  do 4 eexists. unfold Spec.walk_line. reflexivity.
Qed.

Lemma fallback_total (E : Env) slots score seed :
  exists p, _fallback_plan E slots score seed = Ok p /\ plan_ok p = true.
Proof.
  destruct (fallback_shape E slots score seed) as (b & a & e & n & ->).
  eexists; split; [reflexivity|].
  apply plan_ok_intro; auto using risk_known, is_str_list_of_strings.
Qed.

Lemma field_ok_index (k : string) (obj : list (string * json)) :
  match Json.lookup k obj with
  | Some v => Json.is_str_list v
  | None => false
  end = true ->
  exists v, Json.index k obj = Ok v /\ Json.is_str_list v = true.
Proof.
  unfold Json.index. destruct (Json.lookup k obj) as [v|]; [|discriminate].
  intros Hv. by exists v.
Qed.

(** A candidate that passes validation has the five fields of the schema. *)
Lemma validate_plan_some (obj : list (string * json)) (p : json) :
  _validate_plan obj = Some p ->
  exists r m a e n,
    p = JDict [("risk", JStr r); ("morning", m); ("afternoon", a);
               ("evening", e); ("notes", n)]
    /\ Py.mem r RISKS = true
    /\ Json.is_str_list m = true /\ Json.is_str_list a = true
    /\ Json.is_str_list e = true /\ Json.is_str_list n = true.
Proof.
  unfold _validate_plan, validate_body.
  destruct (forallb _ _) eqn:Hreq; [|discriminate].
  cbn [forallb] in Hreq.
  apply andb_prop in Hreq as [Hm Hreq].
  apply andb_prop in Hreq as [Ha Hreq].
  apply andb_prop in Hreq as [He _].
  apply field_ok_index in Hm as (m & -> & Hm).
  apply field_ok_index in Ha as (a & -> & Ha).
  apply field_ok_index in He as (e & -> & He).
  set (notes0 := default (JList []) (Json.lookup "notes" obj)).
  set (notes := if Json.is_str_list notes0 then notes0 else JList []).
  assert (Hn : Json.is_str_list notes = true).
  { subst notes. by destruct (Json.is_str_list notes0) eqn:H0. }
  destruct (default JNull (Json.lookup "risk" obj)) as [| | | |r| |];
    cbn [Json.in_str_set rbind try_except]; try discriminate;
    try (intros [= <-]; exists "moderate"%string, m, a, e, notes; by repeat split).
  destruct (Py.mem r RISKS) eqn:Hr; intros [= <-].
  - exists r, m, a, e, notes. by repeat split.
  - exists "moderate"%string, m, a, e, notes. by repeat split.
Qed.

Lemma suggested_plan_valid (E : Env) slots score (f : LLMSuggester) (p : json) :
  suggested_plan E slots score f = Ok (Some p) -> plan_ok p = true.
Proof.
  unfold suggested_plan. destruct (f slots score) as [proposed|]; [|discriminate].
  cbn [rbind].
  destruct (_validate_plan _) as [v|] eqn:Hv; [|discriminate].
  apply validate_plan_some in Hv as (r & m & a & e & n & -> & Hr & Hm & Ha & He & Hn).
  cbn -[Py.mem Json.strings_of List.filter slot_mood slot_energy slot_steps
        _risk_from_score String.append Py.str_of_int].
  destruct n as [| | | | |items|]; try discriminate.
  cbn [Json.is_str_list] in Hn.
  destruct (strings_of_ok items Hn) as [existing ->].
  cbn -[Py.mem List.filter slot_mood slot_energy slot_steps
        _risk_from_score String.append Py.str_of_int].
  rewrite Hr. intros [= <-].
  apply plan_ok_intro; auto using is_str_list_extend.
Qed.

End RoutineFacts.

Section RoutineClaims.
Import Routine.

(** C3: whatever the slots, the score, the seed and the suggester (absent,
    raising, returning null or any other JSON value), [generate_daily_plan]
    returns, and what it returns has morning, afternoon, evening and notes as
    lists of strings and a risk among low, moderate and high. *)
Theorem plan_always_valid (E : Env) (slots : gmap string pyval)
    (score : option Z) (suggester : option LLMSuggester) (seed : option Z) :
  exists p, generate_daily_plan E slots score suggester seed = Ok p
            /\ plan_ok p = true.
Proof.
  unfold generate_daily_plan.
  destruct suggester as [f|]; [|apply fallback_total].
  destruct (suggested_plan E slots score f) as [[p|]|] eqn:Hs;
    cbn [try_except]; try apply fallback_total.
  exists p. split; [done|]. by eapply suggested_plan_valid.
Qed.

(** A suggester that raises, or whose value is not a dictionary, leaves the
    rules-based plan. *)
Lemma suggester_failure_falls_back (E : Env) slots score (f : LLMSuggester) seed :
  (exists e, f slots score = Raise e)
  \/ f slots score = Ok JNull
  \/ (exists items, f slots score = Ok (JList items)) ->
  generate_daily_plan E slots score (Some f) seed
  = _fallback_plan E slots score seed.
Proof.
  unfold generate_daily_plan, suggested_plan.
  intros [[e ->]|[->|[items ->]]]; reflexivity.
Qed.

(** C7: with a seed and no suggester the plan is a function of the slots, the
    score and the seed alone: the clock, the session seed and the language
    model do not enter it; and the fallback returns a valid plan on every
    input, with or without a seed. *)
Theorem fallback_plan_deterministic (E : Env) (slots : gmap string pyval)
    (score : option Z) (seed : Z)
    (day' : Z) (seed_of' : option string -> Z)
    (llm' : gmap string pyval -> option Z -> result json) :
  let E' := {| utc_year_day := day';
               float_int_of_str := float_int_of_str E;
               stable_seed := seed_of';
               llm_json := llm' |} in
  generate_daily_plan E' slots score None (Some seed)
  = generate_daily_plan E slots score None (Some seed)
  /\ (exists p, generate_daily_plan E slots score None (Some seed) = Ok p
                /\ plan_ok p = true)
  /\ (forall seed', exists p, _fallback_plan E slots score seed' = Ok p
                              /\ plan_ok p = true).
Proof.
  intros E'. split; [reflexivity|].
  split; [apply fallback_total | intros seed'; apply fallback_total].
Qed.

(** C9: in the fallback plan the increment is 300 for energy up to 3, 1500
    from 8 on and 800 between, times 0.6 when the risk band is high; the
    walking target is the steps plus the increment, clamped to 1000..8000;
    the steps to go are the target minus the steps, at least 0; and the walk
    line of the morning carries that number. *)
Theorem fallback_walk_target (E : Env) (slots : gmap string pyval)
    (score : option Z) (seed : option Z) :
  let energy := slot_energy E slots in
  let steps := slot_steps E slots in
  let risk := _risk_from_score score in
  let high := match score with Some s => 5 <=? s | None => false end in
  let variant := default (utc_year_day E) seed mod 3 in
  (0 <= energy <= 10 /\ 0 <= steps <= 100000)
  /\ bump_of energy risk = Spec.increment energy high
  /\ 5 * Spec.increment energy true = 3 * Spec.increment energy false
  /\ walk_target_of steps (bump_of energy risk) = Spec.walkTarget steps energy high
  /\ steps_to_go_of steps (walk_target_of steps (bump_of energy risk))
     = Spec.stepsToGo steps energy high
  /\ exists fields breather,
       _fallback_plan E slots score seed = Ok (JDict fields)
       /\ Json.lookup "morning" fields
          = Some (Json.of_strings
                    [breather;
                     Spec.walk_line variant (Spec.stepsToGo steps energy high);
                     "Drink a glass of water (250 ml)"]).
Proof.
  intros energy steps risk high variant.
  assert (Hb : bump_of energy risk = Spec.increment energy high).
  { subst risk high. by rewrite bump_of_spec, risk_high_iff. }
  split; [split; apply as_int_bounds; lia|].
  split; [exact Hb|].
  split.
  { unfold Spec.increment.
    destruct (energy <=? 3); [reflexivity|]. by destruct (8 <=? energy). }
  unfold Spec.stepsToGo, Spec.walkTarget, Spec.clamp, steps_to_go_of, walk_target_of.
  rewrite Hb. split; [reflexivity|]. split; [reflexivity|].
  destruct (fallback_shape E slots score seed) as (b & a & e & n & Hplan).
  eexists. exists b. split; [exact Hplan|].
  cbn [Json.lookup]. unfold steps_to_go_of, walk_target_of. fold energy steps risk.
  rewrite Hb. reflexivity.
Qed.

(** 1200 steps at energy 3 and low risk: 300 more, so the target is 1500. *)
Example walk_target_low_energy :
  let slots : gmap string pyval :=
    <["energy" := PInt 3]> (<["steps" := PInt 1200]> ∅) in
  slot_energy Sample.offline slots = 3
  /\ slot_steps Sample.offline slots = 1200
  /\ Spec.walkTarget 1200 3 false = 1500
  /\ Spec.stepsToGo 1200 3 false = 300
  /\ Spec.stepsToGo 1200 3 true = 180.
Proof. repeat split; reflexivity. Qed.

End RoutineClaims.

(* ===================================================================== *)
(** ** Yes/no parsing *)

Section YesNoFacts.
Import Re.

Lemma is_some_orelse {A : Type} (x y : option A) :
  is_some (orelse x y) = is_some x || is_some y.
Proof. by destruct x. Qed.

Lemma ltb_tail1 (n : nat) : (n <? S n)%nat = true.
Proof. apply Nat.ltb_lt. lia. Qed.

Lemma ltb_tail2 (n : nat) : (n <? S (S n))%nat = true.
Proof. apply Nat.ltb_lt. lia. Qed.

(** One step of the matcher, with the character tests left symbolic. *)
Ltac rx_step := cbn -[Ascii.eqb Py.isword Nat.ltb].

Ltac split_tests :=
  repeat match goal with
    | H : Ascii.eqb _ _ = true |- _ => apply Ascii.eqb_eq in H; subst
    | |- context [Ascii.eqb ?a ?b] =>
        destruct (Ascii.eqb a b) eqn:?; rx_step
    end.

(** At one position, [\by(es)?\b] matches when [\by\b] or [\byes\b] does. *)
Lemma run_y_or_yes (prev : option ascii) (s : string) :
  is_some (run LiveWellE.Y_RX prev s None done_anywhere)
  = is_some (run (word "y") prev s None done_anywhere)
    || is_some (run (word "yes") prev s None done_anywhere).
Proof.
  unfold LiveWellE.Y_RX, word, opt.
  destruct s as [|c1 [|c2 [|c3 s]]]; rx_step.
  - by destruct (is_word_opt prev).
  - destruct (xorb (is_word_opt prev) (Py.isword c1)); [|done].
    split_tests; rewrite ?orb_false_r; done.
  - destruct (xorb (is_word_opt prev) (Py.isword c1)); [|done].
    split_tests; rewrite ?orb_false_r; done.
  - destruct (xorb (is_word_opt prev) (Py.isword c1)); [|done].
    split_tests; rewrite ?ltb_tail2, ?orb_false_r; try done.
    cbn. destruct s as [|c4 s]; cbn; [done|].
    by destruct (Py.isword c4).
Qed.

Lemma run_n_or_no (prev : option ascii) (s : string) :
  is_some (run LiveWellE.N_RX prev s None done_anywhere)
  = is_some (run (word "n") prev s None done_anywhere)
    || is_some (run (word "no") prev s None done_anywhere).
Proof.
  unfold LiveWellE.N_RX, word, opt.
  destruct s as [|c1 [|c2 s]]; rx_step.
  - by destruct (is_word_opt prev).
  - destruct (xorb (is_word_opt prev) (Py.isword c1)); [|done].
    split_tests; rewrite ?orb_false_r; done.
  - destruct (xorb (is_word_opt prev) (Py.isword c1)); [|done].
    split_tests; rewrite ?ltb_tail1, ?orb_false_r; try done.
    cbn. destruct s as [|c3 s]; cbn; [done|].
    by destruct (Py.isword c3).
Qed.

Lemma search_from_y_or_yes (prev : option ascii) (s : string) :
  is_some (search_from LiveWellE.Y_RX prev s)
  = is_some (search_from (word "y") prev s)
    || is_some (search_from (word "yes") prev s).
Proof.
  revert prev. induction s as [|c s IH]; intros prev;
    cbn [search_from]; rewrite !is_some_orelse, run_y_or_yes.
  - cbn [is_some]. by rewrite !orb_false_r.
  - rewrite IH.
    destruct (is_some (run (word "y") _ _ _ _)),
      (is_some (run (word "yes") _ _ _ _)),
      (is_some (search_from (word "y") _ _)),
      (is_some (search_from (word "yes") _ _)); reflexivity.
Qed.

Lemma search_from_n_or_no (prev : option ascii) (s : string) :
  is_some (search_from LiveWellE.N_RX prev s)
  = is_some (search_from (word "n") prev s)
    || is_some (search_from (word "no") prev s).
Proof.
  revert prev. induction s as [|c s IH]; intros prev;
    cbn [search_from]; rewrite !is_some_orelse, run_n_or_no.
  - cbn [is_some]. by rewrite !orb_false_r.
  - rewrite IH.
    destruct (is_some (run (word "n") _ _ _ _)),
      (is_some (run (word "no") _ _ _ _)),
      (is_some (search_from (word "n") _ _)),
      (is_some (search_from (word "no") _ _)); reflexivity.
Qed.

(** Lower-casing never makes or unmakes a space, so trimming and
    lower-casing commute. *)
Lemma isspace_lower_char (c : ascii) : Py.isspace (Py.lower_char c) = Py.isspace c.
Proof. by destruct c as [[] [] [] [] [] [] [] []]. Qed.

Lemma lstrip_lower (s : string) : Py.lstrip (Py.lower s) = Py.lower (Py.lstrip s).
Proof.
  induction s as [|c s IH]; cbn [Py.lower Py.lstrip]; [done|].
  rewrite isspace_lower_char. by destruct (Py.isspace c).
Qed.

Lemma rstrip_lower (s : string) : Py.rstrip (Py.lower s) = Py.lower (Py.rstrip s).
Proof.
  induction s as [|c s IH]; cbn [Py.lower Py.rstrip]; [done|].
  rewrite IH, isspace_lower_char.
  destruct (Py.rstrip s); cbn [Py.lower]; [|done]. by destruct (Py.isspace c).
Qed.

Lemma strip_lower (s : string) : Py.strip (Py.lower s) = Py.lower (Py.strip s).
Proof. unfold Py.strip. by rewrite lstrip_lower, rstrip_lower. Qed.

Lemma mem_two (t a b : string) :
  Py.mem t [a; b] = true -> t = a \/ t = b.
Proof.
  unfold Py.mem. cbn [existsb]. rewrite orb_false_r.
  intros [H|H]%orb_prop; apply String.eqb_eq in H; auto.
Qed.

End YesNoFacts.

Section YesNoClaims.

(** C8, as amended: [_parse_yes_no] of livewell-e is the exact match of the
    trimmed, lower-cased text against its yes-set and no-set, then the
    whole-word match of a bare y/yes, then n/no, and unknown otherwise;
    [_yn] of the app is the exact match against its own sets and unknown
    otherwise, with no whole-word fallback; in both, ok and okay are
    unknown. *)
Theorem parse_yes_no_exact_then_word (text : string) :
  fst (LiveWellE._parse_yes_no text)
  = Spec.parseYesNo LiveWellE.yes LiveWellE.no text
  /\ Nodes._yn text = Spec.exactYesNo Nodes.YES Nodes.NO text
  /\ (Py.mem (Py.lower (Py.strip text)) ["ok"; "okay"] = true ->
      Nodes._yn text = None /\ fst (LiveWellE._parse_yes_no text) = None).
Proof.
  split; [|split; [reflexivity|]].
  - unfold LiveWellE._parse_yes_no, Spec.parseYesNo, Spec.exactYesNo,
      Spec.whole_word, Re.search, Re.search_match.
    rewrite strip_lower, search_from_y_or_yes, search_from_n_or_no.
    destruct (Py.mem _ LiveWellE.yes); [done|].
    destruct (Py.mem _ LiveWellE.no); [done|].
    destruct (_ || _); [done|]. by destruct (_ || _).
  - intros Hok. unfold Nodes._yn, LiveWellE._parse_yes_no.
    rewrite strip_lower.
    apply mem_two in Hok as [-> | ->]; split; reflexivity.
Qed.

Lemma parse_yes_no_exact_then_word_witness :
  Py.mem (Py.lower (Py.strip " OK ")) ["ok"; "okay"] = true
  /\ Nodes._yn " OK " = None
  /\ fst (LiveWellE._parse_yes_no " OK ") = None.
Proof.
  split; [reflexivity|].
  exact (proj2 (proj2 (parse_yes_no_exact_then_word " OK ")) eq_refl).
Defined.

(** C8 as stated fails for [_yn]: a text with a whole-word yes that is not
    a token of the yes-set is unknown to it, where the exact match followed
    by the whole-word match says yes. *)
Lemma yn_has_no_word_fallback :
  Nodes._yn "yes please" = None
  /\ Spec.parseYesNo Nodes.YES Nodes.NO "yes please" = Some true
  /\ Nodes._yn "yes please" <> Spec.parseYesNo Nodes.YES Nodes.NO "yes please".
Proof. repeat split; try reflexivity. discriminate. Qed.

Example parse_yes_no_samples :
  fst (LiveWellE._parse_yes_no "Yes, I am") = Some true
  /\ fst (LiveWellE._parse_yes_no "no thanks") = Some false
  /\ fst (LiveWellE._parse_yes_no "maybe") = None
  /\ Nodes._yn "  YEP " = Some true
  /\ Nodes._yn "not now" = Some false
  /\ Nodes._yn "okay" = None.
Proof. repeat split; reflexivity. Qed.

End YesNoClaims.

(* ===================================================================== *)
(** ** The dialogue state machine *)

Section DialogueFacts.
Import Nodes.

(** The message handed to [chat] is the text the nodes read. *)
Lemma last_user_text_turn (st : State) (sid msg : string) :
  last_user_text (reset_reply (add_user_message msg (set_session_id sid st))) = msg.
Proof. unfold last_user_text. cbn. by rewrite last_snoc. Qed.

(** The label decides the path through the graph. *)
Lemma invoke_by_label (E : Env) (st : State) (l : string) :
  classify_label st = l ->
  classify_intent st = set_label l st
  /\ policy_router (classify_intent st) = l.
Proof. intros <-. by split. Qed.

Lemma label_slot (st : State) (a : string) :
  awaiting st = Some a -> Py.startswith a "slot:" = true ->
  classify_label st = "continue_slot".
Proof.
  intros Ha Hp. unfold classify_label, awaiting_text. rewrite Ha.
  change (default "" (Some a)) with a. rewrite Hp.
  unfold Py.startswith in Hp.
  destruct a as [|c a]; [discriminate|]. cbn -[ascii_dec] in Hp.
  destruct (ascii_dec "s" c) as [<-|]; [|discriminate]. reflexivity.
Qed.

Lemma route_prisma (E : Env) (st : State) :
  awaiting st = Some "prisma" ->
  invoke E st = (let* s := continue_prisma (classify_intent st) in compose_reply s).
Proof.
  intros Ha.
  assert (Hl : classify_label st = "continue_prisma").
  { unfold classify_label, awaiting_text. rewrite Ha. reflexivity. }
  unfold invoke, policy_router, classify_intent. rewrite Hl. reflexivity.
Qed.

Lemma route_slot (E : Env) (st : State) (a : string) :
  awaiting st = Some a -> Py.startswith a "slot:" = true ->
  invoke E st = (let* s := collect_slot_answer (classify_intent st) in
                 let* s := ensure_slots s in
                 after_ensure E s).
Proof.
  intros Ha Hp. unfold invoke, policy_router, classify_intent.
  rewrite (label_slot st a Ha Hp). reflexivity.
Qed.

Lemma question_index (i : Z) :
  0 <= i <= 6 ->
  exists q, Frailty.PRISMA_QUESTIONS !! Z.to_nat i = Some q
            /\ Py.list_index Frailty.PRISMA_QUESTIONS i = Ok q.
Proof.
  intros Hi.
  assert (H : i = 0 \/ i = 1 \/ i = 2 \/ i = 3 \/ i = 4 \/ i = 5 \/ i = 6) by lia.
  destruct H as [H|[H|[H|[H|[H|[H|H]]]]]]; subst i;
    eexists; split; reflexivity.
Qed.

(** [continue_prisma] on an answer that is neither yes nor no. *)
Lemma continue_prisma_reask (st : State) (i : Z) (q : Frailty.Question) :
  default 0 (prisma_index st) = i -> 0 <= i <= 6 ->
  _yn (last_user_text st) = None ->
  Py.list_index Frailty.PRISMA_QUESTIONS i = Ok q ->
  continue_prisma st =
    Ok (set_reply
          (Some ("Q" +:+ Py.str_of_int (i + 1) +:+ ": " +:+ Frailty.question q))
          (set_awaiting (Some "prisma")
             (set_prisma_answers (default ∅ (prisma_answers st)) st))).
Proof.
  intros Hi Hrange Hyn Hq. unfold continue_prisma.
  rewrite Hi, Hyn.
  assert (Hlt : (i <? PRISMA_LEN) = true)
    by (apply Z.ltb_lt; unfold PRISMA_LEN; simpl; lia).
  rewrite Hlt, Hq. cbn [rbind]. rewrite Hlt, Hq. reflexivity.
Qed.

(** A blank answer to the mood question: nothing to take the first word
    of. *)
Lemma blank_mood_answer_raises (E : Env) (st : State) (sid : string) :
  awaiting st = Some "slot:mood" ->
  chat E st sid " " = Raise IndexError.
Proof.
  intros Ha. unfold chat.
  set (st1 := reset_reply (add_user_message " " (set_session_id sid st))).
  rewrite (route_slot E st1 "slot:mood" Ha eq_refl).
  unfold collect_slot_answer.
  change (last_user_text (classify_intent st1)) with (last_user_text st1).
  change (awaiting_text (classify_intent st1)) with (default "" (awaiting st)).
  assert (Hlast : last_user_text st1 = " ").
  { unfold last_user_text. subst st1. cbn. by rewrite last_snoc. }
  rewrite Hlast, Ha. reflexivity.
Qed.

End DialogueFacts.

Section DialogueClaims.
Import Nodes.

(** C2: when [awaiting] holds confirm_checkin, prisma, post_checkin,
    after_plan or slot:<name>, [classify_intent] sets the label of the
    matching handler whatever the message is, and the graph runs that handler
    (for a slot: the collector, then [ensure_slots]) before it composes the
    reply. *)
Theorem awaiting_routes_before_matching (E : Env) (st : State) (a : string) :
  awaiting st = Some a ->
  (a = "confirm_checkin" ->
     classify_intent st = set_label "handle_checkin_confirmation" st
     /\ invoke E st = (let* s := handle_checkin_confirmation (classify_intent st) in
                       compose_reply s))
  /\ (a = "prisma" ->
     classify_intent st = set_label "continue_prisma" st
     /\ invoke E st = (let* s := continue_prisma (classify_intent st) in
                       compose_reply s))
  /\ (a = "post_checkin" ->
     classify_intent st = set_label "handle_post_checkin" st
     /\ invoke E st = (let* s := handle_post_checkin E (classify_intent st) in
                       compose_reply s))
  /\ (a = "after_plan" ->
     classify_intent st = set_label "handle_after_plan" st
     /\ invoke E st = (let* s := handle_after_plan E (classify_intent st) in
                       compose_reply s))
  /\ (Py.startswith a "slot:" = true ->
     classify_intent st = set_label "continue_slot" st
     /\ invoke E st = (let* s := collect_slot_answer (classify_intent st) in
                       let* s := ensure_slots s in
                       after_ensure E s)).
Proof.
  intros Ha. unfold invoke.
  split; [|split; [|split; [|split]]]; intros Hcase.
  1-4: subst a;
    destruct (invoke_by_label E st (classify_label st) eq_refl) as [-> ->];
    unfold classify_label, awaiting_text; rewrite Ha; split; reflexivity.
  destruct (invoke_by_label E st _ (label_slot st a Ha Hcase)) as [-> ->].
  split; reflexivity.
Qed.

(** While the energy slot is awaited, a message that reads like a check-in
    request still goes to the slot collector. *)
Lemma awaiting_routes_before_matching_witness :
  let st := add_user_message "daily check-in" Sample.awaiting_energy in
  awaiting st = Some "slot:energy"
  /\ Re.search CHECKIN_RX (Py.lower (last_user_text st)) = true
  /\ classify_intent st = set_label "continue_slot" st.
Proof.
  intros st. split; [reflexivity|]. split; [reflexivity|].
  pose proof (awaiting_routes_before_matching Sample.offline st "slot:energy" eq_refl)
    as (_ & _ & _ & _ & Hslot).
  exact (proj1 (Hslot eq_refl)).
Defined.

(** C5: in the wizard at question [i], a message that [_yn] does not read as
    yes or no leaves the index and the recorded answers as they were, keeps
    [awaiting] at prisma, and the reply of the turn asks question [i]
    again. *)
Theorem wizard_reasks_on_unparseable (E : Env) (st : State)
    (sid msg : string) (i : Z) :
  awaiting st = Some "prisma" ->
  default 0 (prisma_index st) = i ->
  0 <= i <= 6 ->
  _yn msg = None ->
  exists q st',
    Frailty.PRISMA_QUESTIONS !! Z.to_nat i = Some q
    /\ chat E st sid msg
       = Ok ("Q" +:+ Py.str_of_int (i + 1) +:+ ": " +:+ Frailty.question q, st')
    /\ prisma_index st' = prisma_index st
    /\ prisma_answers st' = Some (default ∅ (prisma_answers st))
    /\ awaiting st' = Some "prisma"
    /\ reply st'
       = Some ("Q" +:+ Py.str_of_int (i + 1) +:+ ": " +:+ Frailty.question q).
Proof.
  intros Ha Hi Hrange Hyn.
  destruct (question_index i Hrange) as (q & Hq & Hidx).
  exists q. eexists. split; [exact Hq|].
  unfold chat.
  set (st1 := reset_reply (add_user_message msg (set_session_id sid st))).
  rewrite (route_prisma E st1 Ha).
  assert (Hyn1 : _yn (last_user_text (classify_intent st1)) = None).
  { change (last_user_text (classify_intent st1)) with (last_user_text st1).
    subst st1. by rewrite last_user_text_turn. }
  rewrite (continue_prisma_reask (classify_intent st1) i q Hi Hrange Hyn1 Hidx).
  cbn [rbind]. unfold compose_reply, reply_set.
  cbn -[Py.str_of_int String.append default].
  repeat (split; [reflexivity|]). reflexivity.
Qed.

(** Asked the third question, the user says "maybe". *)
Lemma wizard_reasks_on_unparseable_witness :
  exists q st',
    Frailty.PRISMA_QUESTIONS !! 2%nat = Some q
    /\ chat Sample.offline Sample.at_question_3 "demo" "maybe"
       = Ok ("Q" +:+ Py.str_of_int (2 + 1) +:+ ": " +:+ Frailty.question q, st')
    /\ prisma_index st' = prisma_index Sample.at_question_3
    /\ prisma_answers st'
       = Some (default ∅ (prisma_answers Sample.at_question_3))
    /\ awaiting st' = Some "prisma"
    /\ reply st'
       = Some ("Q" +:+ Py.str_of_int (2 + 1) +:+ ": " +:+ Frailty.question q).
Proof.
  apply (wizard_reasks_on_unparseable Sample.offline Sample.at_question_3
           "demo" "maybe" 2); [reflexivity | reflexivity | lia | reflexivity].
Defined.

(** C4 at its failing input: a new session, the message "energy 5", to which
    the reply asks for the mood; then a message made of one space, on which
    the turn raises IndexError instead of replying. *)
Theorem turn_raises_on_blank_mood_answer (E : Env) (sid : string) :
  exists r st1,
    chat E new_session sid "energy 5" = Ok (r, st1)
    /\ r = "How's your mood today (e.g., good/okay/low)?"
    /\ awaiting st1 = Some "slot:mood"
    /\ chat E st1 sid " " = Raise IndexError.
Proof.
  eexists. eexists. split; [vm_compute; reflexivity|].
  split; [reflexivity|]. split; [reflexivity|].
  by apply blank_mood_answer_raises.
Qed.

(** A turn that returns has a reply that is not empty. *)
Lemma reply_not_empty (E : Env) (st st' : State) (sid msg r : string) :
  chat E st sid msg = Ok (r, st') -> Py.truthy_str r = true.
Proof.
  unfold chat. destruct (invoke E _) as [s|]; [|discriminate].
  cbn [rbind]. intros [= <- _].
  destruct (reply s) as [r0|]; [|reflexivity].
  by destruct (Py.truthy_str r0) eqn:Hr.
Qed.

(** The opening of a session, as in the end-to-end scenario: a greeting is
    answered with the offer, and a yes starts the wizard at question 1. *)
Example greeting_then_yes :
  exists r1 st1 r2 st2,
    chat Sample.offline new_session "demo" "hello" = Ok (r1, st1)
    /\ awaiting st1 = Some "confirm_checkin"
    /\ chat Sample.offline st1 "demo" "yes" = Ok (r2, st2)
    /\ awaiting st2 = Some "prisma"
    /\ prisma_index st2 = Some 0
    /\ r2 = "Great - daily check-in Q1: Are you over 85? (yes/no)".
Proof.
  do 4 eexists. split; [vm_compute; reflexivity|]. split; [reflexivity|].
  split; [vm_compute; reflexivity|]. repeat split; reflexivity.
Qed.

Example extract_slot_samples :
  _extract_slot_kv "3200 steps" ∅ !! "steps" = Some (PInt 3200)
  /\ _extract_slot_kv "steps 3200" ∅ !! "steps" = Some (PInt 3200)
  /\ _extract_slot_kv "tiredd" ∅ !! "mood" = Some (PStr "tired")
  /\ _extract_slot_kv "I'm tired, energy 3, steps 1200" ∅
     = <["steps" := PInt 1200]> (<["energy" := PInt 3]> (<["mood" := PStr "tired"]> ∅)).
Proof. repeat split; vm_compute; reflexivity. Qed.

End DialogueClaims.

(* ===================================================================== *)
(** ** The states the dialogue keeps itself in

    Every node of the graph takes a well-formed state to a well-formed
    state, so a turn cannot meet a slot, an index, an answer or a plan it
    cannot read. *)

Section SafetyFacts.
Import Nodes Wf.

Lemma score_loop_range qs (m : gmap string bool) acc s :
  Frailty.score_loop qs m acc = Ok s -> acc <= s <= acc + Z.of_nat (length qs).
Proof.
  revert acc. induction qs as [|q qs IH]; intros acc; simpl.
  - intros [= <-]. lia.
  - destruct (m !! Frailty.key q) as [v|]; [|discriminate].
    destruct (Frailty.reverse q), v; simpl; intros H%IH; lia.
Qed.

Lemma prisma7_score_ok (answers : gmap string pyval) :
  exists o, Frailty.prisma7_score answers = Ok o /\ score_ok o.
Proof.
  unfold Frailty.prisma7_score.
  destruct (Frailty.normalize_loop _ _ _) as [m|] eqn:Hn; [|by exists None].
  apply normalize_loop_keys in Hn as [_ Hn].
  destruct (score_loop_ok _ _ 0 Hn) as [s Hs]. rewrite Hs.
  exists (Some s). split; [done|].
  apply score_loop_range in Hs. simpl in *. lia.
Qed.

Lemma line_ok_plan_line (p : list (string * json)) (k : string) :
  line_ok p k = true -> exists s, plan_line p k = Ok s.
Proof.
  unfold line_ok, plan_line.
  destruct (default (JList []) (Json.lookup k p)); try by eexists.
  intros [ss ->]%strings_of_ok. by eexists.
Qed.

Lemma compose_reply_fresh (st : State) :
  plan_renderable (plan st) = true ->
  reply_set st = false ->
  exists r, compose_reply st = Ok (set_reply (Some r) st)
            /\ Py.truthy_str r = true.
Proof.
  intros Hp Hr. unfold compose_reply. rewrite Hr.
  revert Hp. unfold plan_renderable.
  destruct (default (JDict []) (plan st)) as [| | | | | |fields]; try discriminate.
  intros [[[Hm Ha]%andb_prop He]%andb_prop Hn]%andb_prop.
  apply line_ok_plan_line in Hm as [m Hm], Ha as [a Ha], He as [e He], Hn as [n Hn].
  cbn [rbind]. rewrite Hm, Ha, He, Hn. cbn [rbind].
  eexists. split; [reflexivity|]. reflexivity.
Qed.

Lemma compose_reply_ok (st : State) :
  plan_renderable (plan st) = true ->
  exists r, compose_reply st = Ok (set_reply (Some r) st)
            /\ Py.truthy_str r = true.
Proof.
  intros Hp. destruct (reply_set st) eqn:Hr; [|by apply compose_reply_fresh].
  unfold compose_reply. rewrite Hr. unfold reply_set in Hr.
  destruct (reply st) as [r|] eqn:Hrep; [|discriminate].
  exists r. split; [|done]. destruct st; cbn in *. by subst.
Qed.

Lemma slots_ok_mood (sl : gmap string pyval) (m : string) :
  slots_ok sl -> slots_ok (<["mood" := PStr m]> sl).
Proof.
  intros (Hm & He & Hs). split; [|split]; intros v.
  - rewrite lookup_insert_eq. intros [= <-]. by eexists.
  - rewrite lookup_insert_ne by discriminate. apply He.
  - rewrite lookup_insert_ne by discriminate. apply Hs.
Qed.

Lemma slots_ok_energy (sl : gmap string pyval) (e : Z) :
  0 <= e <= 10 -> slots_ok sl -> slots_ok (<["energy" := PInt e]> sl).
Proof.
  intros Hr (Hm & He & Hs). split; [|split]; intros v.
  - rewrite lookup_insert_ne by discriminate. apply Hm.
  - rewrite lookup_insert_eq. intros [= <-]. by eexists.
  - rewrite lookup_insert_ne by discriminate. apply Hs.
Qed.

Lemma slots_ok_steps (sl : gmap string pyval) (n : Z) :
  0 <= n -> slots_ok sl -> slots_ok (<["steps" := PInt n]> sl).
Proof.
  intros Hr (Hm & He & Hs). split; [|split]; intros v.
  - rewrite lookup_insert_ne by discriminate. apply Hm.
  - rewrite lookup_insert_ne by discriminate. apply He.
  - rewrite lookup_insert_eq. intros [= <-]. by eexists.
Qed.

Lemma slots_ok_empty : slots_ok ∅.
Proof. split; [|split]; intros v; rewrite lookup_empty; discriminate. Qed.

Lemma extract_slot_kv_ok (text : string) (out : gmap string pyval) :
  slots_ok out -> slots_ok (_extract_slot_kv text out).
Proof.
  intros Hout. unfold _extract_slot_kv.
  set (out1 := match Re.search_group MOOD_KV_RX text with
               | Some g => _ | None => _ end).
  assert (H1 : slots_ok out1).
  { subst out1. destruct (Re.search_group MOOD_KV_RX text);
      [by apply slots_ok_mood|].
    destruct (_extract_mood_from_text text); [by apply slots_ok_mood | done]. }
  set (out2 := match Re.search_group ENERGY_KV_RX text with
               | Some g => _ | None => _ end).
  assert (H2 : slots_ok out2).
  { subst out2. destruct (Re.search_group ENERGY_KV_RX text); [|done].
    apply slots_ok_energy; [lia | done]. }
  destruct (match Re.search_group STEPS_KV_RX text with
            | Some g => _ | None => _ end) as [g|]; [|done].
  destruct (0 <=? Py.digits_val g 0) eqn:Hv; [|done].
  apply slots_ok_steps; [lia | done].
Qed.

(** Fields the well-formedness does not read. *)
Lemma state_ok_set_reply r st : state_ok st -> state_ok (set_reply r st).
Proof. done. Qed.
Lemma state_ok_set_label l st : state_ok st -> state_ok (set_label l st).
Proof. done. Qed.
Lemma state_ok_set_messages m st : state_ok st -> state_ok (set_messages m st).
Proof. done. Qed.
Lemma state_ok_set_session_id s st : state_ok st -> state_ok (set_session_id s st).
Proof. done. Qed.
Lemma state_ok_set_plan_seed s st : state_ok st -> state_ok (set_plan_seed s st).
Proof. done. Qed.

Lemma state_ok_set_awaiting a st :
  awaiting_ok a -> state_ok st -> state_ok (set_awaiting a st).
Proof.
  intros Ha (? & ? & ? & ? & ? & ?).
  unfold state_ok; repeat (split; [assumption|]); assumption.
Qed.

Lemma state_ok_set_slots sl st :
  slots_ok sl -> state_ok st -> state_ok (set_slots sl st).
Proof.
  intros Ha (? & ? & ? & ? & ? & ?).
  unfold state_ok; repeat (split; [assumption|]); assumption.
Qed.

Lemma state_ok_set_plan p st :
  plan_renderable (Some p) = true -> state_ok st -> state_ok (set_plan p st).
Proof.
  intros Ha (? & ? & ? & ? & ? & ?).
  unfold state_ok; repeat (split; [assumption|]); assumption.
Qed.

Lemma state_ok_set_frailty_score o st :
  score_ok o -> state_ok st -> state_ok (set_frailty_score o st).
Proof.
  intros Ha (? & ? & ? & ? & ? & ?).
  unfold state_ok; repeat (split; [assumption|]); assumption.
Qed.

Lemma state_ok_set_wizard i a st :
  wizard_ok i a -> state_ok st ->
  state_ok (set_prisma_index i (set_prisma_answers a st)).
Proof.
  intros Ha (? & ? & ? & ? & ? & ?).
  unfold state_ok; repeat (split; [assumption|]); assumption.
Qed.

Lemma state_ok_keep_answers st :
  state_ok st -> state_ok (set_prisma_answers (default ∅ (prisma_answers st)) st).
Proof.
  intros (? & ? & ? & ? & ? & ?).
  unfold state_ok; repeat (split; [assumption|]); assumption.
Qed.

Lemma state_ok_keep_slots st :
  state_ok st -> state_ok (set_slots (default ∅ (slots st)) st).
Proof.
  intros (? & ? & ? & ? & ? & ?).
  unfold state_ok; repeat (split; [assumption|]); assumption.
Qed.
End SafetyFacts.

Section NodeSafety.
Import Nodes Wf.

Lemma wizard_ok_start : wizard_ok 0 ∅.
Proof.
  split; [lia|]. intros n q _.
  destruct (Z.ltb_spec (Z.of_nat n) 0); [lia | apply lookup_empty].
Qed.

Lemma start_prisma_ok (st : State) :
  state_ok st ->
  exists st', start_prisma st = Ok st' /\ state_ok st'
              /\ awaiting st' = Some "prisma"
              /\ prisma_index st' = Some 0 /\ prisma_answers st' = Some ∅.
Proof.
  intros Hok. eexists. split; [reflexivity|].
  split; [|by repeat split].
  apply state_ok_set_reply, state_ok_set_awaiting; [cbn; tauto|].
  by apply state_ok_set_wizard; [apply wizard_ok_start|].
Qed.

Lemma slot_awaiting_ok (k : string) :
  In k SLOT_NAMES -> awaiting_ok (Some ("slot:" +:+ k)).
Proof. cbn. intros [<-|[<-|[<-|[]]]]; tauto. Qed.

Lemma slot_prompt_ok (a b c k : string) :
  In k SLOT_NAMES -> exists q, slot_prompt a b c k = Ok q.
Proof. cbn. intros [<-|[<-|[<-|[]]]]; by eexists. Qed.

Lemma ask_first_missing_ok (a b c : string) required sl (st : State) :
  required_ok required -> state_ok st ->
  exists st', ask_first_missing (slot_prompt a b c) required sl st = Ok st'
              /\ state_ok st'.
Proof.
  intros Hreq Hok. induction required as [|k rest IH]; cbn [ask_first_missing].
  - eexists. split; [reflexivity|]. by apply state_ok_set_awaiting.
  - destruct (has_key k sl).
    + apply IH. intros k' Hk'. apply Hreq. by right.
    + destruct (slot_prompt_ok a b c k) as [q ->]; [apply Hreq; by left|].
      cbn [rbind]. eexists. split; [reflexivity|].
      apply state_ok_set_reply, state_ok_set_awaiting; [|done].
      apply slot_awaiting_ok, Hreq. by left.
Qed.

Lemma ensure_slots_ok (st : State) :
  state_ok st -> exists st', ensure_slots st = Ok st' /\ state_ok st'.
Proof.
  intros Hok. unfold ensure_slots. apply ask_first_missing_ok.
  - apply Hok.
  - by apply state_ok_keep_slots.
Qed.

Lemma extract_light_entities_ok (st : State) :
  state_ok st -> state_ok (extract_light_entities st).
Proof.
  intros Hok. unfold extract_light_entities.
  apply state_ok_set_slots; [|done]. apply extract_slot_kv_ok, Hok.
Qed.

Lemma awaiting_cases (a : option string) :
  awaiting_ok a ->
  a = None \/ a = Some "confirm_checkin" \/ a = Some "prisma"
  \/ a = Some "post_checkin" \/ a = Some "after_plan"
  \/ a = Some "slot:mood" \/ a = Some "slot:energy" \/ a = Some "slot:steps".
Proof.
  destruct a as [x|]; [|by left]. cbn.
  intros [<-|[<-|[<-|[<-|[<-|[<-|[<-|[]]]]]]]]; tauto.
Qed.

Lemma collect_slot_answer_ok (st : State) :
  state_ok st -> answerable st (last_user_text st) ->
  exists st', collect_slot_answer st = Ok st' /\ state_ok st'.
Proof.
  intros Hok Hans. unfold collect_slot_answer, awaiting_text.
  assert (Hsl : slots_ok (slots_or_new st)) by apply Hok.
  assert (Hreq : required_ok (required_of st)) by apply Hok.
  assert (Haw : awaiting_ok (awaiting st)) by apply Hok.
  destruct (awaiting_cases _ Haw) as [H|[H|[H|[H|[H|[H|[H|H]]]]]]];
    rewrite H; cbn -[_extract_mood_from_text _get_int ask_first_missing Py.split Py.strip Z.min Z.max].
  1-5: apply ask_first_missing_ok; [done | by apply state_ok_set_slots].
  - destruct (_extract_mood_from_text (last_user_text st)) as [m|]; cbn [rbind].
    + apply ask_first_missing_ok; [done|].
      apply state_ok_set_slots; [by apply slots_ok_mood | done].
    + destruct (Py.split (Py.strip (last_user_text st))) as [|w ws] eqn:Hw;
        [by destruct (Hans H)|]. cbn [rbind].
      apply ask_first_missing_ok; [done|].
      apply state_ok_set_slots; [by apply slots_ok_mood | done].
  - destruct (_get_int (last_user_text st)) as [v|]; cbn [rbind];
      (apply ask_first_missing_ok; [done|]); apply state_ok_set_slots; try done.
    apply slots_ok_energy; [lia | done].
  - destruct (_get_int (last_user_text st)) as [v|]; cbn [rbind].
    + destruct (0 <=? v) eqn:Hv; cbn [rbind];
        (apply ask_first_missing_ok; [done|]); apply state_ok_set_slots; try done.
      apply slots_ok_steps; [lia | done].
    + apply ask_first_missing_ok; [done|]. by apply state_ok_set_slots.
Qed.

Lemma slot_int_or_energy (sl : gmap string pyval) :
  slots_ok sl -> exists e, slot_int_or sl "energy" 5 = Ok e /\ 0 <= e <= 10.
Proof.
  intros (_ & He & _). unfold slot_int_or.
  destruct (sl !! "energy") as [v|]; [|exists 5; split; [done | lia]].
  destruct (He v eq_refl) as (e & -> & Hr). cbn.
  destruct (e =? 0); cbn; eexists; split; try reflexivity; lia.
Qed.

Lemma slot_int_or_steps (sl : gmap string pyval) :
  slots_ok sl -> exists n, slot_int_or sl "steps" 0 = Ok n /\ 0 <= n.
Proof.
  intros (_ & _ & Hs). unfold slot_int_or.
  destruct (sl !! "steps") as [v|]; [|exists 0; split; [done | lia]].
  destruct (Hs v eq_refl) as (n & -> & Hr). cbn.
  destruct (n =? 0); cbn; eexists; split; try reflexivity; lia.
Qed.

Lemma motivate_ok (st : State) :
  state_ok st ->
  exists r, motivate st = Ok (set_reply (Some r) st) /\ Py.truthy_str r = true.
Proof.
  intros Hok. unfold motivate.
  destruct (slot_int_or_energy _ (proj1 Hok)) as (e & -> & _).
  destruct (slot_int_or_steps _ (proj1 Hok)) as (n & -> & _).
  cbn [rbind]. eexists. split; [reflexivity|].
  cbn [Py.join]. by destruct (_ || _).
Qed.

Lemma maybe_compute_frailty_ok (st : State) :
  state_ok st -> exists st', maybe_compute_frailty st = Ok st' /\ state_ok st'.
Proof.
  intros Hok. unfold maybe_compute_frailty.
  destruct (frailty_score st); [by eexists|].
  destruct (prisma_answers st) as [a|]; [|by eexists].
  destruct (_ =? _)%nat; [|by eexists].
  destruct (prisma7_score_ok a) as (o & -> & Ho). cbn [rbind].
  eexists. split; [reflexivity|]. by apply state_ok_set_frailty_score.
Qed.
End NodeSafety.

Section NodeSafety2.
Import Nodes Wf.

Lemma generate_daily_plan_ok (E : Env) slots score suggester seed :
  exists p, Routine.generate_daily_plan E slots score suggester seed = Ok p
            /\ Routine.plan_ok p = true.
Proof.
  unfold Routine.generate_daily_plan.
  destruct suggester as [f|]; [|apply fallback_total].
  destruct (Routine.suggested_plan E slots score f) as [[p|]|] eqn:Hs;
    cbn [try_except]; try apply fallback_total.
  exists p. split; [done|]. by eapply suggested_plan_valid.
Qed.

Lemma field_line_ok (fields : list (string * json)) (k : string) :
  Routine.field_is_str_list k fields = true -> line_ok fields k = true.
Proof.
  unfold Routine.field_is_str_list, line_ok.
  destruct (Json.lookup k fields) as [v|]; [|discriminate]. by destruct v.
Qed.

Lemma plan_ok_renderable (p : json) :
  Routine.plan_ok p = true -> plan_renderable (Some p) = true.
Proof.
  unfold Routine.plan_ok, plan_renderable.
  destruct p as [| | | | | |fields]; try discriminate.
  change (default (JDict []) (Some (JDict fields))) with (JDict fields).
  intros [[[[Hm Ha]%andb_prop He]%andb_prop Hn]%andb_prop _]%andb_prop.
  by rewrite !field_line_ok.
Qed.

Lemma plan_routine_ok (E : Env) (st : State) :
  state_ok st ->
  exists st', plan_routine E st = Ok st' /\ state_ok st'
              /\ awaiting st' = Some "after_plan".
Proof.
  intros Hok. unfold plan_routine.
  destruct (plan_seed st) as [s|];
    match goal with |- context [Routine.generate_daily_plan ?e ?sl ?sc ?f ?sd] =>
      destruct (generate_daily_plan_ok e sl sc f sd) as (p & Hp & Hvalid) end;
    cbn [slots frailty_score set_plan_seed] in *; rewrite Hp; cbn [rbind];
    (eexists; split; [reflexivity|]; split; [|reflexivity]);
    apply state_ok_set_awaiting; [cbn; tauto| |cbn; tauto|];
    apply state_ok_set_plan; auto using plan_ok_renderable.
Qed.

Lemma wizard_ok_step (i : Z) (answers : gmap string pyval)
    (q : Frailty.Question) (b : bool) :
  wizard_ok i answers -> 0 <= i <= 6 ->
  Py.list_index Frailty.PRISMA_QUESTIONS i = Ok q ->
  wizard_ok (i + 1) (<[Frailty.key q := PBool b]> answers).
Proof.
  intros [_ H] Hi Hq. split; [lia|]. intros n q' Hn.
  pose proof (H n q' Hn) as Hold.
  assert (Hcases : i = 0 \/ i = 1 \/ i = 2 \/ i = 3 \/ i = 4 \/ i = 5 \/ i = 6) by lia.
  destruct n as [|[|[|[|[|[|[|n]]]]]]]; cbn in Hn; try discriminate;
    injection Hn as <-;
    destruct Hcases as [->|[->|[->|[->|[->|[->| ->]]]]]];
    injection Hq as <-; cbn in Hold |- *;
    rewrite ?lookup_insert_eq, ?lookup_insert_ne by discriminate;
    first [exact Hold | by eexists].
Qed.

Lemma finish_wizard_ok (st : State) (answers : gmap string pyval) :
  state_ok st ->
  exists st',
    (let* score := Frailty.prisma7_score answers in
     let st0 := set_frailty_score score st in
     Ok (set_reply
           (Some ("All done - your daily check-in score is "
                  +:+ str_of_opt_int (frailty_score st0) +:+ ". "
                  +:+ "Would you like me to draft a quick plan for today, or would you prefer to log mood, energy, or steps first?"))
           st0)) = Ok st'
    /\ state_ok st' /\ reply_set st' = true.
Proof.
  intros Hok. destruct (prisma7_score_ok answers) as (o & -> & Ho). cbn [rbind].
  eexists. split; [reflexivity|]. split; [|reflexivity].
  by apply state_ok_set_reply, state_ok_set_frailty_score.
Qed.

Lemma continue_prisma_ok (st : State) :
  state_ok st ->
  exists st', continue_prisma st = Ok st' /\ state_ok st'
              /\ reply_set st' = true.
Proof.
  intros Hok. unfold continue_prisma.
  assert (Hw : wizard_ok (default 0 (prisma_index st))
                 (default ∅ (prisma_answers st))) by apply Hok.
  set (i := default 0 (prisma_index st)) in *.
  set (answers := default ∅ (prisma_answers st)) in *.
  assert (Hok1 : state_ok (set_prisma_answers answers st))
    by (by apply state_ok_keep_answers).
  assert (Hpost : awaiting_ok (Some "post_checkin")) by (cbn; tauto).
  assert (Hpr : awaiting_ok (Some "prisma")) by (cbn; tauto).
  change PRISMA_LEN with 7.
  destruct (i <? 7) eqn:Hlt.
  - assert (Hi : 0 <= i <= 6) by (destruct Hw; lia).
    destruct (question_index i Hi) as (q & _ & Hq). rewrite Hq. cbn [rbind].
    destruct (_yn (last_user_text st)) as [b|]; cbn [rbind]; cbv beta iota.
    + pose proof (wizard_ok_step i answers q b Hw Hi Hq) as Hw'.
      assert (Hok2 : state_ok (set_prisma_index (i + 1)
                       (set_prisma_answers (<[Frailty.key q := PBool b]> answers)
                          (set_prisma_answers answers st)))).
      { by apply state_ok_set_wizard. }
      destruct (i + 1 <? 7) eqn:Hlt'.
      * destruct (question_index (i + 1)) as (q2 & _ & Hq2); [lia|].
        rewrite Hq2. cbn [rbind]. eexists. split; [reflexivity|].
        split; [|reflexivity].
        by apply state_ok_set_reply, state_ok_set_awaiting.
      * apply finish_wizard_ok. by apply state_ok_set_awaiting.
    + rewrite Hlt, Hq. cbn [rbind]. eexists. split; [reflexivity|].
      split; [|reflexivity].
      by apply state_ok_set_reply, state_ok_set_awaiting.
  - cbn [rbind]; cbv beta iota. rewrite Hlt.
    apply finish_wizard_ok. by apply state_ok_set_awaiting.
Qed.
End NodeSafety2.

Section TurnSafety.
Import Nodes Wf Turn.

Lemma awaiting_ok_none : awaiting_ok None.
Proof. exact I. Qed.

Lemma awaiting_ok_in (a : string) : In a AWAITING_VALUES -> awaiting_ok (Some a).
Proof. done. Qed.

Create HintDb turn.

#[local] Hint Resolve awaiting_ok_none state_ok_set_reply state_ok_set_awaiting
  state_ok_set_slots slots_ok_mood state_ok_set_plan_seed : turn.

Ltac known_awaiting := apply awaiting_ok_in; cbn; tauto.

Lemma handle_checkin_confirmation_ok (st : State) :
  state_ok st ->
  exists st', handle_checkin_confirmation st = Ok st' /\ state_ok st'.
Proof.
  intros Hok. unfold handle_checkin_confirmation.
  destruct (_yn (last_user_text st)) as [[]|].
  - destruct (start_prisma_ok st Hok) as (st' & -> & Hok' & _). by exists st'.
  - eexists. split; [reflexivity|]. auto with turn.
  - eexists. split; [reflexivity|].
    apply state_ok_set_reply, state_ok_set_awaiting; [known_awaiting | done].
Qed.

Lemma check_slots_ok (st : State) :
  state_ok st -> exists st', check_slots st = Ok st' /\ state_ok st'.
Proof.
  intros Hok. apply ensure_slots_ok. by apply extract_light_entities_ok.
Qed.

Lemma set_mood_ok (m : string) (st : State) :
  state_ok st -> state_ok (set_mood m st).
Proof.
  intros Hok. apply state_ok_set_slots; [|done]. apply slots_ok_mood, Hok.
Qed.

Lemma motivate_state_ok (st : State) :
  state_ok st -> exists st', motivate st = Ok st' /\ state_ok st'.
Proof.
  intros Hok. destruct (motivate_ok st Hok) as (r & -> & _).
  eexists. split; [reflexivity|]. auto with turn.
Qed.

Lemma handle_post_checkin_ok (E : Env) (st : State) :
  state_ok st ->
  exists st', handle_post_checkin E st = Ok st' /\ state_ok st'.
Proof.
  intros Hok. unfold handle_post_checkin.
  assert (Hnone : state_ok (set_awaiting None st)) by auto with turn.
  assert (Hpost : state_ok (set_awaiting (Some "post_checkin") st)).
  { apply state_ok_set_awaiting; [known_awaiting | done]. }
  destruct (_ || _).
  { destruct (start_prisma_ok _ Hnone) as (st' & -> & Hok' & _). by exists st'. }
  destruct (_extract_mood_from_text _) as [m|].
  { apply ensure_slots_ok. apply state_ok_set_awaiting; [exact I|].
    by apply set_mood_ok. }
  destruct (Py.mem _ ["ok"; "okay"; "thanks"; "thank you"]).
  { eexists. split; [reflexivity|]. auto with turn. }
  destruct (_ || _).
  { destruct (plan_routine_ok E _ Hnone) as (st' & -> & Hok' & _). by exists st'. }
  destruct (_ || _); [by apply check_slots_ok|].
  destruct (_ || _); [by apply motivate_state_ok|].
  eexists. split; [reflexivity|]. auto with turn.
Qed.

Lemma tweak_energy_ok (f : Z -> Z) (st : State) :
  (forall e, 0 <= e <= 10 -> 0 <= f e <= 10) ->
  state_ok st -> exists st', tweak_energy f st = Ok st' /\ state_ok st'.
Proof.
  intros Hf Hok. unfold tweak_energy, slots_or_new.
  destruct (slot_int_or_energy _ (proj1 Hok)) as (e & -> & He). cbn [rbind].
  eexists. split; [reflexivity|].
  apply state_ok_set_reply, state_ok_set_slots; [|done].
  apply slots_ok_energy; [by apply Hf | apply Hok].
Qed.

Lemma handle_after_plan_ok (E : Env) (st : State) :
  state_ok st -> messages st <> [] ->
  exists st', handle_after_plan E st = Ok st' /\ state_ok st'.
Proof.
  intros Hok Hmsg. unfold handle_after_plan.
  destruct (last (messages st)) as [m|] eqn:Hlast;
    [|by apply last_None in Hlast]. cbn [rbind].
  assert (Hnone : state_ok (set_awaiting None st)) by auto with turn.
  assert (Hafter : state_ok (set_awaiting (Some "after_plan") st)).
  { apply state_ok_set_awaiting; [known_awaiting | done]. }
  destruct (_ || _).
  { destruct (start_prisma_ok (set_reply None (set_awaiting None st)))
      as (st' & -> & Hok' & _); [auto with turn|]. by exists st'. }
  destruct (_extract_mood_from_text _) as [mood|].
  { apply ensure_slots_ok. apply state_ok_set_awaiting; [exact I|].
    by apply set_mood_ok. }
  destruct (Py.mem _ ["ok"; "okay"; "thanks"; "thank you"]).
  { eexists. split; [reflexivity|]. auto with turn. }
  destruct (_ || _); [by apply motivate_state_ok|].
  destruct (_ || _).
  { destruct (tweak_energy_ok (fun e => Z.max 0 (e - 2)) st) as (st1 & -> & Hok1);
      [lia | done |]. cbn [rbind].
    destruct (plan_routine_ok E _ Hok1) as (st' & -> & Hok' & _). by exists st'. }
  destruct (_ || _).
  { destruct (tweak_energy_ok (fun e => Z.min 10 (e + 2)) st) as (st1 & -> & Hok1);
      [lia | done |]. cbn [rbind].
    destruct (plan_routine_ok E _ Hok1) as (st' & -> & Hok' & _). by exists st'. }
  destruct (_ || _).
  { destruct (plan_routine_ok E
                (set_reply None (set_plan_seed (default 0 (plan_seed st) + 1) st)))
      as (st' & -> & Hok' & _); [auto with turn|]. by exists st'. }
  destruct (_ || _); [by apply check_slots_ok|].
  eexists. split; [reflexivity|]. auto with turn.
Qed.

Lemma classify_label_known (st : State) : In (classify_label st) LABELS.
Proof.
  unfold classify_label.
  repeat match goal with
         | |- context [if ?c then _ else _] => destruct c
         end; cbn; tauto.
Qed.

Lemma plan_path_ok (E : Env) (st : State) :
  state_ok st ->
  exists st', plan_path E st = Ok st' /\ state_ok st' /\ reply_set st' = true.
Proof.
  intros Hok. unfold plan_path.
  destruct (maybe_compute_frailty_ok st Hok) as (st1 & -> & Hok1). cbn [rbind].
  destruct (plan_routine_ok E st1 Hok1) as (st2 & -> & Hok2 & _). cbn [rbind].
  destruct (compose_reply_ok st2) as (r & -> & Hr); [apply Hok2|].
  eexists. split; [reflexivity|]. split; [auto with turn|].
  unfold reply_set. cbn. exact Hr.
Qed.

Lemma composed_ok (st : State) :
  state_ok st ->
  exists st', compose_reply st = Ok st' /\ state_ok st' /\ reply_set st' = true.
Proof.
  intros Hok. destruct (compose_reply_ok st) as (r & -> & Hr); [apply Hok|].
  eexists. split; [reflexivity|]. split; [auto with turn|].
  unfold reply_set. cbn. exact Hr.
Qed.

Lemma after_ensure_ok (E : Env) (st : State) :
  state_ok st ->
  exists st', after_ensure E st = Ok st' /\ state_ok st' /\ reply_set st' = true.
Proof.
  intros Hok. unfold after_ensure.
  destruct (String.eqb _ _); [by apply composed_ok | by apply plan_path_ok].
Qed.

Lemma invoke_ok (E : Env) (st : State) :
  state_ok st -> messages st <> [] -> answerable st (last_user_text st) ->
  exists st', invoke E st = Ok st' /\ state_ok st' /\ reply_set st' = true.
Proof.
  intros Hok Hmsg Hans. unfold invoke, policy_router.
  assert (Hok1 : state_ok (classify_intent st)) by (by apply state_ok_set_label).
  change (default "maybe_compute_frailty" (label (classify_intent st)))
    with (classify_label st).
  pose proof (classify_label_known st) as Hl.
  set (st1 := classify_intent st) in *.
  assert (Hthen : forall (m : result State),
            (exists s, m = Ok s /\ state_ok s) ->
            exists st', (let* s := m in compose_reply s) = Ok st'
                        /\ state_ok st' /\ reply_set st' = true).
  { intros m (s & -> & Hs). cbn [rbind]. by apply composed_ok. }
  cbn in Hl.
  destruct Hl as [<-|[<-|[<-|[<-|[<-|[<-|[<-|[<-|[<-|[<-|[]]]]]]]]]]];
    cbn [String.eqb Ascii.eqb Bool.eqb andb].
  - by apply Hthen, handle_checkin_confirmation_ok.
  - destruct (continue_prisma_ok st1 Hok1) as (s & -> & Hs & _).
    cbn [rbind]. by apply composed_ok.
  - by apply Hthen, handle_post_checkin_ok.
  - by apply Hthen, handle_after_plan_ok.
  - destruct (collect_slot_answer_ok st1 Hok1 Hans) as (s & -> & Hs). cbn [rbind].
    destruct (ensure_slots_ok s Hs) as (s2 & -> & Hs2). cbn [rbind].
    by apply after_ensure_ok.
  - destruct (start_prisma_ok st1 Hok1) as (s & -> & Hs & _).
    cbn [rbind]. by apply composed_ok.
  - by apply Hthen, motivate_state_ok.
  - apply composed_ok.
    apply state_ok_set_reply, state_ok_set_awaiting; [known_awaiting | done].
  - destruct (ensure_slots_ok _ (extract_light_entities_ok st1 Hok1)) as (s & -> & Hs).
    cbn [rbind]. by apply after_ensure_ok.
  - by apply plan_path_ok.
Qed.

Lemma state_ok_new_session : state_ok new_session.
Proof.
  split; [apply slots_ok_empty|]. split; [by intros k|].
  split; [exact I|]. split; [apply wizard_ok_start|]. by split.
Qed.

End TurnSafety.

(* ===================================================================== *)
(** ** The transcript

    No node of the graph writes to the transcript: a turn adds the user
    message before the graph runs and the reply after it. *)

Section Transcript.
Import Nodes Wf.

(** Runs a node to its returns; hypotheses about nodes it calls are kept. *)
Ltac run_node :=
  repeat match goal with
    | |- Ok _ = Ok _ -> _ => intros [= <-]
    | |- Raise _ = Ok _ -> _ => discriminate
    | |- context [rbind ?m _] =>
        let H := fresh "Hcall" in destruct m eqn:H; cbn [rbind]
    | |- context [match ?x with _ => _ end] => destruct x
    | |- context [if ?c then _ else _] => destruct c
    end.

Lemma start_prisma_log st st' :
  start_prisma st = Ok st' -> messages st' = messages st.
Proof. intros [= <-]. reflexivity. Qed.

Lemma ask_first_missing_log prompt required sl st st' :
  ask_first_missing prompt required sl st = Ok st' -> messages st' = messages st.
Proof.
  induction required as [|k rest IH]; cbn [ask_first_missing].
  - by intros [= <-].
  - destruct (has_key k sl); [exact IH|]. run_node; reflexivity.
Qed.

Lemma ensure_slots_log st st' :
  ensure_slots st = Ok st' -> messages st' = messages st.
Proof. unfold ensure_slots. by intros ->%ask_first_missing_log. Qed.

Lemma collect_slot_answer_log st st' :
  collect_slot_answer st = Ok st' -> messages st' = messages st.
Proof.
  unfold collect_slot_answer.
  match goal with |- context [rbind ?m _] => destruct m; cbn [rbind] end;
    [|discriminate].
  by intros ->%ask_first_missing_log.
Qed.

Lemma check_slots_log st st' :
  check_slots st = Ok st' -> messages st' = messages st.
Proof. unfold check_slots. by intros ->%ensure_slots_log. Qed.

Lemma motivate_log st st' :
  motivate st = Ok st' -> messages st' = messages st.
Proof. unfold motivate. run_node; reflexivity. Qed.

Lemma maybe_compute_frailty_log st st' :
  maybe_compute_frailty st = Ok st' -> messages st' = messages st.
Proof. unfold maybe_compute_frailty. run_node; reflexivity. Qed.

Lemma plan_routine_log E st st' :
  plan_routine E st = Ok st' -> messages st' = messages st.
Proof.
  unfold plan_routine. destruct (plan_seed st);
    (destruct (Routine.generate_daily_plan _ _ _ _ _); cbn [rbind];
     [by intros [= <-] | discriminate]).
Qed.

Lemma compose_reply_log st st' :
  compose_reply st = Ok st' -> messages st' = messages st.
Proof. unfold compose_reply. run_node; reflexivity. Qed.

Lemma tweak_energy_log f st st' :
  tweak_energy f st = Ok st' -> messages st' = messages st.
Proof. unfold tweak_energy. run_node; reflexivity. Qed.

Lemma continue_prisma_log st st' :
  continue_prisma st = Ok st' -> messages st' = messages st.
Proof.
  unfold continue_prisma.
  destruct (_ <? _); [destruct (Py.list_index _ _); cbn [rbind]; [|discriminate];
                      destruct (_yn _)|];
    cbn [rbind]; cbv beta iota; run_node; reflexivity.
Qed.

(** Closes a branch that ends in a call of another node. *)
Ltac by_callee :=
  let H := fresh "H" in
  intros H;
  first [ apply start_prisma_log in H
        | apply ensure_slots_log in H
        | apply check_slots_log in H
        | apply motivate_log in H
        | apply plan_routine_log in H
        | apply compose_reply_log in H
        | apply collect_slot_answer_log in H
        | apply continue_prisma_log in H ];
  rewrite H; cbn;
  repeat match goal with
    | Hc : tweak_energy _ _ = Ok _ |- _ => apply tweak_energy_log in Hc; rewrite Hc
    | Hc : maybe_compute_frailty _ = Ok _ |- _ =>
        apply maybe_compute_frailty_log in Hc; rewrite Hc
    | Hc : plan_routine _ _ = Ok _ |- _ => apply plan_routine_log in Hc; rewrite Hc
    | Hc : ensure_slots _ = Ok _ |- _ => apply ensure_slots_log in Hc; rewrite Hc
    | Hc : collect_slot_answer _ = Ok _ |- _ =>
        apply collect_slot_answer_log in Hc; rewrite Hc
    end; cbn; reflexivity.

Lemma handle_checkin_confirmation_log st st' :
  handle_checkin_confirmation st = Ok st' -> messages st' = messages st.
Proof.
  unfold handle_checkin_confirmation. run_node; first [reflexivity | by_callee].
Qed.

Lemma handle_post_checkin_log E st st' :
  handle_post_checkin E st = Ok st' -> messages st' = messages st.
Proof.
  unfold handle_post_checkin. run_node; first [reflexivity | by_callee].
Qed.

Lemma handle_after_plan_log E st st' :
  handle_after_plan E st = Ok st' -> messages st' = messages st.
Proof.
  unfold handle_after_plan.
  destruct (last (messages st)); cbn [rbind]; [|discriminate].
  repeat match goal with
    | |- Ok _ = Ok _ -> _ => intros [= <-]
    | |- context [if ?c then _ else _] => destruct c
    | |- context [match _extract_mood_from_text ?x with _ => _ end] =>
        destruct (_extract_mood_from_text x)
    | |- context [rbind (tweak_energy ?f ?s) _] =>
        let H := fresh "Hcall" in destruct (tweak_energy f s) eqn:H; cbn [rbind]
    | |- Raise _ = Ok _ -> _ => discriminate
    end; first [reflexivity | by_callee].
Qed.

(** Turns every recorded call into the equation of its transcripts. *)
Ltac calls_to_logs :=
  repeat match goal with
    | H : start_prisma _ = Ok _ |- _ => apply start_prisma_log in H
    | H : ensure_slots _ = Ok _ |- _ => apply ensure_slots_log in H
    | H : collect_slot_answer _ = Ok _ |- _ => apply collect_slot_answer_log in H
    | H : motivate _ = Ok _ |- _ => apply motivate_log in H
    | H : maybe_compute_frailty _ = Ok _ |- _ => apply maybe_compute_frailty_log in H
    | H : plan_routine _ _ = Ok _ |- _ => apply plan_routine_log in H
    | H : compose_reply _ = Ok _ |- _ => apply compose_reply_log in H
    | H : continue_prisma _ = Ok _ |- _ => apply continue_prisma_log in H
    | H : handle_checkin_confirmation _ = Ok _ |- _ =>
        apply handle_checkin_confirmation_log in H
    | H : handle_post_checkin _ _ = Ok _ |- _ => apply handle_post_checkin_log in H
    | H : handle_after_plan _ _ = Ok _ |- _ => apply handle_after_plan_log in H
    end;
  cbn [messages classify_intent set_label greet_and_offer_checkin set_reply
       set_awaiting extract_light_entities set_slots] in *;
  congruence.

Ltac record_calls :=
  repeat match goal with
    | |- context [rbind ?m _] =>
        let H := fresh "Hcall" in destruct m eqn:H; cbn [rbind]
    | |- Raise _ = Ok _ -> _ => discriminate
    end.

Lemma plan_path_log E st st' :
  plan_path E st = Ok st' -> messages st' = messages st.
Proof. unfold plan_path. record_calls. intros H. calls_to_logs. Qed.

Lemma after_ensure_log E st st' :
  after_ensure E st = Ok st' -> messages st' = messages st.
Proof.
  unfold after_ensure. destruct (String.eqb _ _);
    [apply compose_reply_log | apply plan_path_log].
Qed.

Lemma invoke_log E st st' :
  invoke E st = Ok st' -> messages st' = messages st.
Proof.
  unfold invoke.
  repeat match goal with
    | |- context [if ?c then _ else _] => destruct c
    end; record_calls;
    try (intros H; first [apply after_ensure_log in H | apply plan_path_log in H ]);
    try intros H; calls_to_logs.
Qed.
End Transcript.

(* ===================================================================== *)
(** ** Turns and conversations *)

Section TurnTheorems.
Import Nodes Wf.

(** A turn on a well-formed state, with any message but a blank answer to
    the mood question. *)
Lemma chat_safe (E : Env) (st : State) (sid msg : string) :
  state_ok st -> answerable st msg ->
  exists r st',
    chat E st sid msg = Ok (r, st')
    /\ Py.truthy_str r = true
    /\ state_ok st'
    /\ reply st' = Some r
    /\ messages st'
       = messages st ++ [{| role := "user"; content := msg |};
                         {| role := "assistant"; content := r |}].
Proof.
  intros Hok Hans. unfold chat.
  set (st1 := reset_reply (add_user_message msg (set_session_id sid st))).
  assert (Hok1 : state_ok st1) by exact Hok.
  assert (Hlast : last_user_text st1 = msg) by apply last_user_text_turn.
  destruct (invoke_ok E st1 Hok1) as (s & Hs & Hoks & Hr).
  { subst st1. cbn. by destruct (messages st). }
  { rewrite Hlast. exact Hans. }
  rewrite Hs. cbn [rbind]. unfold reply_set in Hr.
  destruct (reply s) as [r|] eqn:Hrep; [|discriminate]. rewrite Hr.
  exists r. eexists. split; [reflexivity|]. split; [done|].
  split; [by apply state_ok_set_reply, state_ok_set_messages|].
  split; [reflexivity|].
  apply invoke_log in Hs. cbn. rewrite Hs. subst st1. cbn.
  by rewrite <- app_assoc.
Qed.

(** X1: from a state the dialogue keeps itself in (slots of the right
    types and ranges, a known awaiting marker, wizard answers in step with
    the index, a score in 0..7, a plan that can be rendered), a [/chat] turn
    with any message, a blank answer to the mood question apart, raises
    nothing, replies with a non-empty text, leaves such a state again, and
    adds to the transcript the user message and the reply, in this order,
    and nothing else. *)
Theorem turn_is_safe (E : Env) (st : State) (sid msg : string) :
  state_ok st -> answerable st msg ->
  exists r st',
    chat E st sid msg = Ok (r, st')
    /\ Py.truthy_str r = true
    /\ state_ok st'
    /\ reply st' = Some r
    /\ messages st'
       = messages st ++ [{| role := "user"; content := msg |};
                         {| role := "assistant"; content := r |}].
Proof. apply chat_safe. Qed.

(** A first message to a new session. *)
Lemma turn_is_safe_witness :
  exists r st',
    chat Sample.offline new_session "demo" "hello" = Ok (r, st')
    /\ Py.truthy_str r = true
    /\ state_ok st'
    /\ reply st' = Some r
    /\ messages st'
       = messages new_session ++ [{| role := "user"; content := "hello" |};
                                  {| role := "assistant"; content := r |}].
Proof.
  apply (turn_is_safe Sample.offline new_session "demo" "hello").
  - apply state_ok_new_session.
  - intros H. discriminate H.
Defined.

(** X2: a whole conversation of non-blank messages, each turn on the state
    the turn before left, raises nothing: there is one non-empty reply per
    message, the final state is well formed, and the transcript has grown by
    two entries per message. *)
Theorem conversation_is_safe (E : Env) (st : State) (sid : string)
    (msgs : list string) :
  state_ok st ->
  Forall (fun m => Py.split (Py.strip m) <> []) msgs ->
  exists rs st',
    Main.chat_seq E st sid msgs = Ok (rs, st')
    /\ length rs = length msgs
    /\ Forall (fun r => Py.truthy_str r = true) rs
    /\ state_ok st'
    /\ length (messages st') = (length (messages st) + 2 * length msgs)%nat.
Proof.
  intros Hok Hmsgs. revert st Hok.
  induction Hmsgs as [|m msgs Hm _ IH]; intros st Hok; cbn [Main.chat_seq].
  - exists [], st. split; [reflexivity|]. split; [reflexivity|].
    split; [constructor|]. split; [done | cbn; lia].
  - destruct (chat_safe E st sid m Hok) as (r & st1 & -> & Hr & Hok1 & _ & Hlog);
      [by intros _|].
    cbn [rbind]. destruct (IH st1 Hok1) as (rs & st2 & -> & Hlen & Hrs & Hok2 & Hlog2).
    cbn [rbind]. exists (r :: rs), st2.
    split; [reflexivity|]. split; [cbn; lia|]. split; [by constructor|].
    split; [done|]. rewrite Hlog2, Hlog, length_app. cbn. lia.
Qed.
(** Three messages to a new session. *)
Lemma conversation_is_safe_witness :
  exists rs st',
    Main.chat_seq Sample.offline new_session "demo" ["hello"; "yes"; "no"]
      = Ok (rs, st')
    /\ length rs = length ["hello"; "yes"; "no"]
    /\ Forall (fun r => Py.truthy_str r = true) rs
    /\ state_ok st'
    /\ length (messages st')
       = (length (messages new_session) + 2 * length ["hello"; "yes"; "no"])%nat.
Proof.
  apply (conversation_is_safe Sample.offline new_session "demo" ["hello"; "yes"; "no"]).
  - apply state_ok_new_session.
  - repeat constructor; discriminate.
Defined.

End TurnTheorems.

(* ===================================================================== *)
(** ** The wizard, turn by turn *)

Section Wizard.
Import Nodes Wf Turn Answers.

Lemma turn_in_wizard (E : Env) (st : State) (sid msg : string) :
  awaiting st = Some "prisma" ->
  let st1 := classify_intent (reset_reply (add_user_message msg (set_session_id sid st))) in
  last_user_text st1 = msg
  /\ chat E st sid msg
     = (let* new_state := (let* s := continue_prisma st1 in compose_reply s) in
        let reply := match reply new_state with
                     | Some r => if Py.truthy_str r then r else "Okay."
                     | None => "Okay."
                     end in
        Ok (reply, add_assistant_message reply new_state)).
Proof.
  intros Ha st1. split; [apply last_user_text_turn|].
  unfold chat.
  by rewrite (route_prisma E (reset_reply (add_user_message msg (set_session_id sid st))) Ha).
Qed.

(** A parseable answer to one of the first six questions. *)
Lemma wizard_step (E : Env) (st : State) (sid msg : string)
    (i : Z) (b : bool) :
  awaiting st = Some "prisma" ->
  default 0 (prisma_index st) = i ->
  0 <= i <= 5 ->
  _yn msg = Some b ->
  exists q q2 st',
    Frailty.PRISMA_QUESTIONS !! Z.to_nat i = Some q
    /\ Frailty.PRISMA_QUESTIONS !! Z.to_nat (i + 1) = Some q2
    /\ chat E st sid msg
       = Ok ("Q" +:+ Py.str_of_int (i + 2) +:+ ": " +:+ Frailty.question q2, st')
    /\ prisma_index st' = Some (i + 1)
    /\ prisma_answers st'
       = Some (<[Frailty.key q := PBool b]> (default ∅ (prisma_answers st)))
    /\ awaiting st' = Some "prisma"
    /\ frailty_score st' = frailty_score st
    /\ slots st' = slots st.
Proof.
  intros Ha Hi Hrange Hyn.
  destruct (question_index i) as (q & Hq & Hidx); [lia|].
  destruct (question_index (i + 1)) as (q2 & Hq2 & Hidx2); [lia|].
  exists q, q2. eexists. split; [exact Hq|]. split; [exact Hq2|].
  destruct (turn_in_wizard E st sid msg Ha) as [Hlast ->].
  unfold continue_prisma. rewrite Hlast, Hyn.
  change (default 0 (prisma_index (classify_intent _))) with (default 0 (prisma_index st)).
  rewrite Hi. change PRISMA_LEN with 7.
  assert (Hlt : (i <? 7) = true) by lia.
  assert (Hlt' : (i + 1 <? 7) = true) by lia.
  rewrite Hlt, Hidx. cbn [rbind]; cbv beta iota.
  rewrite Hlt', Hidx2. cbn [rbind].
  unfold compose_reply, reply_set.
  cbn -[Py.str_of_int String.append default Z.add].
  replace (i + 1 + 1) with (i + 2) by lia.
  repeat (split; [reflexivity|]). reflexivity.
Qed.

(** A parseable answer to the seventh question. *)
Lemma wizard_last_step (E : Env) (st : State) (sid msg : string) (b : bool) :
  awaiting st = Some "prisma" ->
  default 0 (prisma_index st) = 6 ->
  _yn msg = Some b ->
  let answers := <["use_aid" := PBool b]> (default ∅ (prisma_answers st)) in
  exists o st',
    Frailty.prisma7_score answers = Ok o
    /\ chat E st sid msg
       = Ok ("All done - your daily check-in score is " +:+ str_of_opt_int o
             +:+ ". Would you like me to draft a quick plan for today, or would you prefer to log mood, energy, or steps first?",
             st')
    /\ frailty_score st' = o
    /\ prisma_index st' = Some 7
    /\ prisma_answers st' = Some answers
    /\ awaiting st' = Some "post_checkin".
Proof.
  intros Ha Hi Hyn answers.
  destruct (prisma7_score_ok answers) as (o & Ho & _).
  exists o. eexists. split; [exact Ho|].
  destruct (turn_in_wizard E st sid msg Ha) as [Hlast ->].
  unfold continue_prisma. rewrite Hlast, Hyn.
  change (default 0 (prisma_index (classify_intent _))) with (default 0 (prisma_index st)).
  rewrite Hi.
  change (Py.list_index Frailty.PRISMA_QUESTIONS 6)
    with (Ok (A := Frailty.Question)
            {| Frailty.key := "use_aid";
               Frailty.question := "Do you regularly use a cane, walker, or wheelchair? (yes/no)";
               Frailty.reverse := false |}).
  change (6 <? PRISMA_LEN) with true. cbv beta iota.
  cbn [rbind Frailty.key]; cbv beta iota.
  change (6 + 1 <? PRISMA_LEN) with false. cbv beta iota.
  change (default ∅ (prisma_answers (classify_intent _)))
    with (default ∅ (prisma_answers st)).
  fold answers. rewrite Ho. cbn [rbind].
  unfold compose_reply, reply_set.
  cbn -[Py.str_of_int String.append default Z.add str_of_opt_int].
  repeat (split; [reflexivity|]). reflexivity.
Qed.
(** X3: in the wizard, a message [_yn] reads as yes or no, given to one of
    the first six questions, is stored as a boolean under the key of that
    question; the index moves on by one, the reply is the next question
    with its number, and the state stays in the wizard; the score and the
    slots are not touched. *)
Theorem wizard_records_answer (E : Env) (st : State) (sid msg : string)
    (i : Z) (b : bool) :
  awaiting st = Some "prisma" ->
  default 0 (prisma_index st) = i ->
  0 <= i <= 5 ->
  _yn msg = Some b ->
  exists q q2 st',
    Frailty.PRISMA_QUESTIONS !! Z.to_nat i = Some q
    /\ Frailty.PRISMA_QUESTIONS !! Z.to_nat (i + 1) = Some q2
    /\ chat E st sid msg
       = Ok ("Q" +:+ Py.str_of_int (i + 2) +:+ ": " +:+ Frailty.question q2, st')
    /\ prisma_index st' = Some (i + 1)
    /\ prisma_answers st'
       = Some (<[Frailty.key q := PBool b]> (default ∅ (prisma_answers st)))
    /\ awaiting st' = Some "prisma"
    /\ frailty_score st' = frailty_score st
    /\ slots st' = slots st.
Proof. apply wizard_step. Qed.

(** Asked the third question, the user says yes. *)
Lemma wizard_records_answer_witness :
  exists q q2 st',
    Frailty.PRISMA_QUESTIONS !! Z.to_nat 2 = Some q
    /\ Frailty.PRISMA_QUESTIONS !! Z.to_nat (2 + 1) = Some q2
    /\ chat Sample.offline Sample.at_question_3 "demo" "yes"
       = Ok ("Q" +:+ Py.str_of_int (2 + 2) +:+ ": " +:+ Frailty.question q2, st')
    /\ prisma_index st' = Some (2 + 1)
    /\ prisma_answers st'
       = Some (<[Frailty.key q := PBool true]>
                 (default ∅ (prisma_answers Sample.at_question_3)))
    /\ awaiting st' = Some "prisma"
    /\ frailty_score st' = frailty_score Sample.at_question_3
    /\ slots st' = slots Sample.at_question_3.
Proof.
  apply (wizard_records_answer Sample.offline Sample.at_question_3 "demo" "yes" 2 true);
    [reflexivity | reflexivity | lia | reflexivity].
Defined.

(** X4: a parseable answer to the seventh question ends the wizard: the
    answer is stored under use_aid, the score is what [prisma7_score] gives
    on the answers (a number, or none when an earlier answer is missing),
    the reply reports it, the index is 7 and the state waits for what comes
    after the check-in. *)
Theorem wizard_completes (E : Env) (st : State) (sid msg : string) (b : bool) :
  awaiting st = Some "prisma" ->
  default 0 (prisma_index st) = 6 ->
  _yn msg = Some b ->
  let answers := <["use_aid" := PBool b]> (default ∅ (prisma_answers st)) in
  exists o st',
    Frailty.prisma7_score answers = Ok o
    /\ chat E st sid msg
       = Ok ("All done - your daily check-in score is " +:+ str_of_opt_int o
             +:+ ". Would you like me to draft a quick plan for today, or would you prefer to log mood, energy, or steps first?",
             st')
    /\ frailty_score st' = o
    /\ prisma_index st' = Some 7
    /\ prisma_answers st' = Some answers
    /\ awaiting st' = Some "post_checkin".
Proof. apply wizard_last_step. Qed.

(** Six answers given, the user says no to the seventh question. *)
Lemma wizard_completes_witness :
  let st := set_prisma_index 6
              (set_prisma_answers Sample.no_risk_answers
                 (set_awaiting (Some "prisma") new_session)) in
  let answers := <["use_aid" := PBool false]> (default ∅ (prisma_answers st)) in
  exists o st',
    Frailty.prisma7_score answers = Ok o
    /\ chat Sample.offline st "demo" "no"
       = Ok ("All done - your daily check-in score is " +:+ str_of_opt_int o
             +:+ ". Would you like me to draft a quick plan for today, or would you prefer to log mood, energy, or steps first?",
             st')
    /\ frailty_score st' = o
    /\ prisma_index st' = Some 7
    /\ prisma_answers st' = Some answers
    /\ awaiting st' = Some "post_checkin".
Proof.
  intros st.
  apply (wizard_completes Sample.offline st "demo" "no" false);
    [reflexivity | reflexivity | reflexivity].
Defined.

End Wizard.

Section WizardRun.
Import Nodes Wf Turn Answers.

(** One answered question of a run: the turn, then the facts the next turn
    needs. *)
Ltac answer_turn E sid st m i b Ha Hi Hyn st' Ha' Hi' Hans' Hc :=
  let q := fresh "q" in
  let q2 := fresh "q2" in
  let Hq := fresh "Hq" in
  destruct (wizard_step E st sid m i b Ha Hi ltac:(lia) Hyn)
    as (q & q2 & st' & Hq & _ & Hc & Hi' & Hans' & Ha' & _);
  cbn in Hq; injection Hq as <-; cbn [Frailty.key] in Hans';
  apply (f_equal (default 0)) in Hi'; cbn [default] in Hi'.

(** X5: seven messages [_yn] can read, sent one after the other to a state
    at the first question, run the wizard to its end: the score is the
    number of yes answers among the six plain questions plus one for a no to
    someone_close, the last reply reports it, and the state waits for what
    comes after the check-in. *)
Theorem wizard_run_scores (E : Env) (st : State) (sid : string)
    (m1 m2 m3 m4 m5 m6 m7 : string) (b1 b2 b3 b4 b5 b6 b7 : bool) :
  awaiting st = Some "prisma" ->
  default 0 (prisma_index st) = 0 ->
  _yn m1 = Some b1 -> _yn m2 = Some b2 -> _yn m3 = Some b3 ->
  _yn m4 = Some b4 -> _yn m5 = Some b5 -> _yn m6 = Some b6 ->
  _yn m7 = Some b7 ->
  let s := points b1 b2 b3 b4 b5 b6 b7 in
  exists rs st',
    Main.chat_seq E st sid [m1; m2; m3; m4; m5; m6; m7] = Ok (rs, st')
    /\ frailty_score st' = Some s
    /\ awaiting st' = Some "post_checkin"
    /\ prisma_index st' = Some 7
    /\ last rs
       = Some ("All done - your daily check-in score is " +:+ Py.str_of_int s
               +:+ ". Would you like me to draft a quick plan for today, or would you prefer to log mood, energy, or steps first?").
Proof.
  intros Ha Hi H1 H2 H3 H4 H5 H6 H7 s.
  answer_turn E sid st m1 0 b1 Ha Hi H1 st1 Ha1 Hi1 Hans1 Hc1.
  answer_turn E sid st1 m2 1 b2 Ha1 Hi1 H2 st2 Ha2 Hi2 Hans2 Hc2.
  answer_turn E sid st2 m3 2 b3 Ha2 Hi2 H3 st3 Ha3 Hi3 Hans3 Hc3.
  answer_turn E sid st3 m4 3 b4 Ha3 Hi3 H4 st4 Ha4 Hi4 Hans4 Hc4.
  answer_turn E sid st4 m5 4 b5 Ha4 Hi4 H5 st5 Ha5 Hi5 Hans5 Hc5.
  answer_turn E sid st5 m6 5 b6 Ha5 Hi5 H6 st6 Ha6 Hi6 Hans6 Hc6.
  destruct (wizard_last_step E st6 sid m7 b7 Ha6 Hi6 H7)
    as (o & st7 & Ho & Hc7 & Hsc & Hidx & _ & Ha7).
  assert (Hscore : o = Some s).
  { rewrite Hans6, Hans5, Hans4, Hans3, Hans2, Hans1 in Ho.
    cbn [default from_option id] in Ho.
    rewrite (score_formula _ b1 b2 b3 b4 b5 b6 b7) in Ho;
      rewrite ?lookup_insert_ne by discriminate; try apply lookup_insert_eq.
    by injection Ho as <-. }
  subst o. eexists. exists st7.
  cbn [Main.chat_seq]. rewrite Hc1. cbn [rbind]. rewrite Hc2. cbn [rbind].
  rewrite Hc3. cbn [rbind]. rewrite Hc4. cbn [rbind]. rewrite Hc5. cbn [rbind].
  rewrite Hc6. cbn [rbind]. rewrite Hc7. cbn [rbind].
  split; [reflexivity|]. repeat (split; [assumption|]).
  cbn [last]. rewrite Hscore. reflexivity.
Qed.
(** Yes to the first and the sixth question, no to the others. *)
Lemma wizard_run_scores_witness :
  let st := set_awaiting (Some "prisma") new_session in
  let s := points true false false false false true false in
  exists rs st',
    Main.chat_seq Sample.offline st "demo" ["yes"; "no"; "no"; "no"; "no"; "yes"; "no"]
      = Ok (rs, st')
    /\ frailty_score st' = Some s
    /\ awaiting st' = Some "post_checkin"
    /\ prisma_index st' = Some 7
    /\ last rs
       = Some ("All done - your daily check-in score is " +:+ Py.str_of_int s
               +:+ ". Would you like me to draft a quick plan for today, or would you prefer to log mood, energy, or steps first?").
Proof.
  intros st.
  apply (wizard_run_scores Sample.offline st "demo" "yes" "no" "no" "no" "no" "yes" "no"
           true false false false false true false); reflexivity.
Defined.

End WizardRun.

(* ===================================================================== *)
(** ** The handlers around the check-in and the plan *)

Section Handlers.
Import Nodes Wf Turn.

(** The state a turn hands to the graph, and the text the nodes read. *)
Lemma turn_state (st : State) (sid msg : string) :
  let st0 := reset_reply (add_user_message msg (set_session_id sid st)) in
  last_user_text (classify_intent st0) = msg
  /\ last (messages (classify_intent st0)) = Some {| role := "user"; content := msg |}.
Proof.
  intros st0. split; [apply last_user_text_turn|].
  subst st0. cbn. by rewrite last_snoc.
Qed.

Lemma route_confirm (E : Env) (st : State) :
  awaiting st = Some "confirm_checkin" ->
  invoke E st = (let* s := handle_checkin_confirmation (classify_intent st) in
                 compose_reply s).
Proof.
  intros Ha.
  assert (Hl : classify_label st = "handle_checkin_confirmation").
  { unfold classify_label, awaiting_text. rewrite Ha. reflexivity. }
  unfold invoke, policy_router, classify_intent. rewrite Hl. reflexivity.
Qed.

Lemma route_after_plan (E : Env) (st : State) :
  awaiting st = Some "after_plan" ->
  invoke E st = (let* s := handle_after_plan E (classify_intent st) in
                 compose_reply s).
Proof.
  intros Ha.
  assert (Hl : classify_label st = "handle_after_plan").
  { unfold classify_label, awaiting_text. rewrite Ha. reflexivity. }
  unfold invoke, policy_router, classify_intent. rewrite Hl. reflexivity.
Qed.

Lemma route_post_checkin (E : Env) (st : State) :
  awaiting st = Some "post_checkin" ->
  invoke E st = (let* s := handle_post_checkin E (classify_intent st) in
                 compose_reply s).
Proof.
  intros Ha.
  assert (Hl : classify_label st = "handle_post_checkin").
  { unfold classify_label, awaiting_text. rewrite Ha. reflexivity. }
  unfold invoke, policy_router, classify_intent. rewrite Hl. reflexivity.
Qed.

(** X6: asked whether to start the check-in, a yes starts the wizard at the
    first question with no answers; a no ends the offer and leaves the
    wizard as it was; anything else is asked again; in no case are the
    score or the slots touched. *)
Theorem confirmation_turn (E : Env) (st : State) (sid msg : string) :
  awaiting st = Some "confirm_checkin" ->
  exists r st',
    chat E st sid msg = Ok (r, st')
    /\ frailty_score st' = frailty_score st
    /\ slots st' = slots st
    /\ match _yn msg with
       | Some true =>
           r = Q1_REPLY /\ awaiting st' = Some "prisma"
           /\ prisma_index st' = Some 0 /\ prisma_answers st' = Some ∅
       | Some false =>
           awaiting st' = None
           /\ prisma_index st' = prisma_index st
           /\ prisma_answers st' = prisma_answers st
       | None =>
           r = "Would you like to start your daily check-in now? (yes/no)"
           /\ awaiting st' = Some "confirm_checkin"
           /\ prisma_index st' = prisma_index st
           /\ prisma_answers st' = prisma_answers st
       end.
Proof.
  intros Ha. unfold chat.
  rewrite (route_confirm E (reset_reply (add_user_message msg (set_session_id sid st))) Ha).
  unfold handle_checkin_confirmation.
  rewrite (proj1 (turn_state st sid msg)).
  destruct (_yn msg) as [[]|]; cbn [rbind];
    do 2 eexists; (split; [reflexivity|]); repeat split; reflexivity.
Qed.
(** After the greeting, the user says yes. *)
Lemma confirmation_turn_witness :
  let st := set_awaiting (Some "confirm_checkin") new_session in
  exists r st',
    chat Sample.offline st "demo" "yes" = Ok (r, st')
    /\ frailty_score st' = frailty_score st
    /\ slots st' = slots st
    /\ match _yn "yes" with
       | Some true =>
           r = Q1_REPLY /\ awaiting st' = Some "prisma"
           /\ prisma_index st' = Some 0 /\ prisma_answers st' = Some ∅
       | Some false =>
           awaiting st' = None
           /\ prisma_index st' = prisma_index st
           /\ prisma_answers st' = prisma_answers st
       | None =>
           r = "Would you like to start your daily check-in now? (yes/no)"
           /\ awaiting st' = Some "confirm_checkin"
           /\ prisma_index st' = prisma_index st
           /\ prisma_answers st' = prisma_answers st
       end.
Proof.
  intros st.
  apply (confirmation_turn Sample.offline st "demo" "yes"). reflexivity.
Defined.

End Handlers.

Section Tweaks.
Import Nodes Wf Turn.

(** A turn that ends in [plan_routine]: the plan is the planner's, and the
    reply renders it. *)
Lemma replan_turn (E : Env) (s : State) (seed : Z) :
  plan_seed s = Some seed -> reply s = None ->
  exists p r,
    Routine.generate_daily_plan E (default ∅ (slots s)) (frailty_score s)
      (Some (llm_suggester E)) (Some seed) = Ok p
    /\ Routine.plan_ok p = true
    /\ (let* s1 := plan_routine E s in compose_reply s1)
       = Ok (set_reply (Some r) (set_awaiting (Some "after_plan") (set_plan p s)))
    /\ Py.truthy_str r = true.
Proof.
  intros Hseed Hrep. unfold plan_routine. rewrite Hseed.
  destruct (generate_daily_plan_ok E (default ∅ (slots s)) (frailty_score s)
              (Some (llm_suggester E)) (Some seed)) as (p & Hp & Hvalid).
  rewrite Hp. cbn [rbind].
  destruct (compose_reply_fresh (set_awaiting (Some "after_plan") (set_plan p s)))
    as (r & Hr & Ht).
  { by apply plan_ok_renderable. }
  { unfold reply_set. cbn. by rewrite Hrep. }
  exists p, r. by rewrite Hr.
Qed.

(** X7: after a plan, the message swap plans again with the next seed: the
    stored seed plus one (1 when none is stored); the new plan is what the
    planner gives for the unchanged slots and score with that seed, and is
    stored with it. *)
Theorem swap_bumps_seed (E : Env) (st : State) (sid : string) :
  awaiting st = Some "after_plan" ->
  let seed := default 0 (plan_seed st) + 1 in
  exists r st' p,
    chat E st sid "swap" = Ok (r, st')
    /\ plan_seed st' = Some seed
    /\ Routine.generate_daily_plan E (default ∅ (slots st)) (frailty_score st)
         (Some (llm_suggester E)) (Some seed) = Ok p
    /\ plan st' = Some p
    /\ awaiting st' = Some "after_plan"
    /\ slots st' = slots st
    /\ frailty_score st' = frailty_score st.
Proof.
  intros Ha seed. unfold chat.
  rewrite (route_after_plan E (reset_reply (add_user_message "swap" (set_session_id sid st))) Ha).
  unfold handle_after_plan.
  rewrite (proj2 (turn_state st sid "swap")). cbn [rbind content].
  change (Re.search CHECKIN_RX (Py.lower (Py.strip "swap"))
          || Re.search RESTART_RX (Py.lower (Py.strip "swap"))) with false.
  change (_extract_mood_from_text "swap") with (@None string).
  cbv beta iota.
  change (Py.mem (Py.lower (Py.strip "swap")) ["ok"; "okay"; "thanks"; "thank you"])
    with false.
  change (Re.search MOTIVATE_RX (Py.lower (Py.strip "swap"))
          || Py.mem (Py.lower (Py.strip "swap")) MOTIVATE_WORDS) with false.
  change (Py.contains (Py.lower (Py.strip "swap")) "easier"
          || Py.contains (Py.lower (Py.strip "swap")) "lighter") with false.
  change (Py.contains (Py.lower (Py.strip "swap")) "harder"
          || Py.contains (Py.lower (Py.strip "swap")) "tougher") with false.
  change (Py.contains (Py.lower (Py.strip "swap")) "swap"
          || Py.contains (Py.lower (Py.strip "swap")) "different"
          || Py.contains (Py.lower (Py.strip "swap")) "variety") with true.
  cbv beta iota.
  match goal with |- context [plan_routine E ?s] =>
    destruct (replan_turn E s seed eq_refl eq_refl) as (p & r & Hp & _ & Hrun & Hr)
  end.
  rewrite Hrun. cbn [rbind reply set_reply]. rewrite Hr.
  exists r. eexists. exists p. split; [reflexivity|].
  repeat split; try reflexivity. exact Hp.
Qed.
(** A plan was made with seed 7; the user says swap. *)
Lemma swap_bumps_seed_witness :
  let st := set_plan_seed 7 (set_awaiting (Some "after_plan") new_session) in
  let seed := default 0 (plan_seed st) + 1 in
  exists r st' p,
    chat Sample.offline st "demo" "swap" = Ok (r, st')
    /\ plan_seed st' = Some seed
    /\ Routine.generate_daily_plan Sample.offline (default ∅ (slots st))
         (frailty_score st) (Some (llm_suggester Sample.offline)) (Some seed) = Ok p
    /\ plan st' = Some p
    /\ awaiting st' = Some "after_plan"
    /\ slots st' = slots st
    /\ frailty_score st' = frailty_score st.
Proof.
  intros st. apply (swap_bumps_seed Sample.offline st "demo"). reflexivity.
Defined.

End Tweaks.

Section Tweaks2.
Import Nodes Wf Turn.

Lemma replan_any_seed (E : Env) (s : State) :
  reply s = None ->
  exists p r s',
    Routine.generate_daily_plan E (default ∅ (slots s)) (frailty_score s)
      (Some (llm_suggester E)) (Some (seed_of E s)) = Ok p
    /\ (let* s1 := plan_routine E s in compose_reply s1) = Ok s'
    /\ reply s' = Some r /\ Py.truthy_str r = true
    /\ plan s' = Some p /\ plan_seed s' = Some (seed_of E s)
    /\ awaiting s' = Some "after_plan" /\ slots s' = slots s
    /\ frailty_score s' = frailty_score s.
Proof.
  intros Hrep. unfold seed_of. destruct (plan_seed s) as [seed|] eqn:Hseed.
  - destruct (replan_turn E s seed Hseed Hrep) as (p & r & Hp & _ & Hrun & Hr).
    exists p, r. eexists. cbn [default]. split; [exact Hp|].
    split; [exact Hrun|]. cbn. repeat split; try done.
  - destruct (replan_turn E (set_plan_seed (stable_seed E (session_id s)) s)
                (stable_seed E (session_id s)) eq_refl Hrep)
      as (p & r & Hp & _ & Hrun & Hr).
    exists p, r. eexists. cbn [default]. split; [exact Hp|].
    split.
    { unfold plan_routine. rewrite Hseed.
      unfold plan_routine in Hrun. cbn [plan_seed set_plan_seed] in Hrun.
      exact Hrun. }
    cbn. repeat split; try done.
Qed.

(** A turn whose handler changes the energy slot and plans again. *)
Lemma tweak_then_plan (E : Env) (st : State) (sid msg : string) (f : Z -> Z) (e : Z) :
  awaiting st = Some "after_plan" ->
  slot_int_or (slots_or_new st) "energy" 5 = Ok e ->
  handle_after_plan E (classify_intent (reset_reply (add_user_message msg (set_session_id sid st))))
  = (let* s1 := tweak_energy f (classify_intent (reset_reply (add_user_message msg (set_session_id sid st)))) in
     plan_routine E s1) ->
  let slots' := <["energy" := PInt (f e)]> (slots_or_new st) in
  exists r st' p,
    chat E st sid msg = Ok (r, st')
    /\ slots st' = Some slots'
    /\ Routine.generate_daily_plan E slots' (frailty_score st)
         (Some (llm_suggester E)) (Some (turn_seed E st sid)) = Ok p
    /\ plan st' = Some p
    /\ plan_seed st' = Some (turn_seed E st sid)
    /\ awaiting st' = Some "after_plan"
    /\ frailty_score st' = frailty_score st.
Proof.
  intros Ha He Hstep slots'. unfold chat.
  rewrite (route_after_plan E (reset_reply (add_user_message msg (set_session_id sid st))) Ha).
  rewrite Hstep.
  unfold tweak_energy.
  change (slots_or_new (classify_intent (reset_reply (add_user_message msg (set_session_id sid st)))))
    with (slots_or_new st).
  rewrite He. cbn [rbind].
  match goal with |- context [plan_routine E ?s] =>
    destruct (replan_any_seed E s eq_refl)
      as (p & r & s' & Hp & Hrun & Hr & Ht & Hpl & Hsd & Haw & Hsl & Hfs)
  end.
  rewrite Hrun. cbn [rbind]. rewrite Hr, Ht.
  exists r. eexists. exists p. split; [reflexivity|].
  cbn. rewrite Hsl, Hpl, Haw, Hfs, Hsd. repeat split; try reflexivity. exact Hp.
Qed.

Ltac after_plan_branch msg :=
  unfold handle_after_plan;
  rewrite (proj2 (turn_state _ _ msg)); cbn [rbind content];
  change (Re.search CHECKIN_RX (Py.lower (Py.strip msg))
          || Re.search RESTART_RX (Py.lower (Py.strip msg))) with false;
  change (_extract_mood_from_text msg) with (@None string);
  cbv beta iota;
  change (Py.mem (Py.lower (Py.strip msg)) ["ok"; "okay"; "thanks"; "thank you"])
    with false;
  change (Re.search MOTIVATE_RX (Py.lower (Py.strip msg))
          || Py.mem (Py.lower (Py.strip msg)) MOTIVATE_WORDS) with false;
  cbv beta iota.

(** [slots.get("energy", 5) or 5]: a stored 0 counts as 5. *)
Lemma slot_int_or_zero (sl : gmap string pyval) :
  sl !! "energy" = Some (PInt 0) -> slot_int_or sl "energy" 5 = Ok 5.
Proof. intros H. unfold slot_int_or. by rewrite H. Qed.

Lemma slot_int_or_pos (sl : gmap string pyval) (e : Z) :
  sl !! "energy" = Some (PInt e) -> e <> 0 -> slot_int_or sl "energy" 5 = Ok e.
Proof.
  intros H Hne. unfold slot_int_or. rewrite H. cbn.
  destruct (Z.eqb_spec e 0); [done|reflexivity].
Qed.
Lemma slot_int_or_energy_or_5 (sl : gmap string pyval) :
  slots_ok sl -> slot_int_or sl "energy" 5 = Ok (energy_or_5 sl).
Proof.
  intros (_ & He & _). unfold energy_or_5.
  destruct (sl !! "energy") as [v|] eqn:Hv.
  - destruct (He v eq_refl) as (e & -> & _).
    destruct (Z.eqb_spec e 0) as [->|Hne].
    + by apply slot_int_or_zero.
    + by apply slot_int_or_pos.
  - unfold slot_int_or. by rewrite Hv.
Qed.

(** X8: after a plan, easier lowers the stored energy by 2, not below 0,
    and harder raises it by 2, not above 10, where a stored 0, like a
    missing value, counts as 5 (so easier at energy 0 gives 3); the plan is
    then made again from the new slots with the seed of the turn, and
    stored; the score is not touched. *)
Theorem energy_tweaks (E : Env) (st : State) (sid : string) :
  awaiting st = Some "after_plan" ->
  slots_ok (slots_or_new st) ->
  let e := energy_or_5 (slots_or_new st) in
  let tweaked msg e' :=
    let slots' := <["energy" := PInt e']> (slots_or_new st) in
    exists r st' p,
      chat E st sid msg = Ok (r, st')
      /\ slots st' = Some slots'
      /\ Routine.generate_daily_plan E slots' (frailty_score st)
           (Some (llm_suggester E)) (Some (turn_seed E st sid)) = Ok p
      /\ plan st' = Some p
      /\ plan_seed st' = Some (turn_seed E st sid)
      /\ awaiting st' = Some "after_plan"
      /\ frailty_score st' = frailty_score st in
  tweaked "easier" (Z.max 0 (e - 2)) /\ tweaked "harder" (Z.min 10 (e + 2)).
Proof.
  intros Ha Hsl e tweaked.
  pose proof (slot_int_or_energy_or_5 _ Hsl) as He. fold e in He.
  split.
  - apply (tweak_then_plan E st sid "easier" (fun e => Z.max 0 (e - 2)) e Ha He).
    after_plan_branch "easier". reflexivity.
  - apply (tweak_then_plan E st sid "harder" (fun e => Z.min 10 (e + 2)) e Ha He).
    after_plan_branch "harder". reflexivity.
Qed.

(** A plan was made at energy 0. *)
Lemma energy_tweaks_witness :
  let st := set_slots (<["energy" := PInt 0]> ∅)
              (set_awaiting (Some "after_plan") new_session) in
  let tweaked msg e' :=
    let slots' := <["energy" := PInt e']> (slots_or_new st) in
    exists r st' p,
      chat Sample.offline st "demo" msg = Ok (r, st')
      /\ slots st' = Some slots'
      /\ Routine.generate_daily_plan Sample.offline slots' (frailty_score st)
           (Some (llm_suggester Sample.offline))
           (Some (turn_seed Sample.offline st "demo")) = Ok p
      /\ plan st' = Some p
      /\ plan_seed st' = Some (turn_seed Sample.offline st "demo")
      /\ awaiting st' = Some "after_plan"
      /\ frailty_score st' = frailty_score st in
  tweaked "easier" 3 /\ tweaked "harder" 7.
Proof.
  intros st.
  apply (energy_tweaks Sample.offline st "demo"); [reflexivity|].
  split; [|split]; intros v Hv; vm_compute in Hv; try discriminate Hv.
  injection Hv as <-. exists 0. split; [reflexivity | lia].
Defined.

End Tweaks2.

(* ===================================================================== *)
(** ** The other endpoints of app/main.py *)

Section Endpoints.
Import Nodes Wf Turn.

(** The endpoints differ from [/chat] in the text that stands in for a
    missing reply only. *)
Lemma graph_turn_chat (E : Env) (st : State) (sid msg : string) :
  Main.graph_turn E st sid msg "Okay." = chat E st sid msg.
Proof. reflexivity. Qed.

Lemma graph_turn_reply (E : Env) (st s' : State) (sid msg fallback r : string) :
  invoke E (reset_reply (add_user_message msg (set_session_id sid st))) = Ok s' ->
  reply s' = Some r -> Py.truthy_str r = true ->
  Main.graph_turn E st sid msg fallback = Ok (r, add_assistant_message r s').
Proof.
  intros Hi Hr Ht. unfold Main.graph_turn. rewrite Hi. cbn [rbind].
  unfold Main.reply_or. by rewrite Hr, Ht.
Qed.

Lemma route_idle_checkin (E : Env) (st : State) :
  awaiting st = None -> last_user_text st = "daily check-in" ->
  invoke E st = (let* s := start_prisma (classify_intent st) in compose_reply s).
Proof.
  intros Ha Hl.
  assert (Hlab : classify_label st = "start_prisma").
  { unfold classify_label, awaiting_text. rewrite Ha, Hl. reflexivity. }
  unfold invoke, policy_router, classify_intent. rewrite Hlab. reflexivity.
Qed.

(** X9: the start endpoint of the check-in, on a session that is idle, past
    a check-in or past a plan, starts the wizard at the first question with
    no answers; the score of an earlier check-in, the slots and the plan
    stay as they are. *)
Theorem prisma_start_restarts (E : Env) (st : State) (sid : string) :
  awaiting st = None \/ awaiting st = Some "post_checkin"
    \/ awaiting st = Some "after_plan" ->
  exists st',
    Main.prisma_start E st sid = Ok (Q1_REPLY, st')
    /\ awaiting st' = Some "prisma"
    /\ prisma_index st' = Some 0
    /\ prisma_answers st' = Some ∅
    /\ frailty_score st' = frailty_score st
    /\ slots st' = slots st
    /\ plan st' = plan st.
Proof.
  intros Ha. unfold Main.prisma_start.
  set (st0 := reset_reply (add_user_message "daily check-in" (set_session_id sid st))).
  destruct (turn_state st sid "daily check-in") as [Hlast Hmsg].
  fold st0 in Hlast, Hmsg.
  assert (Hinv : exists s', invoke E st0 = Ok s' /\ reply s' = Some Q1_REPLY
             /\ awaiting s' = Some "prisma" /\ prisma_index s' = Some 0
             /\ prisma_answers s' = Some ∅ /\ frailty_score s' = frailty_score st
             /\ slots s' = slots st /\ plan s' = plan st).
  { destruct Ha as [Ha|[Ha|Ha]].
    - rewrite (route_idle_checkin E st0 Ha (last_user_text_turn st sid "daily check-in")).
      eexists. split; [reflexivity|]. repeat split; reflexivity.
    - rewrite (route_post_checkin E st0 Ha). unfold handle_post_checkin.
      rewrite Hlast.
      change (Re.search CHECKIN_RX (Py.strip (Py.lower "daily check-in"))) with true.
      cbn [orb]. eexists. split; [reflexivity|]. repeat split; reflexivity.
    - rewrite (route_after_plan E st0 Ha). unfold handle_after_plan.
      rewrite Hmsg. cbn [rbind content].
      change (Re.search CHECKIN_RX (Py.lower (Py.strip "daily check-in"))) with true.
      cbn [orb]. eexists. split; [reflexivity|]. repeat split; reflexivity. }
  destruct Hinv as (s' & Hi & Hr & Haw & Hidx & Hans & Hfs & Hsl & Hpl).
  exists (add_assistant_message Q1_REPLY s'). split.
  { by apply graph_turn_reply. }
  cbn. by rewrite Haw, Hidx, Hans, Hfs, Hsl, Hpl.
Qed.

(** The start endpoint on a new session. *)
Lemma prisma_start_restarts_witness :
  exists st',
    Main.prisma_start Sample.offline new_session "demo" = Ok (Q1_REPLY, st')
    /\ awaiting st' = Some "prisma"
    /\ prisma_index st' = Some 0
    /\ prisma_answers st' = Some ∅
    /\ frailty_score st' = frailty_score new_session
    /\ slots st' = slots new_session
    /\ plan st' = plan new_session.
Proof.
  apply (prisma_start_restarts Sample.offline new_session "demo").
  left. reflexivity.
Defined.

(** X10: the start endpoint does not start the wizard on a session that was
    offered the check-in (it asks for a yes or no again), and does not
    restart a wizard in progress (it asks the current question again): the
    reply is not the first question, and the awaiting marker, the index, the
    answers and the score are unchanged. *)
Theorem prisma_start_no_restart (E : Env) (st : State) (sid : string) :
  awaiting st = Some "confirm_checkin"
    \/ (awaiting st = Some "prisma" /\ 0 <= default 0 (prisma_index st) <= 6) ->
  exists r st',
    Main.prisma_start E st sid = Ok (r, st')
    /\ r <> Q1_REPLY
    /\ awaiting st' = awaiting st
    /\ default 0 (prisma_index st') = default 0 (prisma_index st)
    /\ default ∅ (prisma_answers st') = default ∅ (prisma_answers st)
    /\ frailty_score st' = frailty_score st.
Proof.
  intros Ha. unfold Main.prisma_start.
  set (st0 := reset_reply (add_user_message "daily check-in" (set_session_id sid st))).
  destruct (turn_state st sid "daily check-in") as [Hlast Hmsg].
  fold st0 in Hlast, Hmsg.
  destruct Ha as [Ha|[Ha Hrange]].
  - exists "Would you like to start your daily check-in now? (yes/no)".
    eexists. split.
    { eapply graph_turn_reply.
      - fold st0. rewrite (route_confirm E st0 Ha).
        unfold handle_checkin_confirmation. rewrite Hlast. reflexivity.
      - reflexivity.
      - reflexivity. }
    cbn. rewrite Ha. repeat split; try reflexivity. discriminate.
  - destruct (question_index (default 0 (prisma_index st)) Hrange) as (q & Hq & Hidx).
    exists ("Q" +:+ Py.str_of_int (default 0 (prisma_index st) + 1) +:+ ": " +:+ Frailty.question q).
    eexists. split.
    { eapply graph_turn_reply.
      - fold st0. rewrite (route_prisma E st0 Ha).
        rewrite (continue_prisma_reask (classify_intent st0) (default 0 (prisma_index st)) q
                   eq_refl Hrange); [| by rewrite Hlast | exact Hidx].
        cbn [rbind]. unfold compose_reply, reply_set.
        cbn -[Py.str_of_int String.append default]. reflexivity.
      - reflexivity.
      - reflexivity. }
    cbn -[Py.str_of_int String.append default Q1_REPLY]. rewrite Ha.
    repeat split; try reflexivity. discriminate.
Qed.

(** The start endpoint at the third question. *)
Lemma prisma_start_no_restart_witness :
  exists r st',
    Main.prisma_start Sample.offline Sample.at_question_3 "demo" = Ok (r, st')
    /\ r <> Q1_REPLY
    /\ awaiting st' = awaiting Sample.at_question_3
    /\ default 0 (prisma_index st') = default 0 (prisma_index Sample.at_question_3)
    /\ default ∅ (prisma_answers st') = default ∅ (prisma_answers Sample.at_question_3)
    /\ frailty_score st' = frailty_score Sample.at_question_3.
Proof.
  apply (prisma_start_no_restart Sample.offline Sample.at_question_3 "demo").
  right. split; [reflexivity | cbn; lia].
Defined.

(** X11: the welcome endpoint puts its greeting on the transcript and waits
    for the confirmation; a yes in the next chat turn starts the wizard at
    the first question, and the transcript then ends with the greeting, the
    user message and the first question. *)
Theorem welcome_then_yes (E : Env) (st : State) (sid msg : string) :
  _yn msg = Some true ->
  let '(w, st1) := Main.session_welcome st sid in
  exists st2,
    chat E st1 sid msg = Ok (Q1_REPLY, st2)
    /\ awaiting st2 = Some "prisma"
    /\ prisma_index st2 = Some 0
    /\ prisma_answers st2 = Some ∅
    /\ messages st2
       = messages st ++ [ {| role := "assistant"; content := w |};
                          {| role := "user"; content := msg |};
                          {| role := "assistant"; content := Q1_REPLY |} ].
Proof.
  intros Hyn. unfold Main.session_welcome.
  set (st1 := add_assistant_message Main.WELCOME
                (set_awaiting (Some "confirm_checkin") (set_session_id sid st))).
  unfold chat.
  rewrite (route_confirm E (reset_reply (add_user_message msg (set_session_id sid st1))) eq_refl).
  unfold handle_checkin_confirmation.
  rewrite (proj1 (turn_state st1 sid msg)), Hyn. cbn [rbind].
  eexists. split; [reflexivity|]. cbn -[Main.WELCOME].
  repeat split; try reflexivity.
  by rewrite <- !app_assoc.
Qed.
(** A new session is welcomed and says yes. *)
Lemma welcome_then_yes_witness :
  let '(w, st1) := Main.session_welcome new_session "demo" in
  exists st2,
    chat Sample.offline st1 "demo" "yes" = Ok (Q1_REPLY, st2)
    /\ awaiting st2 = Some "prisma"
    /\ prisma_index st2 = Some 0
    /\ prisma_answers st2 = Some ∅
    /\ messages st2
       = messages new_session
         ++ [ {| role := "assistant"; content := w |};
              {| role := "user"; content := "yes" |};
              {| role := "assistant"; content := Q1_REPLY |} ].
Proof.
  apply (welcome_then_yes Sample.offline new_session "demo" "yes"). reflexivity.
Defined.

End Endpoints.

Section SlotTurn.
Import Nodes Wf Turn.

Lemma maybe_compute_frailty_frame (s : State) :
  exists s', maybe_compute_frailty s = Ok s'
    /\ slots s' = slots s /\ reply s' = reply s /\ plan_seed s' = plan_seed s
    /\ session_id s' = session_id s /\ messages s' = messages s.
Proof.
  unfold maybe_compute_frailty.
  destruct (frailty_score s); [by eexists|].
  destruct (prisma_answers s) as [a|] eqn:Ha; [|by eexists].
  destruct (size _ =? 7)%nat; [|by eexists].
  destruct (prisma7_score_ok a) as (o & -> & _). cbn. by eexists.
Qed.

Lemma plan_path_plans (E : Env) (s : State) :
  reply s = None ->
  exists s' p r,
    plan_path E s = Ok s'
    /\ plan s' = Some p /\ Routine.plan_ok p = true
    /\ reply s' = Some r /\ Py.truthy_str r = true
    /\ awaiting s' = Some "after_plan" /\ slots s' = slots s.
Proof.
  intros Hr. unfold plan_path.
  destruct (maybe_compute_frailty_frame s) as (s1 & -> & Hsl & Hrep & _).
  cbn [rbind].
  assert (Hr1 : reply s1 = None) by congruence.
  destruct (replan_any_seed E s1 Hr1)
    as (p & r & s' & Hp & Hrun & Hrs & Ht & Hpl & _ & Haw & Hsl' & _).
  exists s', p, r. split; [exact Hrun|].
  destruct (generate_daily_plan_ok E (default ∅ (slots s1)) (frailty_score s1)
              (Some (llm_suggester E)) (Some (seed_of E s1))) as (p' & Hp' & Hok).
  rewrite Hp in Hp'. injection Hp' as <-.
  repeat split; try done. congruence.
Qed.

(** X12: an answer to the energy question with a number in it: the number is
    stored, clamped to 0..10; then the first slot still missing is asked for,
    mood before steps, in the words of [ensure_slots]; with nothing missing
    the plan is made. *)
Theorem energy_answer_turn (E : Env) (st : State) (sid msg : string) (v : Z) :
  awaiting st = Some "slot:energy" ->
  required_of st = DEFAULT_REQUIRED_SLOTS ->
  _get_int msg = Some v ->
  let sl := <["energy" := PInt (Z.max 0 (Z.min 10 v))]> (slots_or_new st) in
  exists r st',
    chat E st sid msg = Ok (r, st')
    /\ slots st' = Some sl
    /\ if negb (has_key "mood" sl) then
         r = MOOD_Q /\ awaiting st' = Some "slot:mood" /\ plan st' = plan st
       else if negb (has_key "steps" sl) then
         r = STEPS_Q /\ awaiting st' = Some "slot:steps" /\ plan st' = plan st
       else
         awaiting st' = Some "after_plan"
         /\ exists p, plan st' = Some p /\ Routine.plan_ok p = true.
Proof.
  intros Ha Hreq Hv sl. unfold chat.
  set (st0 := reset_reply (add_user_message msg (set_session_id sid st))).
  rewrite (route_slot E st0 "slot:energy" Ha eq_refl).
  unfold collect_slot_answer.
  destruct (turn_state st sid msg) as [Hlast _]. fold st0 in Hlast.
  rewrite Hlast.
  change (awaiting_text (classify_intent st0)) with (default "" (awaiting st)).
  rewrite Ha.
  change (slots_or_new (classify_intent st0)) with (slots_or_new st).
  change (required_of (classify_intent st0)) with (required_of st).
  rewrite Hreq, Hv.
  change (Py.startswith (default "" (Some "slot:energy")) "slot:") with true.
  change (Py.replace (default "" (Some "slot:energy")) "slot:" "") with "energy".
  cbn [Py.truthy_str negb String.eqb Ascii.eqb Bool.eqb rbind].
  cbv beta iota. fold sl.
  unfold DEFAULT_REQUIRED_SLOTS.
  assert (He : has_key "energy" sl = true).
  { unfold has_key, sl. by rewrite lookup_insert_eq. }
  unfold ask_first_missing at 1. rewrite He.
  destruct (has_key "mood" sl) eqn:Hm; cbn [negb].
  - destruct (has_key "steps" sl) eqn:Hs; cbn [negb].
    + cbn [rbind]. unfold ensure_slots.
      change (required_of (set_awaiting None (set_slots sl (classify_intent st0))))
        with (required_of st).
      rewrite Hreq. unfold DEFAULT_REQUIRED_SLOTS.
      change (slots_or_new (set_awaiting None (set_slots sl (classify_intent st0))))
        with sl.
      unfold ask_first_missing. rewrite Hm, He, Hs. cbn [rbind].
      unfold after_ensure, _after_ensure_router, awaiting_text.
      cbn [awaiting set_awaiting default from_option id Py.truthy_str String.eqb Ascii.eqb Bool.eqb].
      cbv beta iota.
      match goal with |- context [plan_path E ?s] =>
        destruct (plan_path_plans E s eq_refl)
          as (s' & p & r & -> & Hpl & Hok & Hr & Ht & Haw & Hsl)
      end.
      cbn [rbind]. rewrite Hr, Ht. exists r. eexists. split; [reflexivity|].
      cbn. rewrite Hsl, Haw. repeat split; try done. by exists p.
    + cbn [rbind slot_prompt String.eqb Ascii.eqb Bool.eqb]. cbv beta iota.
      unfold ensure_slots.
      match goal with |- context [ask_first_missing _ (required_of ?s) (slots_or_new ?s) _] =>
        change (required_of s) with (required_of st);
        change (slots_or_new s) with sl
      end.
      rewrite Hreq. unfold DEFAULT_REQUIRED_SLOTS.
      unfold ask_first_missing. rewrite Hm, He, Hs.
      cbn [rbind slot_prompt String.eqb Ascii.eqb Bool.eqb]. cbv beta iota.
      unfold after_ensure, _after_ensure_router, awaiting_text.
      exists STEPS_Q. eexists. split; [reflexivity|]. cbn. done.
  - cbn [rbind slot_prompt String.eqb Ascii.eqb Bool.eqb]. cbv beta iota.
    unfold ensure_slots.
    match goal with |- context [ask_first_missing _ (required_of ?s) (slots_or_new ?s) _] =>
      change (required_of s) with (required_of st);
      change (slots_or_new s) with sl
    end.
    rewrite Hreq. unfold DEFAULT_REQUIRED_SLOTS.
    unfold ask_first_missing. rewrite Hm.
    cbn [rbind slot_prompt String.eqb Ascii.eqb Bool.eqb]. cbv beta iota.
    unfold after_ensure, _after_ensure_router, awaiting_text.
    exists MOOD_Q. eexists. split; [reflexivity|]. cbn. done.
Qed.

(** Asked for the energy with the mood known, the user says 12. *)
Lemma energy_answer_turn_witness :
  let st := set_slots (<["mood" := PStr "good"]> ∅)
              (set_awaiting (Some "slot:energy") new_session) in
  let sl := <["energy" := PInt (Z.max 0 (Z.min 10 12))]> (slots_or_new st) in
  exists r st',
    chat Sample.offline st "demo" "12" = Ok (r, st')
    /\ slots st' = Some sl
    /\ if negb (has_key "mood" sl) then
         r = MOOD_Q /\ awaiting st' = Some "slot:mood" /\ plan st' = plan st
       else if negb (has_key "steps" sl) then
         r = STEPS_Q /\ awaiting st' = Some "slot:steps" /\ plan st' = plan st
       else
         awaiting st' = Some "after_plan"
         /\ exists p, plan st' = Some p /\ Routine.plan_ok p = true.
Proof.
  intros st.
  apply (energy_answer_turn Sample.offline st "demo" "12" 12);
    [reflexivity | reflexivity | reflexivity].
Defined.

End SlotTurn.

(* ===================================================================== *)
(** ** More on the planner *)

Section RoutineMore.
Import Routine.

(** [round(n / 2.0)] is within a half of [n / 2], and exact on even [n]. *)
Lemma round_half_near (n : Z) :
  -1 <= 2 * Py.round_half n - n <= 1
  /\ (Z.even n = true -> 2 * Py.round_half n = n).
Proof.
  unfold Py.round_half.
  pose proof (Z.div_mod n 2 ltac:(lia)) as Hdm.
  pose proof (Zmod_even n) as Hm.
  destruct (Z.even n) eqn:He.
  - split; [lia|]. intros _. lia.
  - split; [|discriminate]. destruct (Z.even (n / 2)); lia.
Qed.

Lemma round_half_mono (n n' : Z) :
  n <= n' -> Py.round_half n <= Py.round_half n'.
Proof.
  intros Hle.
  destruct (round_half_near n) as [Hn Hen], (round_half_near n') as [Hn' Hen'].
  destruct (Z.eq_dec n n') as [->|Hne]; [lia|].
  destruct (Z.eq_dec (n + 1) n') as [<-|Hne1]; [|lia].
  destruct (Z.even n) eqn:He.
  - specialize (Hen eq_refl). lia.
  - assert (He' : Z.even (n + 1) = true).
    { rewrite Z.even_add, He. reflexivity. }
    specialize (Hen' He'). lia.
Qed.

Lemma int_mul_06_values :
  Py.int_mul_06 300 = 180 /\ Py.int_mul_06 800 = 480 /\ Py.int_mul_06 1500 = 900.
Proof. repeat split; vm_compute; reflexivity. Qed.

(** The increment by energy and band; the product with the double 0.6
    truncates to the exact three fifths on these three values. *)
Lemma bump_of_values (e : Z) (risk : string) :
  bump_of e risk
  = if String.eqb risk "high"
    then (if e <=? 3 then 180 else if 8 <=? e then 900 else 480)
    else (if e <=? 3 then 300 else if 8 <=? e then 1500 else 800).
Proof.
  unfold bump_of.
  destruct (e <=? 3), (8 <=? e), (String.eqb risk "high"); reflexivity.
Qed.

Lemma bump_of_mono_energy (e e' : Z) (risk : string) :
  e <= e' -> bump_of e risk <= bump_of e' risk.
Proof.
  intros Hle. rewrite !bump_of_values.
  destruct (String.eqb risk "high");
    destruct (Z.leb_spec e 3), (Z.leb_spec e' 3), (Z.leb_spec 8 e), (Z.leb_spec 8 e');
    lia.
Qed.

(** The three bands, by the score. *)
Lemma risk_cases (score : option Z) :
  _risk_from_score score = "low" \/ _risk_from_score score = "moderate"
  \/ _risk_from_score score = "high".
Proof.
  destruct score as [s|]; cbn; [|auto].
  destruct (s <=? 2); [auto|]. destruct (s <=? 4); auto.
Qed.

Lemma risk_mono (s s' : Z) :
  s <= s' ->
  let r := _risk_from_score (Some s) in
  let r' := _risk_from_score (Some s') in
  r = r' \/ (r = "low" /\ r' <> "low") \/ (r = "moderate" /\ r' = "high").
Proof.
  intros Hle. cbn.
  destruct (Z.leb_spec s 2), (Z.leb_spec s' 2), (Z.leb_spec s 4), (Z.leb_spec s' 4);
    try lia; auto;
    right; left; (split; [reflexivity|discriminate]).
Qed.

(** X13: in the rules-based plan more energy never lowers a dose, and a
    higher score never raises one: the repetitions, the seconds of the
    balance hold and the steps to go are monotone in the energy and
    antitone in the score, whatever the steps so far. *)
Theorem fallback_dose_monotone (e e' s s' steps : Z) :
  e <= e' -> s <= s' ->
  let r := _risk_from_score (Some s) in
  let r' := _risk_from_score (Some s') in
  let to_go e r := steps_to_go_of steps (walk_target_of steps (bump_of e r)) in
  (reps_of e r <= reps_of e' r /\ bal_of e r <= bal_of e' r
   /\ to_go e r <= to_go e' r)
  /\ (reps_of e r' <= reps_of e r /\ bal_of e r' <= bal_of e r
      /\ to_go e r' <= to_go e r).
Proof.
  intros He Hs r r' to_go. split.
  - pose proof (round_half_mono (e - 5) (e' - 5) ltac:(lia)) as Hr.
    pose proof (bump_of_mono_energy e e' r He) as Hb.
    subst to_go. unfold reps_of, bal_of, steps_to_go_of, walk_target_of.
    cbv beta. repeat split; lia.
  - assert (Hb : bump_of e r' <= bump_of e r).
    { rewrite !bump_of_values. subst r r'. rewrite !risk_high_iff.
      destruct (Z.leb_spec 5 s), (Z.leb_spec 5 s'); try lia;
        destruct (e <=? 3), (8 <=? e); lia. }
    subst to_go. cbv beta. unfold steps_to_go_of, walk_target_of.
    split; [|split; [|lia]].
    + unfold reps_of.
      destruct (risk_mono s s' Hs) as [H|[[H H']|[H H']]]; fold r r' in H;
        try fold r r' in H'.
      * rewrite H. lia.
      * rewrite H. destruct (risk_cases (Some s')) as [Hc|[Hc|Hc]]; fold r' in Hc;
          rewrite Hc in *; cbn [String.eqb Ascii.eqb]; try done; cbn; lia.
      * rewrite H, H'. cbn. lia.
    + unfold bal_of.
      destruct (risk_mono s s' Hs) as [H|[[H H']|[H H']]]; fold r r' in H;
        try fold r r' in H'.
      * rewrite H. lia.
      * rewrite H. destruct (risk_cases (Some s')) as [Hc|[Hc|Hc]]; fold r' in Hc;
          rewrite Hc in *; try done; cbn; lia.
      * rewrite H, H'. cbn. lia.
Qed.

(** Energy 3 against 8, score 1 against 5, at 1200 steps. *)
Lemma fallback_dose_monotone_witness :
  let r := _risk_from_score (Some 1) in
  let r' := _risk_from_score (Some 5) in
  let to_go e r := steps_to_go_of 1200 (walk_target_of 1200 (bump_of e r)) in
  (reps_of 3 r <= reps_of 8 r /\ bal_of 3 r <= bal_of 8 r
   /\ to_go 3 r <= to_go 8 r)
  /\ (reps_of 3 r' <= reps_of 3 r /\ bal_of 3 r' <= bal_of 3 r
      /\ to_go 3 r' <= to_go 3 r).
Proof. apply (fallback_dose_monotone 3 8 1 5 1200); lia. Defined.

End RoutineMore.

Section RoutineVariety.
Import Routine Plan.

(** The first line of the morning is the breather of the variant. *)
Lemma fallback_breather (E : Env) slots score seed :
  let variant := default (utc_year_day E) seed mod 3 in
  exists breather fields rest,
    BREATHERS !! Z.to_nat variant = Some breather
    /\ _fallback_plan E slots score seed = Ok (JDict (("risk", JStr (_risk_from_score score))
         :: ("morning", JList (JStr breather :: rest)) :: fields)).
Proof.
  intros variant. unfold _fallback_plan.
  assert (Hv : 0 <= variant < 3) by (apply Z.mod_pos_bound; lia).
  replace (match seed with Some s => s | None => utc_year_day E end mod 3)
    with variant by (by destruct seed).
  rewrite !pick3 by exact Hv. unfold rbind.
  do 3 eexists. split; [|reflexivity].
  assert (H : variant = 0 \/ variant = 1 \/ variant = 2) by lia.
  destruct H as [H|[H|H]]; rewrite H; reflexivity.
Qed.

(** X14: the rules-based plan changes with every step of the seed and
    comes back after three: for the same slots and score, the plans of a
    seed and of the next one differ (in the breathing exercise that opens
    the morning), and the plans of a seed and of the seed plus three are
    the same. *)
Theorem fallback_variety (E : Env) (slots : gmap string pyval)
    (score : option Z) (seed : Z) :
  _fallback_plan E slots score (Some (seed + 1))
    <> _fallback_plan E slots score (Some seed)
  /\ _fallback_plan E slots score (Some (seed + 3))
     = _fallback_plan E slots score (Some seed).
Proof.
  split.
  - destruct (fallback_breather E slots score (Some seed)) as (b & f & r & Hb & ->).
    destruct (fallback_breather E slots score (Some (seed + 1)))
      as (b' & f' & r' & Hb' & ->).
    cbn [default from_option id] in Hb, Hb'.
    intros [= Heq _ _]. subst b'.
    pose proof (Z.mod_pos_bound seed 3 ltac:(lia)) as Hm.
    assert (Hs : (seed + 1) mod 3 = (seed mod 3 + 1) mod 3).
    { rewrite Z.add_mod by lia. reflexivity. }
    rewrite Hs in Hb'.
    assert (H : seed mod 3 = 0 \/ seed mod 3 = 1 \/ seed mod 3 = 2) by lia.
    destruct H as [H|[H|H]]; rewrite H in Hb, Hb'; vm_compute in Hb, Hb'; congruence.
  - unfold _fallback_plan.
    replace ((seed + 3) mod 3) with (seed mod 3); [reflexivity|].
    replace (seed + 3) with (seed + 1 * 3) by lia. by rewrite Z.mod_add.
Qed.

(** X15: validation is idempotent: what [_validate_plan] returns passes
    [_validate_plan] again unchanged. *)
Theorem validate_plan_idempotent (obj : list (string * json)) (p : list (string * json)) :
  _validate_plan obj = Some (JDict p) -> _validate_plan p = Some (JDict p).
Proof.
  intros Hv.
  apply validate_plan_some in Hv as (r & m & a & e & n & [= ->] & Hr & Hm & Ha & He & Hn).
  unfold _validate_plan, validate_body.
  cbn -[Py.mem Json.is_str_list RISKS].
  rewrite Hm, Ha, He. cbn -[Py.mem Json.is_str_list RISKS].
  by rewrite Hn, Hr.
Qed.

Lemma strings_of_map (l : list string) : Json.strings_of (map JStr l) = Ok l.
Proof. induction l as [|x l IH]; [done|]. cbn. by rewrite IH. Qed.

Lemma strings_of_inv (items : list json) (ss : list string) :
  Json.strings_of items = Ok ss -> items = map JStr ss.
Proof.
  revert ss. induction items as [|j items IH]; intros ss; cbn.
  - by intros [= <-].
  - destruct j; try discriminate.
    destruct (Json.strings_of items) as [ss'|]; [|discriminate].
    cbn. intros [= <-]. by rewrite (IH ss' eq_refl).
Qed.

(** A candidate with its three sections and nothing else. *)
Lemma validate_plan_idempotent_witness :
  _validate_plan [("risk", JStr "moderate"); ("morning", JList []);
                  ("afternoon", JList []); ("evening", JList []);
                  ("notes", JList [])]
  = Some (JDict [("risk", JStr "moderate"); ("morning", JList []);
                 ("afternoon", JList []); ("evening", JList []);
                 ("notes", JList [])]).
Proof.
  apply (validate_plan_idempotent
           [("morning", JList []); ("afternoon", JList []); ("evening", JList [])]).
  reflexivity.
Defined.

(** A suggestion that passes validation is what comes back, whatever the
    seed: its sections untouched, its notes followed by the automatic notes
    it does not hold yet. *)
Lemma suggestion_kept (E : Env) (slots : gmap string pyval)
    (score : option Z) (f : LLMSuggester) (seed : option Z)
    (obj : list (string * json)) (r : string) (m a e : json) (notes : list string) :
  f slots score = Ok (JDict obj) ->
  _validate_plan obj
  = Some (JDict [("risk", JStr r); ("morning", m); ("afternoon", a);
                 ("evening", e); ("notes", Json.of_strings notes)]) ->
  generate_daily_plan E slots score (Some f) seed
  = Ok (JDict [("risk", JStr r); ("morning", m); ("afternoon", a);
               ("evening", e);
               ("notes", Json.of_strings
                  (notes ++ List.filter (fun n => negb (Py.mem n notes))
                                        (enrich E slots score)))]).
Proof.
  intros Hf Hv.
  pose proof (validate_plan_some _ _ Hv) as (r' & m' & a' & e' & n' & [= <- <- <- <- <-]
                                            & Hr & _).
  unfold generate_daily_plan, suggested_plan. rewrite Hf. cbn [rbind].
  rewrite Hv.
  cbn -[Py.mem Json.strings_of List.filter slot_mood slot_energy slot_steps
        _risk_from_score String.append Py.str_of_int RISKS].
  unfold Json.of_strings. rewrite strings_of_map.
  cbn -[Py.mem List.filter slot_mood slot_energy slot_steps
        _risk_from_score String.append Py.str_of_int RISKS].
  rewrite Hr. cbn [try_except].
  unfold enrich. by rewrite map_app.
Qed.

(** X16: a suggestion that passes validation is what
    [generate_daily_plan] returns, never the rules-based plan, whatever the
    seed: the risk and the three sections as validated, and the notes
    followed by those of the four automatic notes (mood, energy, steps,
    band) the suggestion does not hold yet. *)
Theorem valid_suggestion_is_kept (E : Env) (slots : gmap string pyval)
    (score : option Z) (f : LLMSuggester) (seed : option Z)
    (obj : list (string * json)) (r : string) (m a e : json) (notes : list string) :
  f slots score = Ok (JDict obj) ->
  _validate_plan obj
  = Some (JDict [("risk", JStr r); ("morning", m); ("afternoon", a);
                 ("evening", e); ("notes", Json.of_strings notes)]) ->
  generate_daily_plan E slots score (Some f) seed
  = Ok (JDict [("risk", JStr r); ("morning", m); ("afternoon", a);
               ("evening", e);
               ("notes", Json.of_strings
                  (notes ++ List.filter (fun n => negb (Py.mem n notes))
                                        (enrich E slots score)))]).
Proof. apply suggestion_kept. Qed.

(** A suggester that proposes a walk, with a note. *)
Lemma valid_suggestion_is_kept_witness :
  let f : LLMSuggester := fun _ _ =>
    Ok (JDict [("morning", Json.of_strings ["Walk"]); ("afternoon", JList []);
               ("evening", JList []); ("notes", Json.of_strings ["Go slow"])]) in
  generate_daily_plan Sample.offline ∅ None (Some f) None
  = Ok (JDict [("risk", JStr "moderate"); ("morning", Json.of_strings ["Walk"]);
               ("afternoon", JList []); ("evening", JList []);
               ("notes", Json.of_strings
                  (["Go slow"]
                   ++ List.filter (fun n => negb (Py.mem n ["Go slow"]))
                                  (enrich Sample.offline ∅ None)))]).
Proof.
  intros f.
  apply (valid_suggestion_is_kept Sample.offline ∅ None f None
           [("morning", Json.of_strings ["Walk"]); ("afternoon", JList []);
            ("evening", JList []); ("notes", Json.of_strings ["Go slow"])]);
    reflexivity.
Defined.

End RoutineVariety.

Section RoutineNotes.
Import Routine Plan.

Lemma mem_In (x : string) (l : list string) : Py.mem x l = true <-> In x l.
Proof.
  unfold Py.mem. rewrite existsb_exists. split.
  - intros (y & Hy & ->%String.eqb_eq). exact Hy.
  - intros H. exists x. split; [exact H|apply String.eqb_refl].
Qed.

(** Nothing is left to add once the automatic notes are in. *)
Lemma filter_missing_nil (notes extra : list string) :
  List.filter (fun n => negb (Py.mem n (notes ++ List.filter (fun n => negb (Py.mem n notes)) extra)))
    extra = [].
Proof.
  set (notes' := notes ++ _).
  assert (H : forall x, In x extra -> Py.mem x notes' = true).
  { intros x Hx. apply mem_In. subst notes'. apply in_or_app.
    destruct (Py.mem x notes) eqn:Hm.
    - left. by apply mem_In.
    - right. apply List.filter_In. split; [exact Hx|]. by rewrite Hm. }
  clearbody notes'. induction extra as [|y extra IH]; [done|].
  cbn. rewrite (H y) by (by left). cbn. apply IH. intros x Hx. apply H. by right.
Qed.

(** X17: the automatic notes are added once: when a suggestion passed
    validation, the plan returned for it, suggested again for the same
    slots and score, is returned as it is. *)
Theorem enrichment_is_idempotent (E : Env) (slots : gmap string pyval)
    (score : option Z) (f g : LLMSuggester) (seed seed' : option Z)
    (obj : list (string * json)) (p : json) :
  f slots score = Ok (JDict obj) ->
  is_some (_validate_plan obj) = true ->
  generate_daily_plan E slots score (Some f) seed = Ok p ->
  g slots score = Ok p ->
  generate_daily_plan E slots score (Some g) seed' = Ok p.
Proof.
  intros Hf Hsome Hgen Hg.
  destruct (_validate_plan obj) as [v|] eqn:Hv; [|discriminate].
  pose proof (validate_plan_some _ _ Hv) as (r & m & a & e & n & -> & Hr & Hm & Ha & He & Hn).
  destruct n as [| | | | |items|]; try discriminate.
  cbn [Json.is_str_list] in Hn.
  destruct (strings_of_ok items Hn) as [notes Hnotes].
  apply strings_of_inv in Hnotes. subst items.
  rewrite (suggestion_kept E slots score f seed obj r m a e notes Hf Hv) in Hgen.
  assert (Hinj : forall x y : json, Ok x = Ok y -> x = y) by (intros; congruence).
  apply Hinj in Hgen. subst p. clear Hinj.
  set (notes' := notes ++ _) in *.
  rewrite (suggestion_kept E slots score g seed' _ r m a e notes' Hg).
  - subst notes'. rewrite filter_missing_nil. by rewrite app_nil_r.
  - unfold _validate_plan, validate_body.
    cbn -[Py.mem Json.is_str_list RISKS Json.of_strings].
    rewrite Hm, Ha, He. cbn -[Py.mem Json.is_str_list RISKS Json.of_strings].
    by rewrite is_str_list_of_strings, Hr.
Qed.

(** The plan of a suggester that proposes a walk, suggested again. *)
Lemma enrichment_is_idempotent_witness :
  let obj := [("morning", Json.of_strings ["Walk"]); ("afternoon", JList []);
              ("evening", JList []); ("notes", JList [])] in
  let p := JDict [("risk", JStr "moderate"); ("morning", Json.of_strings ["Walk"]);
                  ("afternoon", JList []); ("evening", JList []);
                  ("notes", Json.of_strings (enrich Sample.offline ∅ None))] in
  generate_daily_plan Sample.offline ∅ None (Some (fun _ _ => Ok p)) (Some 1) = Ok p.
Proof.
  intros obj p.
  apply (enrichment_is_idempotent Sample.offline ∅ None (fun _ _ => Ok (JDict obj))
           (fun _ _ => Ok p) None (Some 1) obj p); reflexivity.
Defined.

(** Integers below [2^53] pass through [float] unchanged. *)
Lemma round53_small (z : Z) : Z.abs z < 2 ^ 53 -> Py.round53 z = z.
Proof.
  intros Hz. unfold Py.round53.
  destruct (Z.leb_spec (Z.log2 (Z.abs z) - 52) 0) as [|Hgt]; [reflexivity|].
  exfalso.
  destruct (Z.eq_dec (Z.abs z) 0) as [H0|H0].
  - rewrite H0 in Hgt. cbn in Hgt. lia.
  - assert (Z.log2 (Z.abs z) < 53); [|lia].
    apply Z.log2_lt_pow2; lia.
Qed.

Lemma as_int_of_int (E : Env) (z d lo hi : Z) :
  Z.abs z < 2 ^ 53 ->
  _as_int E (PInt z) d (Some lo) (Some hi) = Z.min hi (Z.max lo z).
Proof.
  intros Hz. unfold _as_int, int_float_str, Py.int_of_float_of_int.
  rewrite round53_small by exact Hz.
  assert (Hlt : (Z.abs z <? Py.float_max_bound) = true).
  { apply Z.ltb_lt. unfold Py.float_max_bound.
    assert (2 ^ 53 < 2 ^ 1024) by (apply Z.pow_lt_mono_r; lia). lia. }
  rewrite Hlt. reflexivity.
Qed.

(** X18: the planner reads the numbers the dialogue stores: on well-formed
    slots the energy it plans with is the stored one, 5 when there is none,
    and the steps are the stored ones, capped at 100000, 0 when there are
    none; the conversion through [float] changes nothing below [2^53], and
    nothing from outside enters. *)
Theorem planner_reads_slots (E : Env) (sl : gmap string pyval) :
  Wf.slots_ok sl ->
  (forall s, sl !! "steps" = Some (PInt s) -> s < 2 ^ 53) ->
  slot_energy E sl = match sl !! "energy" with Some (PInt e) => e | _ => 5 end
  /\ slot_steps E sl
     = match sl !! "steps" with Some (PInt s) => Z.min 100000 s | _ => 0 end.
Proof.
  intros (_ & He & Hs) Hsmall. unfold slot_energy, slot_steps. split.
  - destruct (sl !! "energy") as [v|] eqn:Hv; [|reflexivity].
    destruct (He v eq_refl) as (e & -> & Hrange). cbn [default from_option id].
    rewrite as_int_of_int; [lia|].
    assert (2 ^ 53 = 9007199254740992) by reflexivity. lia.
  - destruct (sl !! "steps") as [v|] eqn:Hv; [|reflexivity].
    destruct (Hs v eq_refl) as (s & -> & Hrange). cbn [default from_option id].
    rewrite as_int_of_int; [lia|].
    specialize (Hsmall s eq_refl). lia.
Qed.

(** Energy 7 and 120000 steps. *)
Lemma planner_reads_slots_witness :
  let sl : gmap string pyval :=
    <["energy" := PInt 7]> (<["steps" := PInt 120000]> ∅) in
  slot_energy Sample.offline sl
    = match sl !! "energy" with Some (PInt e) => e | _ => 5 end
  /\ slot_steps Sample.offline sl
     = match sl !! "steps" with Some (PInt s) => Z.min 100000 s | _ => 0 end.
Proof.
  intros sl. apply (planner_reads_slots Sample.offline sl).
  - split; [|split]; intros v Hv; vm_compute in Hv; try discriminate Hv;
      injection Hv as <-; eexists; (split; [reflexivity | lia]).
  - intros s Hs. vm_compute in Hs. injection Hs as <-. reflexivity.
Defined.

(** The notes of the rules-based plan open with the mood. *)
Lemma fallback_notes (E : Env) slots score seed :
  exists fields rest,
    _fallback_plan E slots score seed = Ok (JDict fields)
    /\ Json.lookup "notes" fields
       = Some (Json.of_strings (("Mood: " +:+ slot_mood slots) :: rest)).
Proof.
  unfold _fallback_plan.
  assert (Hv : 0 <= match seed with Some s => s | None => utc_year_day E end mod 3 < 3)
    by (apply Z.mod_pos_bound; lia).
  rewrite !pick3 by exact Hv. unfold rbind.
  do 2 eexists. split; reflexivity.
Qed.

(** X19: a missing mood is not the default: [str(None)] is text, so with no
    mood among the slots (here: deleted) the notes of the rules-based plan
    open with the mood none; the default okay stands in for a mood of blank text only. *)
Theorem fallback_notes_missing_mood (E : Env) (slots : gmap string pyval)
    (score seed : option Z) (blank : string) :
  Py.strip blank = "" ->
  (exists fields rest,
     _fallback_plan E (delete "mood" slots) score seed = Ok (JDict fields)
     /\ Json.lookup "notes" fields = Some (Json.of_strings ("Mood: none" :: rest)))
  /\ (exists fields rest,
       _fallback_plan E (<["mood" := PStr blank]> slots) score seed = Ok (JDict fields)
       /\ Json.lookup "notes" fields = Some (Json.of_strings ("Mood: okay" :: rest))).
Proof.
  intros Hblank. split.
  - destruct (fallback_notes E (delete "mood" slots) score seed)
      as (fields & rest & Hp & Hn).
    exists fields, rest. split; [exact Hp|]. rewrite Hn.
    unfold slot_mood, _as_str. rewrite lookup_delete_eq. reflexivity.
  - destruct (fallback_notes E (<["mood" := PStr blank]> slots) score seed)
      as (fields & rest & Hp & Hn).
    exists fields, rest. split; [exact Hp|]. rewrite Hn.
    unfold slot_mood, _as_str. rewrite lookup_insert_eq.
    cbn [default from_option id py_str]. rewrite Hblank. reflexivity.
Qed.

(** No slots at all, and a mood of two spaces. *)
Lemma fallback_notes_missing_mood_witness :
  (exists fields rest,
     _fallback_plan Sample.offline (delete "mood" ∅) None (Some 0) = Ok (JDict fields)
     /\ Json.lookup "notes" fields = Some (Json.of_strings ("Mood: none" :: rest)))
  /\ (exists fields rest,
       _fallback_plan Sample.offline (<["mood" := PStr "  "]> ∅) None (Some 0)
         = Ok (JDict fields)
       /\ Json.lookup "notes" fields = Some (Json.of_strings ("Mood: okay" :: rest))).
Proof.
  apply (fallback_notes_missing_mood Sample.offline ∅ None (Some 0) "  ").
  reflexivity.
Defined.

End RoutineNotes.

(* ===================================================================== *)
(** ** More on the questionnaire *)

Section FrailtyMore.
Import Frailty Answers.

(** The loop of [prisma7_next_unanswered] stops at the first question whose
    answer is missing or does not parse. *)
Lemma next_unanswered_loop_first (qs : list Question) answers k q :
  next_unanswered_loop qs answers = Some (k, q) ->
  exists n qq,
    qs !! n = Some qq /\ key qq = k /\ question qq = q
    /\ normalized_answer answers k = None
    /\ forall m qm, (m < n)%nat -> qs !! m = Some qm ->
         is_Some (normalized_answer answers (key qm)).
Proof.
  induction qs as [|q0 qs IH]; [discriminate|]. cbn [next_unanswered_loop].
  destruct (_normalize_bool (default PNone (answers !! key q0))) as [b|] eqn:Hb.
  - intros H. destruct (IH H) as (n & qq & Hn & Hk & Hq & Hnone & Hbefore).
    exists (S n), qq. repeat split; try done.
    intros [|m] qm Hlt Hm.
    + injection Hm as <-. unfold normalized_answer.
      destruct (answers !! key q0); [by eexists|]. discriminate.
    + apply (Hbefore m); [lia|exact Hm].
  - intros [= <- <-]. exists 0%nat, q0. repeat split; try done.
    + unfold normalized_answer. by destruct (answers !! key q0).
    + intros m qm Hlt. lia.
Qed.

(** X20: [prisma7_next_unanswered] names the first question, in the order
    of the questionnaire, whose answer is missing or does not parse: the
    key and the text are those of one question, that question has no
    parsed answer, and every question before it has one. *)
Theorem next_unanswered_is_first (answers : gmap string pyval) (k q : string) :
  prisma7_next_unanswered answers = Some (k, q) ->
  exists n qq,
    PRISMA_QUESTIONS !! n = Some qq /\ key qq = k /\ question qq = q
    /\ normalized_answer answers k = None
    /\ forall m qm, (m < n)%nat -> PRISMA_QUESTIONS !! m = Some qm ->
         is_Some (normalized_answer answers (key qm)).
Proof. apply next_unanswered_loop_first. Qed.

(** Two answers given, the third question is next. *)
Lemma next_unanswered_is_first_witness :
  let answers : gmap string pyval :=
    <["over_85" := PBool false]> (<["male" := PStr "yes"]> ∅) in
  exists n qq,
    PRISMA_QUESTIONS !! n = Some qq /\ key qq = "limit_activities"
    /\ question qq = "Do health problems limit your activities? (yes/no)"
    /\ normalized_answer answers "limit_activities" = None
    /\ forall m qm, (m < n)%nat -> PRISMA_QUESTIONS !! m = Some qm ->
         is_Some (normalized_answer answers (key qm)).
Proof.
  intros answers.
  apply (next_unanswered_is_first answers "limit_activities"
           "Do health problems limit your activities? (yes/no)").
  reflexivity.
Defined.

Lemma normalized_set_same answers k v :
  Py.mem k PRISMA_ORDER = true ->
  normalized_answer (prisma7_set_answer answers k v) k = _normalize_bool v.
Proof.
  intros Hk. unfold prisma7_set_answer, normalized_answer. rewrite Hk.
  rewrite lookup_insert_eq. by destruct (_normalize_bool v) as [[]|].
Qed.

Lemma normalized_set_other answers k v k' :
  k' <> k ->
  normalized_answer (prisma7_set_answer answers k v) k'
  = normalized_answer answers k'.
Proof.
  intros Hne. unfold prisma7_set_answer, normalized_answer.
  destruct (Py.mem k PRISMA_ORDER); [|reflexivity].
  by rewrite lookup_insert_ne.
Qed.

(** X21: storing an answer with [prisma7_set_answer]: a key outside the
    questionnaire changes nothing; a key of the questionnaire takes the
    parsed value and no other key moves; and a value that does not parse
    erases the answer, so that no score is left, whatever was answered
    before. *)
Theorem set_answer_effect (answers : gmap string pyval) (k : string) (v : pyval) :
  (Py.mem k PRISMA_ORDER = false -> prisma7_set_answer answers k v = answers)
  /\ (Py.mem k PRISMA_ORDER = true ->
      normalized_answer (prisma7_set_answer answers k v) k = _normalize_bool v
      /\ (forall k', k' <> k ->
            prisma7_set_answer answers k v !! k' = answers !! k')
      /\ (_normalize_bool v = None ->
            prisma7_score (prisma7_set_answer answers k v) = Ok None)).
Proof.
  split.
  - intros Hk. unfold prisma7_set_answer. by rewrite Hk.
  - intros Hk. split; [by apply normalized_set_same|]. split.
    + intros k' Hne. unfold prisma7_set_answer. rewrite Hk.
      by rewrite lookup_insert_ne.
    + intros Hv. apply (score_incomplete _ k); [by apply mem_In|].
      by rewrite normalized_set_same.
Qed.

Lemma filter_length_step {A : Type} (f g : A -> bool) (l : list A) (n : nat) (x : A) :
  NoDup l -> l !! n = Some x ->
  f x = false -> g x = true ->
  (forall y, y <> x -> In y l -> g y = f y) ->
  length (List.filter g l) = S (length (List.filter f l)).
Proof.
  revert n. induction l as [|a l IH]; intros n Hnd Hn Hf Hg Hother; [done|].
  apply NoDup_cons in Hnd as [Hna Hnd].
  destruct n as [|n].
  - injection Hn as ->. cbn. rewrite Hf, Hg. cbn. f_equal.
    f_equal. apply List.filter_ext_in. intros y Hy. apply Hother; [|by right].
    intros ->. apply Hna. by apply list_elem_of_In.
  - cbn in Hn. cbn.
    assert (Hax : a <> x).
    { intros ->. apply Hna. by eapply list_elem_of_lookup_2. }
    rewrite (Hother a Hax (or_introl eq_refl)).
    assert (IH' := IH n Hnd Hn Hf Hg (fun y Hy Hin => Hother y Hy (or_intror Hin))).
    destruct (f a); cbn; by rewrite IH'.
Qed.

Lemma questions_nodup : NoDup PRISMA_QUESTIONS.
Proof.
  apply (NoDup_fmap_1 key). change (NoDup PRISMA_ORDER).
  apply NoDup_ListNoDup. unfold PRISMA_ORDER. cbn.
  repeat (constructor; [cbn; intros H; repeat (destruct H as [H|H]; [discriminate H|]); exact H|]).
  constructor.
Qed.

Lemma key_inj (q q' : Question) :
  In q PRISMA_QUESTIONS -> In q' PRISMA_QUESTIONS -> key q = key q' -> q = q'.
Proof.
  cbn. intros Hq Hq' Hk.
  repeat (destruct Hq as [<-|Hq]); try done;
    repeat (destruct Hq' as [<-|Hq']); try done; discriminate Hk.
Qed.

Lemma answered_all_iff (answers : gmap string pyval) :
  answered answers = 7%nat <-> prisma7_next_unanswered answers = None.
Proof.
  unfold prisma7_next_unanswered. rewrite next_unanswered_loop_none.
  unfold answered. split.
  - intros Hlen. apply Forall_forall. intros qx Hqx.
    assert (Hall : forallb (fun q => is_some (normalized_answer answers (key q)))
                     PRISMA_QUESTIONS = true).
    { revert Hlen. generalize (fun q => is_some (normalized_answer answers (key q))).
      intros f. cbn.
      repeat match goal with |- context [f ?q] => destruct (f q) eqn:?; cbn end;
        try reflexivity; intros; lia. }
    rewrite forallb_forall in Hall. apply list_elem_of_In in Hqx.
    specialize (Hall _ Hqx). by destruct (normalized_answer answers (key qx)).
  - intros Hall. rewrite Forall_forall in Hall.
    assert (Heq : List.filter (fun q => is_some (normalized_answer answers (key q)))
                    PRISMA_QUESTIONS = PRISMA_QUESTIONS).
    { apply forallb_filter_id. apply forallb_forall. intros qx Hqx.
      apply list_elem_of_In in Hqx. destruct (Hall _ Hqx) as [b ->]. done. }
    by rewrite Heq.
Qed.

(** X22: the two wizard helpers make progress together: storing a value
    that parses under the key [prisma7_next_unanswered] names answers
    exactly one question more, never more than seven; and all seven are
    answered exactly when [prisma7_next_unanswered] names no question. *)
Theorem answering_next_makes_progress (answers : gmap string pyval)
    (k q : string) (v : pyval) (b : bool) :
  prisma7_next_unanswered answers = Some (k, q) ->
  _normalize_bool v = Some b ->
  answered (prisma7_set_answer answers k v) = S (answered answers)
  /\ (answered (prisma7_set_answer answers k v) <= 7)%nat
  /\ (answered (prisma7_set_answer answers k v) = 7%nat
      <-> prisma7_next_unanswered (prisma7_set_answer answers k v) = None).
Proof.
  intros Hnext Hv.
  destruct (next_unanswered_is_first answers k q Hnext)
    as (n & qq & Hn & Hk & Hq & Hnone & _).
  assert (Hin : In qq PRISMA_QUESTIONS).
  { apply list_elem_of_In. by eapply list_elem_of_lookup_2. }
  assert (Hmem : Py.mem k PRISMA_ORDER = true).
  { apply mem_In. subst k. unfold PRISMA_ORDER. by apply in_map. }
  split.
  - unfold answered.
    apply (filter_length_step _ _ PRISMA_QUESTIONS n qq questions_nodup Hn).
    + rewrite Hk. by rewrite Hnone.
    + rewrite Hk. by rewrite normalized_set_same, Hv.
    + intros y Hy Hyin. rewrite normalized_set_other; [done|].
      intros Heq. apply Hy. apply key_inj; try done. by rewrite Heq.
  - split; [|apply answered_all_iff]. unfold answered.
    etransitivity; [apply List.filter_length_le|]. cbn. lia.
Qed.

(** The first question is answered with a yes. *)
Lemma answering_next_makes_progress_witness :
  answered (prisma7_set_answer ∅ "over_85" (PStr "yes")) = S (answered ∅)
  /\ (answered (prisma7_set_answer ∅ "over_85" (PStr "yes")) <= 7)%nat
  /\ (answered (prisma7_set_answer ∅ "over_85" (PStr "yes")) = 7%nat
      <-> prisma7_next_unanswered (prisma7_set_answer ∅ "over_85" (PStr "yes")) = None).
Proof.
  apply (answering_next_makes_progress ∅ "over_85" "Are you over 85? (yes/no)"
           (PStr "yes") true); reflexivity.
Defined.

(** X23: the scorer and the planner draw the line differently: the
    high-risk flag of app/tools/frailty.py is off exactly when the planner's
    band is low; at a score of 3 or 4 the flag is on while the band is
    moderate; the band is high, and the step increment reduced, from 5 on
    only. *)
Theorem high_risk_flag_and_band (s : Z) :
  (prisma7_is_high_risk (Some s) = Some false
   <-> Routine._risk_from_score (Some s) = "low")
  /\ (3 <= s <= 4 ->
      prisma7_is_high_risk (Some s) = Some true
      /\ Routine._risk_from_score (Some s) = "moderate")
  /\ (Routine._risk_from_score (Some s) = "high" <-> 5 <= s).
Proof.
  unfold prisma7_is_high_risk, PRISMA_HIGH_RISK_THRESHOLD, Routine._risk_from_score.
  destruct (Z.leb_spec 3 s), (Z.leb_spec s 2), (Z.leb_spec s 4); try lia;
    (split; [split; intros; try done; try lia|]);
    (split; [intros; try lia; by split|]);
    split; intros; try done; try lia.
Qed.

End FrailtyMore.

Section TwoScorers.
Import Answers.

(** X24: the same seven answers score differently in the two implementations:
    livewell-e counts the yes answers, app/tools/frailty.py counts the sixth
    answer in reverse, so the scores are always one apart. *)
Theorem scorers_one_apart (b1 b2 b3 b4 b5 b6 b7 : bool) :
  let bs := [b1; b2; b3; b4; b5; b6; b7] in
  let s' := (LiveWellE.prisma7_score (answers_of LiveWellE._KEYS bs) 3).1 in
  Frailty.prisma7_score (answers_of Frailty.PRISMA_ORDER bs)
  = Ok (Some (if b6 then s' - 1 else s' + 1)).
Proof.
  destruct b1, b2, b3, b4, b5, b6, b7; vm_compute; reflexivity.
Qed.

End TwoScorers.

(* ===================================================================== *)
(** ** The session store *)

Section MemoryFacts.
Import Memory.

Lemma expired_after_save (now now' : Z) (uid : string) (new_state : gmap string snapval)
    (m : Store) :
  expired now' uid (save now uid new_state m)
  = negb (now + _TTL_SEC =? 0) && (now + _TTL_SEC <? now').
Proof. unfold expired, save. cbn. by rewrite lookup_insert_eq. Qed.

(** Reading a snapshot back, before and after its hour. *)
Lemma get_after_save (now now' : Z) (uid : string)
    (new_state : gmap string snapval) (m : Store) :
  0 < now ->
  let m1 := save now uid new_state m in
  let prev := default ∅ (_store m !! uid) in
  (now' <= now + 3600 ->
     get now' uid m1 = (kept new_state ∪ prev, m1))
  /\ (now + 3600 < now' ->
     (get now' uid m1).1 = ∅
     /\ _store (get now' uid m1).2 !! uid = None
     /\ _expiry (get now' uid m1).2 !! uid = None).
Proof.
  intros Hnow m1 prev. split.
  - intros Hle. unfold get. subst m1. rewrite expired_after_save.
    assert (H : (now + _TTL_SEC <? now') = false)
      by (apply Z.ltb_ge; unfold _TTL_SEC; lia).
    rewrite H, andb_false_r. unfold save. cbn. by rewrite lookup_insert_eq.
  - intros Hlt. unfold get. subst m1. rewrite expired_after_save.
    assert (H : (now + _TTL_SEC <? now') = true)
      by (apply Z.ltb_lt; unfold _TTL_SEC; lia).
    assert (H0 : (now + _TTL_SEC =? 0) = false)
      by (apply Z.eqb_neq; unfold _TTL_SEC; lia).
    rewrite H, H0. cbn. by rewrite !lookup_delete_eq.
Qed.

(** X25: a snapshot lives one hour: saved at a clock reading [now], it is
    read back up to 3600 seconds later as the kept keys of what was saved,
    merged over what was stored before with the new values winning, and
    the store is left as it is; later than that it reads as empty and the
    read drops it. *)
Theorem snapshot_lives_one_hour (now now' : Z) (uid : string)
    (new_state : gmap string snapval) (m : Store) :
  0 < now ->
  let m1 := save now uid new_state m in
  let prev := default ∅ (_store m !! uid) in
  (now' <= now + 3600 ->
     get now' uid m1 = (kept new_state ∪ prev, m1))
  /\ (now + 3600 < now' ->
     (get now' uid m1).1 = ∅
     /\ _store (get now' uid m1).2 !! uid = None
     /\ _expiry (get now' uid m1).2 !! uid = None).
Proof. apply get_after_save. Qed.

(** A score saved at second 1000. *)
Lemma snapshot_lives_one_hour_witness :
  let new_state : gmap string snapval := <["frailty_score" := SScore (Some 2)]> ∅ in
  let m1 := save 1000 "demo" new_state empty in
  let prev := default ∅ (_store empty !! "demo") in
  (4600 <= 1000 + 3600 ->
     get 4600 "demo" m1 = (kept new_state ∪ prev, m1))
  /\ (1000 + 3600 < 4600 ->
     (get 4600 "demo" m1).1 = ∅
     /\ _store (get 4600 "demo" m1).2 !! "demo" = None
     /\ _expiry (get 4600 "demo" m1).2 !! "demo" = None).
Proof.
  intros new_state.
  apply (snapshot_lives_one_hour 1000 4600 "demo" new_state empty). lia.
Defined.

(** X26: [save] does not look at the clock of what it merges into: a key of
    a snapshot that ran out, and was not read since, is gone for a read
    made now, but comes back with the next save that does not set it. *)
Theorem save_revives_stale_keys (now : Z) (uid k : string)
    (new_state prev : gmap string snapval) (v : snapval) (m : Store) :
  0 < now ->
  expired now uid m = true ->
  _store m !! uid = Some prev ->
  prev !! k = Some v ->
  new_state !! k = None ->
  (get now uid m).1 = ∅
  /\ (get now uid (save now uid new_state m)).1 !! k = Some v.
Proof.
  intros Hnow Hexp Hprev Hk Hnew. split.
  - unfold get. by rewrite Hexp.
  - destruct (get_after_save now now uid new_state m Hnow) as [Hget _].
    rewrite Hget by lia. cbn. rewrite Hprev. cbn.
    apply lookup_union_Some_raw. right. split; [|exact Hk].
    unfold kept. apply map_lookup_filter_None. left. exact Hnew.
Qed.

(** A mood saved at second 1000; a score saved two hours later. *)
Lemma save_revives_stale_keys_witness :
  let m := save 1000 "demo" (<["mood" := SSlot (PStr "low")]> ∅) empty in
  let new_state : gmap string snapval := <["frailty_score" := SScore (Some 2)]> ∅ in
  (get 8200 "demo" m).1 = ∅
  /\ (get 8200 "demo" (save 8200 "demo" new_state m)).1 !! "mood"
     = Some (SSlot (PStr "low")).
Proof.
  intros m new_state.
  apply (save_revives_stale_keys 8200 "demo" "mood" new_state
           (kept (<["mood" := SSlot (PStr "low")]> ∅) ∪ ∅) (SSlot (PStr "low")) m);
    [lia | reflexivity | | reflexivity | reflexivity].
  unfold m, save. cbn [_store]. rewrite lookup_insert_eq. reflexivity.
Defined.

(** Keys outside the list are never stored. *)
Lemma kept_keys (new_state : gmap string snapval) (k : string) :
  Py.mem k _PERSIST_KEYS = false -> kept new_state !! k = None.
Proof.
  intros Hk. unfold kept. apply map_lookup_filter_None. right.
  intros v _ H. cbn [fst] in H. congruence.
Qed.

(** X27: the session store: what [set_session] writes under an identifier
    is what [get_session] returns for it, without changing the store; the
    state, the snapshot and the lifetime of every other identifier are
    untouched; and after [reset_session] the identifier holds a new session
    and no snapshot. *)
Theorem session_round_trip (now : Z) (sid sid' : string) (st : State) (m : Store) :
  get_session sid (set_session now sid st m) = (st, set_session now sid st m)
  /\ (sid' <> sid ->
      _SESSIONS (set_session now sid st m) !! sid' = _SESSIONS m !! sid'
      /\ _store (set_session now sid st m) !! sid' = _store m !! sid'
      /\ _expiry (set_session now sid st m) !! sid' = _expiry m !! sid')
  /\ (let '(s0, m0) := reset_session sid m in
      s0 = new_session
      /\ get_session sid m0 = (new_session, m0)
      /\ get now sid m0 = (∅, m0)).
Proof.
  split; [|split].
  - unfold get_session, set_session, save. cbn. by rewrite lookup_insert_eq.
  - intros Hne. unfold set_session, save. cbn.
    by rewrite !lookup_insert_ne.
  - unfold reset_session. split; [reflexivity|]. split.
    + unfold get_session, clear. cbn. by rewrite lookup_insert_eq.
    + unfold get, expired, clear. cbn. by rewrite !lookup_delete_eq.
Qed.

(** X28: a chat request changes the session it names and no other: the
    state, the snapshot and the lifetime stored for any other identifier
    are the same after it. *)
Theorem chat_request_isolated (E : Env) (now : Z) (m m' : Store)
    (sid sid' msg r : string) :
  chat_request E now m sid msg = Ok (r, m') ->
  sid' <> sid ->
  _SESSIONS m' !! sid' = _SESSIONS m !! sid'
  /\ _store m' !! sid' = _store m !! sid'
  /\ _expiry m' !! sid' = _expiry m !! sid'.
Proof.
  unfold chat_request, get_session. intros H Hne.
  destruct (_SESSIONS m !! sid) as [st|] eqn:Hs.
  - destruct (Nodes.chat E st sid msg) as [[r0 st']|]; [|discriminate].
    cbn in H. injection H as <- <-.
    unfold set_session, save. cbn. by rewrite !lookup_insert_ne.
  - destruct (Nodes.chat E new_session sid msg) as [[r0 st']|]; [|discriminate].
    cbn in H. injection H as <- <-.
    unfold set_session, save. cbn. by rewrite !lookup_insert_ne.
Qed.

(** The first request of a session, with another session in the store. *)
Lemma chat_request_isolated_witness :
  let m := set_session 1000 "other" Sample.at_question_3 empty in
  exists r m',
    chat_request Sample.offline 2000 m "demo" "hello" = Ok (r, m')
    /\ _SESSIONS m' !! "other" = _SESSIONS m !! "other"
    /\ _store m' !! "other" = _store m !! "other"
    /\ _expiry m' !! "other" = _expiry m !! "other".
Proof.
  intros m.
  destruct (chat_request Sample.offline 2000 m "demo" "hello") as [[r m']|e] eqn:Hc.
  - exists r, m'. split; [reflexivity|].
    apply (chat_request_isolated Sample.offline 2000 m m' "demo" "other" "hello" r Hc).
    discriminate.
  - exfalso. vm_compute in Hc. discriminate Hc.
Defined.

(** X29: a chat request against the store is answered whenever the state
    stored for the session, if there is one, is well formed and the message
    is not a blank answer to the mood question; a session not seen before
    starts from a new state; the reply is not empty, and the state stored
    afterwards is well formed and holds the reply. *)
Theorem chat_request_safe (E : Env) (now : Z) (m : Store) (sid msg : string) :
  (forall st, _SESSIONS m !! sid = Some st -> Wf.state_ok st /\ Wf.answerable st msg) ->
  exists r m' st',
    chat_request E now m sid msg = Ok (r, m')
    /\ Py.truthy_str r = true
    /\ _SESSIONS m' !! sid = Some st'
    /\ Wf.state_ok st'
    /\ reply st' = Some r.
Proof.
  intros Hok. unfold chat_request, get_session.
  destruct (_SESSIONS m !! sid) as [st|] eqn:Hs.
  - destruct (Hok st eq_refl) as [Hst Hans].
    destruct (chat_safe E st sid msg Hst Hans) as (r & st' & Hc & Ht & Hst' & Hr & _).
    rewrite Hc. cbn. exists r. eexists. exists st'. split; [reflexivity|].
    unfold set_session, save. cbn. rewrite lookup_insert_eq. done.
  - assert (Hans : Wf.answerable new_session msg) by (intros H; discriminate H).
    destruct (chat_safe E new_session sid msg state_ok_new_session Hans)
      as (r & st' & Hc & Ht & Hst' & Hr & _).
    rewrite Hc. cbn. exists r. eexists. exists st'. split; [reflexivity|].
    unfold set_session, save. cbn. rewrite lookup_insert_eq. done.
Qed.

(** The first request of a session. *)
Lemma chat_request_safe_witness :
  exists r m' st',
    chat_request Sample.offline 1000 empty "demo" "hello" = Ok (r, m')
    /\ Py.truthy_str r = true
    /\ _SESSIONS m' !! "demo" = Some st'
    /\ Wf.state_ok st'
    /\ reply st' = Some r.
Proof.
  apply (chat_request_safe Sample.offline 1000 empty "demo" "hello").
  intros st Hst. vm_compute in Hst. discriminate Hst.
Defined.

End MemoryFacts.

(* ===================================================================== *)
(** ** The wizard of livewell-e *)

Section LiveWellFacts.
Import LiveWellEGraph.

Lemma payload_lookup (answers : gmap string pyval) (k : string) :
  In k LiveWellE._KEYS ->
  payload answers !! k = Some (default (PBool false) (answers !! k)).
Proof.
  unfold payload. cbn [fold_right LiveWellE._KEYS].
  intros Hk. cbn in Hk.
  repeat (destruct Hk as [<-|Hk];
          [ rewrite ?lookup_insert_ne by discriminate; apply lookup_insert_eq |]).
  destruct Hk.
Qed.

Lemma payload_count (answers : gmap string pyval) :
  Z.of_nat (length (List.filter (fun k => LiveWellE._get (payload answers) k)
                                LiveWellE._KEYS))
  = yes_count answers.
Proof.
  unfold yes_count.
  rewrite (List.filter_ext_in (fun k => LiveWellE._get (payload answers) k)
             (fun k => py_truthy (default (PBool false) (answers !! k)))); [reflexivity|].
  intros k Hk. unfold LiveWellE._get. by rewrite payload_lookup.
Qed.

Lemma order_index (c : Z) :
  0 <= c <= 6 ->
  exists k q, PRISMA_ORDER !! Z.to_nat c = Some (k, q)
              /\ Py.list_index PRISMA_ORDER c = Ok (k, q)
              /\ LiveWellE._KEYS !! Z.to_nat c = Some k.
Proof.
  intros Hc.
  assert (H : c = 0 \/ c = 1 \/ c = 2 \/ c = 3 \/ c = 4 \/ c = 5 \/ c = 6) by lia.
  destruct H as [H|[H|[H|[H|[H|[H|H]]]]]]; subst c;
    do 2 eexists; repeat split; reflexivity.
Qed.

(** X30: one turn of the wizard of livewell-e: a message that is neither yes nor
    no is answered with the request to answer yes or no, and nothing moves;
    an answer is stored under the key of the cursor; before the seventh
    answer the next question is asked, on the seventh the wizard ends with
    the number of yes answers as the score, potentially frail from 3 on. *)
Theorem livewell_wizard_turn (s : Session) (c : Z) :
  awaiting s = Some "prisma" ->
  default 0 (prisma_cursor s) = c -> 0 <= c <= 6 ->
  let s1 := classify_intent s in
  policy_router s1 = "continue_prisma"
  /\ exists k q s',
       PRISMA_ORDER !! Z.to_nat c = Some (k, q)
       /\ continue_prisma s1 = Ok s'
       /\ match (LiveWellE._parse_yes_no (message s)).1 with
          | None =>
              reply s' = Some "Please answer yes or no."
              /\ prisma_cursor s' = prisma_cursor s
              /\ prisma_answers s' = prisma_answers s
              /\ prisma_next_or_plan s' = "ask_more"
          | Some b =>
              let answers := <[k := PBool b]> (default ∅ (prisma_answers s)) in
              prisma_answers s' = Some answers
              /\ if c <? 6 then
                   prisma_cursor s' = Some (c + 1)
                   /\ (exists k2 q2, PRISMA_ORDER !! Z.to_nat (c + 1) = Some (k2, q2)
                                     /\ reply s' = Some q2)
                   /\ frailty_score s' = frailty_score s
                   /\ prisma_next_or_plan s' = "ask_more"
                 else
                   prisma_cursor s' = None
                   /\ prisma_flow_active s' = Some false
                   /\ frailty_score s' = Some (yes_count answers)
                   /\ frailty_band s'
                      = Some (if 3 <=? yes_count answers
                              then "potential_frail" else "low")
                   /\ prisma_next_or_plan s' = "to_plan"
          end.
Proof.
  intros Ha Hc Hrange s1. split.
  { subst s1. unfold policy_router, classify_intent, intent_of. cbn [intent].
    rewrite Ha. reflexivity. }
  destruct (order_index c Hrange) as (k & q & Hkq & Hidx & _).
  exists k, q. unfold continue_prisma.
  change (message s1) with (message s).
  change (prisma_cursor s1) with (prisma_cursor s).
  change (prisma_answers s1) with (prisma_answers s).
  rewrite Hc.
  destruct (LiveWellE._parse_yes_no (message s)) as [[b|] err] eqn:Hp.
  - rewrite Hidx. cbn [rbind fst]. cbv beta iota.
    change (Z.of_nat (length PRISMA_ORDER)) with 7.
    destruct (Z.ltb_spec c 6) as [Hlt|Hge].
    + assert (H7 : (c + 1 <? 7) = true) by lia. rewrite H7.
      destruct (order_index (c + 1) ltac:(lia)) as (k2 & q2 & Hkq2 & Hidx2 & _).
      rewrite Hidx2. cbn [rbind]. cbv beta iota.
      eexists. split; [exact Hkq|]. split; [reflexivity|].
      cbn [prisma_answers prisma_cursor prisma_flow_active frailty_score
           frailty_band awaiting reply classify_intent].
      unfold prisma_next_or_plan.
      cbn [awaiting default from_option id].
      repeat split; try reflexivity. by exists k2, q2.
    + assert (H7 : (c + 1 <? 7) = false) by lia. rewrite H7.
      unfold LiveWellE.prisma7_score. cbv beta iota zeta.
      rewrite payload_count.
      eexists. split; [exact Hkq|]. split; [reflexivity|].
      cbn [prisma_answers prisma_cursor prisma_flow_active frailty_score
           frailty_band awaiting].
      unfold prisma_next_or_plan.
      cbn [awaiting default from_option id].
      repeat split; reflexivity.
  - cbn [fst].
    assert (Herr : err = "Please answer yes or no.").
    { unfold LiveWellE._parse_yes_no in Hp.
      repeat match type of Hp with
             | (if ?b then _ else _) = _ => destruct b; try discriminate Hp
             end.
      by injection Hp as <-. }
    subst err. eexists. split; [exact Hkq|]. split; [reflexivity|].
    unfold prisma_next_or_plan.
    cbn [prisma_answers prisma_cursor awaiting reply classify_intent
         default from_option id Py.truthy_str].
    repeat split; reflexivity.
Qed.

(** The seventh answer, after a yes to the first question. *)
Lemma livewell_wizard_turn_witness :
  let s := {| message := "yes"; intent := None; mood := None; energy := None;
              steps := None; prisma_inputs := None; frailty_score := None;
              frailty_band := None; prisma_flow_active := Some true;
              prisma_cursor := Some 6;
              prisma_answers := Some (<["over_85" := PBool true]> ∅);
              awaiting := Some "prisma"; reply := None |} in
  let s1 := classify_intent s in
  policy_router s1 = "continue_prisma"
  /\ exists k q s',
       PRISMA_ORDER !! Z.to_nat 6 = Some (k, q)
       /\ continue_prisma s1 = Ok s'
       /\ match (LiveWellE._parse_yes_no (message s)).1 with
          | None =>
              reply s' = Some "Please answer yes or no."
              /\ prisma_cursor s' = prisma_cursor s
              /\ prisma_answers s' = prisma_answers s
              /\ prisma_next_or_plan s' = "ask_more"
          | Some b =>
              let answers := <[k := PBool b]> (default ∅ (prisma_answers s)) in
              prisma_answers s' = Some answers
              /\ if 6 <? 6 then
                   prisma_cursor s' = Some (6 + 1)
                   /\ (exists k2 q2, PRISMA_ORDER !! Z.to_nat (6 + 1) = Some (k2, q2)
                                     /\ reply s' = Some q2)
                   /\ frailty_score s' = frailty_score s
                   /\ prisma_next_or_plan s' = "ask_more"
                 else
                   prisma_cursor s' = None
                   /\ prisma_flow_active s' = Some false
                   /\ frailty_score s' = Some (yes_count answers)
                   /\ frailty_band s'
                      = Some (if 3 <=? yes_count answers
                              then "potential_frail" else "low")
                   /\ prisma_next_or_plan s' = "to_plan"
          end.
Proof.
  intros s.
  apply (livewell_wizard_turn s 6); [reflexivity | reflexivity | lia].
Defined.

End LiveWellFacts.
